(** * KashPages: validation, record store adapter, route handlers, sitemap

    A shallow embedding of the TypeScript sources
      - src/lib/validation.ts
      - src/lib/firestore.ts
      - src/app/api/landing-pages/route.ts
      - src/app/api/landing-pages/[id]/route.ts
      - src/app/api/landing-pages/[id]/publish/route.ts
      - src/app/sitemap.ts
    and the properties the specification states about them. *)

From Stdlib Require Import ZArith QArith Ascii String.
From stdpp Require Import base gmap strings list fin_maps.

Local Open Scope Z_scope.

(* ===================================================================== *)
(** * JavaScript strings                                                  *)
(* ===================================================================== *)

(** A JavaScript string is a sequence of UTF-16 code units; [.length]
    counts code units. *)
Module JS.

Abbreviation jsstring := (list N).

(** An ASCII literal of the source as a sequence of code units. *)
Definition u (s : string) : jsstring :=
  (fun a => N_of_ascii a) <$> list_ascii_of_string s.

(** [s.length] *)
Definition len (s : jsstring) : Z := Z.of_nat (length s).

(** [!s] for a string [s]: true exactly for the empty string. *)
Definition falsy (s : jsstring) : bool :=
  match s with [] => true | _ => false end.

Definition inRange (lo hi c : N) : bool := ((lo <=? c) && (c <=? hi))%N.

Definition HYPHEN : N := 45.
Definition UNDERSCORE : N := 95.

Definition isDigit (c : N) : bool := inRange 48 57 c.
Definition isLower (c : N) : bool := inRange 97 122 c.
Definition isUpper (c : N) : bool := inRange 65 90 c.

(** The regular-expression class [\w] (no unicode or ignore-case flag):
    [A-Za-z0-9_]. *)
Definition isWordChar (c : N) : bool :=
  isLower c || isUpper c || isDigit c || (c =? UNDERSCORE)%N.

(** The class [\s], which is also what [trim] strips: the WhiteSpace and
    LineTerminator code points of ECMAScript (TAB, LF, VT, FF, CR, SP,
    NBSP, U+1680, U+2000..U+200A, U+2028, U+2029, U+202F, U+205F, U+3000,
    U+FEFF). *)
Definition isWhiteSpace (c : N) : bool :=
  inRange 9 13 c || (c =? 32)%N || (c =? 160)%N || (c =? 5760)%N
  || inRange 8192 8202 c || (c =? 8232)%N || (c =? 8233)%N
  || (c =? 8239)%N || (c =? 8287)%N || (c =? 12288)%N || (c =? 65279)%N.

(** Drop the longest prefix of code units in the class [p]. *)
Fixpoint dropPrefix (p : N -> bool) (s : jsstring) : jsstring :=
  match s with
  | c :: r => if p c then dropPrefix p r else s
  | [] => []
  end.

Definition trimStart (s : jsstring) : jsstring := dropPrefix isWhiteSpace s.

Definition trimEnd (s : jsstring) : jsstring := rev (trimStart (rev s)).

(** [s.trim()] *)
Definition trim (s : jsstring) : jsstring := trimEnd (trimStart s).

(** [s.startsWith(p)] *)
Fixpoint startsWith (s p : jsstring) : bool :=
  match p, s with
  | [], _ => true
  | _ :: _, [] => false
  | a :: p', c :: s' => (a =? c)%N && startsWith s' p'
  end.

(** [s.endsWith(p)] *)
Definition endsWith (s p : jsstring) : bool := startsWith (rev s) (rev p).

(** [s.includes(p)] *)
Fixpoint includes (s p : jsstring) : bool :=
  startsWith s p ||
  match s with
  | [] => false
  | _ :: s' => includes s' p
  end.

(** [String.prototype.toLowerCase] on strings of the Basic Latin block:
    [A-Z] go to [a-z], every other code unit stays. *)
Definition toLowerCase_ascii (s : jsstring) : jsstring :=
  (fun c => if isUpper c then (c + 32)%N else c) <$> s.

End JS.
Export JS.

(* ===================================================================== *)
(** * src/lib/validation.ts                                               *)
(* ===================================================================== *)

Module Validation.

(** [/^[a-z0-9-]+$/] : one character of the class. *)
Definition slugClass (c : N) : bool :=
  isLower c || isDigit c || (c =? HYPHEN)%N.

(** [/^[a-z0-9-]+$/.test(slug)] *)
Definition slugRegexTest (slug : jsstring) : bool :=
  match slug with
  | [] => false
  | _ => forallb slugClass slug
  end.

Definition validateSlug (slug : jsstring) : option jsstring :=
  if falsy slug then Some (u "Slug is required")
  else if len slug <? 2 then Some (u "Slug must be at least 2 characters")
  else if len slug >? 50 then Some (u "Slug must not exceed 50 characters")
  else if negb (slugRegexTest slug) then
    Some (u "Slug must contain only lowercase letters, numbers, and hyphens")
  else if startsWith slug (u "-") || endsWith slug (u "-") then
    Some (u "Slug cannot start or end with a hyphen")
  else None.

Definition validateMetaDescription (description : jsstring) : option jsstring :=
  if falsy description then Some (u "Meta description is required")
  else if len description <? 20 then
    Some (u "Meta description must be at least 20 characters")
  else if len description >? 160 then
    Some (u "Meta description must not exceed 160 characters")
  else None.

Definition validateHtmlContent (html : jsstring) : option jsstring :=
  if falsy html then Some (u "HTML content is required")
  else
    let trimmed := trim html in
    if len trimmed <? 10 then
      Some (u "HTML content must be at least 10 characters")
    else if len trimmed >? 1000000 then
      Some (u "HTML content exceeds maximum size")
    else None.

(** [/^[^\s@]+@[^\s@]+\.[^\s@]+$/] : the class [[^\s@]]. *)
Definition emailClass (c : N) : bool := negb (isWhiteSpace c) && negb (c =? 64)%N.

(** [/^[^\s@]+@[^\s@]+\.[^\s@]+$/.test(email)]: exactly one [@], no white
    space, a non-empty local part, and a domain part with a dot that has
    at least one character on each side. *)
Fixpoint dotInside (dom : jsstring) : bool :=
  match dom with
  | _ :: ((d :: _ :: _) as r) => (d =? 46)%N || dotInside r
  | _ => false
  end.

Fixpoint splitAt64 (s : jsstring) : option (jsstring * jsstring) :=
  match s with
  | [] => None
  | c :: r =>
      if (c =? 64)%N then Some ([], r)
      else match splitAt64 r with
           | Some (a, b) => Some (c :: a, b)
           | None => None
           end
  end.

Definition emailRegexTest (email : jsstring) : bool :=
  match splitAt64 email with
  | Some (loc, dom) =>
      negb (falsy loc) && forallb emailClass loc
      && forallb emailClass dom && dotInside dom
  | None => false
  end.

Definition validateEmail (email : jsstring) : option jsstring :=
  if falsy email then None
  else if negb (emailRegexTest email) then Some (u "Invalid email format")
  else None.

Definition validatePhone (phone : jsstring) : option jsstring :=
  if falsy phone then None
  else if len phone <? 7 then Some (u "Phone number must be at least 7 digits")
  else if len phone >? 20 then
    Some (u "Phone number must not exceed 20 characters")
  else None.

Definition validateRequired (value fieldName : jsstring) : option jsstring :=
  if falsy value || falsy (trim value) then Some (fieldName ++ u " is required")
  else if len value >? 500 then
    Some (fieldName ++ u " must not exceed 500 characters")
  else None.

(** The platform's [URL] object, as far as this development looks at it. *)
Record URL := { protocol : jsstring; hostname : jsstring; pathname : jsstring }.

(** [.replace(/[^\w\s-]/g, '')] *)
Definition removeSpecial (s : jsstring) : jsstring :=
  List.filter (fun c => isWordChar c || isWhiteSpace c || (c =? HYPHEN)%N) s.

(** [.replace(re, '-')] for a global regular expression [re] of the form
    [C+] with [C] a character class: every maximal run of code units of
    the class becomes one hyphen. [inRun] tells that the previous code
    unit already belonged to the run being replaced. *)
Fixpoint replaceRuns (p : N -> bool) (inRun : bool) (s : jsstring) : jsstring :=
  match s with
  | [] => []
  | c :: r =>
      if p c then
        if inRun then replaceRuns p true r else HYPHEN :: replaceRuns p true r
      else c :: replaceRuns p false r
  end.

(** [.replace(/\s+/g, '-')] *)
Definition spacesToHyphen (s : jsstring) : jsstring :=
  replaceRuns isWhiteSpace false s.

(** [.replace(/-+/g, '-')] *)
Definition squeezeHyphens (s : jsstring) : jsstring :=
  replaceRuns (N.eqb HYPHEN) false s.

(** [.replace(/^-+|-+$/g, '')] *)
Definition stripHyphens (s : jsstring) : jsstring :=
  rev (dropPrefix (N.eqb HYPHEN) (rev (dropPrefix (N.eqb HYPHEN) s))).

Section Platform.

(** The two platform functions the validators call:
    [String.prototype.toLowerCase], and the [URL] constructor, which
    either yields a URL object or throws ([None]). *)
Variable toLowerCase : jsstring -> jsstring.
Variable newURL : jsstring -> option URL.

Definition generateSlug (title : jsstring) : jsstring :=
  stripHyphens
    (squeezeHyphens
      (spacesToHyphen
        (removeSpecial
          (trim (toLowerCase title))))).

Definition validateUrl (url : jsstring) : option jsstring :=
  if falsy url then None
  else match newURL url with
       | Some _ => None
       | None => Some (u "Invalid URL format")
       end.

Definition validExtensions : list jsstring :=
  [u ".jpg"; u ".jpeg"; u ".png"; u ".gif"; u ".webp"].

Definition validateOgImage (imageUrl : jsstring) : option jsstring :=
  if falsy imageUrl then Some (u "Featured image URL is required")
  else
    match validateUrl imageUrl with
    | Some _ => Some (u "Featured image URL must be valid")
    | None =>
        let hasValidExt :=
          existsb (fun ext => endsWith (toLowerCase imageUrl) ext)
                  validExtensions in
        if negb hasValidExt
           && negb (includes imageUrl (u "firebaseapp.com"))
           && negb (includes imageUrl (u "firebase.google.com"))
        then Some (u "Image URL should be a direct image file (jpg, png, gif, webp) or Firebase URL")
        else None
    end.

End Platform.

End Validation.
Export Validation.

(* ===================================================================== *)
(** * Documents, the world, and the effect monad                          *)
(* ===================================================================== *)

Module Store.

(** Field values of a document or of a JSON request body. *)
Inductive Value :=
| VNull
| VBool (b : bool)
| VNum (n : Z)
| VStr (s : jsstring)
| VDate (t : Z).

#[global] Instance Value_eq_dec : EqDecision Value.
Proof. solve_decision. Defined.

(** A JavaScript object used as a record: field name to value. A field
    that is absent reads as [undefined]. *)
Abbreviation Doc := (gmap string Value).

(** Truthiness of [o.k]. *)
Definition truthy (v : option Value) : bool :=
  match v with
  | Some (VBool b) => b
  | Some (VNum n) => negb (n =? 0)
  | Some (VStr s) => negb (falsy s)
  | Some (VDate _) => true
  | Some VNull | None => false
  end.

(** [o.status === 'published'] and the like. *)
Definition fieldIs (o : Doc) (k : string) (s : string) : bool :=
  bool_decide (o !! k = Some (VStr (u s))).

Record Admin := { uid : jsstring; email : jsstring; displayName : jsstring }.

Record AuditEntry := {
  action : jsstring;
  adminId : jsstring;
  targetType : jsstring;
  targetId : jsstring;
  changes : option (Doc * option Doc);
  ipAddress : option jsstring;
  timestamp : Z
}.

(** The entry points of the Validator and of the Record Store Adapter. *)
Inductive Call :=
| CallValidator
| CallAdapter (fn : string).

(** Everything a request handler can read or change. [calls] is a ghost
    log of the entries into the Validator and the Record Store Adapter,
    most recent first; [storeUp] tells whether the document store can be
    reached; [rebuildRequests] counts the rebuilds asked of the CI hook. *)
Record World := {
  landingPages : gmap jsstring Doc;
  auditLogs : list AuditEntry;
  rebuildRequests : nat;
  calls : list Call;
  storeUp : bool
}.

Inductive Result (A : Type) :=
| Ok (a : A)
| Thrown.
Arguments Ok {A} a.
Arguments Thrown {A}.

(** State and exceptions: a computation maps the world to a value or a
    thrown exception, and the world it leaves. *)
Definition M (A : Type) : Type := World -> Result A * World.

Definition ret {A} (a : A) : M A := fun w => (Ok a, w).
Definition throw {A} : M A := fun w => (Thrown, w).
Definition bind {A B} (m : M A) (k : A -> M B) : M B :=
  fun w => match m w with
           | (Ok a, w') => k a w'
           | (Thrown, w') => (Thrown, w')
           end.
(** [try { m } catch { h }] *)
Definition try_catch {A} (m h : M A) : M A :=
  fun w => match m w with
           | (Ok a, w') => (Ok a, w')
           | (Thrown, w') => h w'
           end.
Definition gets {A} (f : World -> A) : M A := fun w => (Ok (f w), w).
Definition modify (f : World -> World) : M unit := fun w => (Ok tt, f w).
Definition lift {A} (r : Result A) : M A := fun w => (r, w).

Declare Scope m_scope.
Delimit Scope m_scope with M.
Notation "'let*' x := m 'in' k" := (bind m (fun x => k))
  (at level 10, x name, m at level 100, k at level 200) : m_scope.
Notation "m ;;; k" := (bind m (fun _ => k))
  (at level 100, k at level 200, right associativity) : m_scope.

Definition set_landingPages (f : gmap jsstring Doc -> gmap jsstring Doc)
    (w : World) : World :=
  {| landingPages := f (landingPages w); auditLogs := auditLogs w;
     rebuildRequests := rebuildRequests w; calls := calls w;
     storeUp := storeUp w |}.

Definition entered (c : Call) : M unit :=
  modify (fun w =>
    {| landingPages := landingPages w; auditLogs := auditLogs w;
       rebuildRequests := rebuildRequests w; calls := c :: calls w;
       storeUp := storeUp w |}).

(** ** The document store client (Firestore Admin SDK)

    Every operation fails (the awaited promise rejects) when the store
    cannot be reached. *)

Definition reach : M unit :=
  fun w => if storeUp w then (Ok tt, w) else (Thrown, w).

(** [collection.doc(id).get()]: the data of the document, if it exists. *)
Definition docGet (id : jsstring) : M (option Doc) :=
  (reach ;;; gets (fun w => landingPages w !! id))%M.

(** [collection.add(data)] stores the data under the identifier the store
    assigns. *)
Definition docAdd (newId : jsstring) (data : Doc) : M jsstring :=
  (reach ;;; modify (set_landingPages (insert newId data)) ;;; ret newId)%M.

(** [collection.doc(id).update(fields)] overwrites the given fields and
    keeps the others; it fails on a document that does not exist. *)
Definition docUpdate (id : jsstring) (fields : Doc) : M unit :=
  (let* old := docGet id in
   match old with
   | Some d => modify (set_landingPages (insert id (fields ∪ d)))
   | None => throw
   end)%M.

(** [collection.doc(id).delete()] *)
Definition docDelete (id : jsstring) : M unit :=
  (reach ;;; modify (set_landingPages (delete id)))%M.

(** *** Queries *)

Fixpoint lexLeb (a b : jsstring) : bool :=
  match a, b with
  | [], _ => true
  | _ :: _, [] => false
  | x :: a', y :: b' =>
      if (x <? y)%N then true
      else if (y <? x)%N then false
      else lexLeb a' b'
  end.

(** The store's order on values: null, booleans, numbers, timestamps,
    strings; within a type, the natural order. *)
Definition typeRank (v : Value) : Z :=
  match v with
  | VNull => 0 | VBool _ => 1 | VNum _ => 2 | VDate _ => 3 | VStr _ => 4
  end.

Definition valueLeb (a b : Value) : bool :=
  match a, b with
  | VBool x, VBool y => implb x y
  | VNum x, VNum y => x <=? y
  | VDate x, VDate y => x <=? y
  | VStr x, VStr y => lexLeb x y
  | _, _ => typeRank a <=? typeRank b
  end.

Section Sorting.

Context {A : Type} (le : A -> A -> bool).

Fixpoint insertSorted (x : A) (l : list A) : list A :=
  match l with
  | [] => [x]
  | y :: r => if le x y then x :: l else y :: insertSorted x r
  end.

Definition sortBy (l : list A) : list A := foldr insertSorted [] l.

End Sorting.

Abbreviation Snapshot := (list (jsstring * Doc)).

(** Documents come in the order of their identifiers unless the query
    says otherwise. *)
Definition byName (l : Snapshot) : Snapshot :=
  sortBy (fun a b => lexLeb (fst a) (fst b)) l.

(** [.where(field, '==', v)] *)
Definition where_ (field : string) (v : Value) (l : Snapshot) : Snapshot :=
  List.filter (fun d => bool_decide (snd d !! field = Some v)) l.

(** [.orderBy(field, 'desc')]: only documents that have the field, largest
    value first, equal values by identifier. *)
Definition descLeb (field : string) (a b : jsstring * Doc) : bool :=
  match snd a !! field, snd b !! field with
  | Some x, Some y =>
      if valueLeb y x then (if valueLeb x y then lexLeb (fst b) (fst a) else true)
      else false
  | _, _ => true
  end.

Definition orderByDesc (field : string) (l : Snapshot) : Snapshot :=
  sortBy (descLeb field)
         (List.filter (fun d => bool_decide (is_Some (snd d !! field))) l).

(** [.limit(n)] *)
Definition limit (n : nat) (l : Snapshot) : Snapshot := take n l.

(** [query.get()] *)
Definition queryGet (q : Snapshot -> Snapshot) : M Snapshot :=
  (reach ;;; gets (fun w => q (byName (map_to_list (landingPages w)))))%M.

End Store.
Export Store.

(* ===================================================================== *)
(** * src/lib/firestore.ts: the Record Store Adapter                      *)
(* ===================================================================== *)

Module Firestore.

(** [{ id: doc.id, ...doc.data() }] *)
Definition withId (id : jsstring) (data : Doc) : Doc :=
  data ∪ {[ "id" := VStr id ]}.

(** [page.k.toLowerCase()]: a [TypeError] unless the field holds a string. *)
Definition lowerField (toLowerCase : jsstring -> jsstring)
    (page : Doc) (k : string) : Result jsstring :=
  match page !! k with
  | Some (VStr s) => Ok (toLowerCase s)
  | _ => Thrown
  end.

(** [pages.filter(pred)] for a predicate that may throw. *)
Fixpoint filterR {A} (pred : A -> Result bool) (l : list A) : Result (list A) :=
  match l with
  | [] => Ok []
  | x :: r =>
      match pred x with
      | Thrown => Thrown
      | Ok b =>
          match filterR pred r with
          | Thrown => Thrown
          | Ok r' => Ok (if b then x :: r' else r')
          end
      end
  end.

Record Filters := {
  f_status : option jsstring;
  f_category : option jsstring;
  f_search : option jsstring
}.

(** [if (filters?.k)]: the filter is there and is not the empty string. *)
Definition given (o : option jsstring) : option jsstring :=
  match o with
  | Some s => if falsy s then None else Some s
  | None => None
  end.

Section Adapter.

Variable toLowerCase : jsstring -> jsstring.
(** The identifier the store assigns to a document added to a collection. *)
Variable autoId : gmap jsstring Doc -> jsstring.

Definition matchesSearch (searchLower : jsstring) (page : Doc) : Result bool :=
  match lowerField toLowerCase page "title" with
  | Thrown => Thrown
  | Ok t =>
      if includes t searchLower then Ok true
      else match lowerField toLowerCase page "slug" with
           | Thrown => Thrown
           | Ok s =>
               if includes s searchLower then Ok true
               else match lowerField toLowerCase page "businessName" with
                    | Thrown => Thrown
                    | Ok b => Ok (includes b searchLower)
                    end
           end
  end.

Definition getLandingPages (filters : option Filters) : M (list Doc) :=
  (entered (CallAdapter "getLandingPages") ;;;
   let byStatus :=
     match given (filters ≫= f_status) with
     | Some s => where_ "status" (VStr s)
     | None => fun l => l
     end in
   let byCategory :=
     match given (filters ≫= f_category) with
     | Some c => where_ "businessCategory" (VStr c)
     | None => fun l => l
     end in
   let* snapshot :=
     queryGet (fun l => orderByDesc "updatedAt" (byCategory (byStatus l))) in
   let pages := (fun d => withId (fst d) (snd d)) <$> snapshot in
   match given (filters ≫= f_search) with
   | Some search =>
       let searchLower := toLowerCase search in
       lift (filterR (matchesSearch searchLower) pages)
   | None => ret pages
   end)%M.

Definition getLandingPageById (id : jsstring) : M (option Doc) :=
  (entered (CallAdapter "getLandingPageById") ;;;
   let* doc := docGet id in
   match doc with
   | None => ret None
   | Some data => ret (Some (withId id data))
   end)%M.

Definition getLandingPageBySlug (slug : jsstring) : M (option Doc) :=
  (entered (CallAdapter "getLandingPageBySlug") ;;;
   let* snapshot := queryGet (fun l => limit 1 (where_ "slug" (VStr slug) l)) in
   match snapshot with
   | [] => ret None
   | doc :: _ => ret (Some (withId (fst doc) (snd doc)))
   end)%M.

(** [excludeId] is [None] when the caller leaves the argument out; the
    test [if (excludeId)] also fails on the empty string. *)
Definition isSlugTaken (slug : jsstring) (excludeId : option jsstring) : M bool :=
  (entered (CallAdapter "isSlugTaken") ;;;
   let* snapshot := queryGet (fun l => limit 1 (where_ "slug" (VStr slug) l)) in
   match snapshot with
   | [] => ret false
   | doc :: _ =>
       match given excludeId with
       | Some ex => ret (negb (bool_decide (fst doc = ex)))
       | None => ret true
       end
   end)%M.

(** [now] is the value of [new Date()] at the start of the call. *)
Definition createLandingPage (data : Doc) (adminId : jsstring) (now : Z)
    : M jsstring :=
  (entered (CallAdapter "createLandingPage") ;;;
   let pageData : Doc :=
     <["lastViewedAt" := VNull]>
     (<["viewCount" := VNum 0]>
     (<["publishedAt" :=
          if fieldIs data "status" "published" then VDate now else VNull]>
     (<["isPublished" := VBool (fieldIs data "status" "published")]>
     (<["updatedBy" := VStr adminId]>
     (<["createdBy" := VStr adminId]>
     (<["updatedAt" := VDate now]>
     (<["createdAt" := VDate now]> data))))))) in
   let* pages := gets landingPages in
   docAdd (autoId pages) pageData)%M.

Definition updateLandingPage (id : jsstring) (data : Doc) (adminId : jsstring)
    (now : Z) : M bool :=
  (entered (CallAdapter "updateLandingPage") ;;;
   let* oldDoc := getLandingPageById id in
   match oldDoc with
   | None => ret false
   | Some oldDoc =>
       let updateData : Doc :=
         <["isPublished" := VBool (fieldIs data "status" "published")]>
         (<["updatedBy" := VStr adminId]>
         (<["updatedAt" := VDate now]> data)) in
       (* If changing status to published, set publishedAt *)
       let updateData :=
         if fieldIs data "status" "published"
            && negb (truthy (oldDoc !! "isPublished"))
         then <["publishedAt" := VDate now]> updateData
         else updateData in
       (* If changing status to draft/archived, clear publishedAt *)
       let updateData :=
         if negb (fieldIs data "status" "published")
            && truthy (oldDoc !! "isPublished")
         then <["publishedAt" := VNull]> updateData
         else updateData in
       docUpdate id updateData ;;; ret true
   end)%M.

Definition deleteLandingPage (id : jsstring) : M bool :=
  (entered (CallAdapter "deleteLandingPage") ;;;
   let* doc := getLandingPageById id in
   match doc with
   | None => ret false
   | Some _ => docDelete id ;;; ret true
   end)%M.

Definition getPublishedLandingPages : M (list Doc) :=
  (entered (CallAdapter "getPublishedLandingPages") ;;;
   let* snapshot :=
     queryGet (fun l =>
       orderByDesc "publishedAt" (where_ "status" (VStr (u "published")) l)) in
   ret ((fun d => withId (fst d) (snd d)) <$> snapshot))%M.

End Adapter.

End Firestore.
Export Firestore.

(* ===================================================================== *)
(** * Route handlers                                                      *)
(* ===================================================================== *)

Module Routes.

(** An incoming request, as far as the handlers look at it.
    [currentAdmin] is what [getCurrentAdmin()] resolves to for the request
    (src/lib/auth.ts is not among the sources): the admin of a valid admin
    session, [None] without one. [json] is what [request.json()] resolves
    to, [None] when it rejects. [now] is the clock. *)
Record Request := {
  currentAdmin : option Admin;
  json : option Doc;
  ip : option jsstring;
  searchParams : gmap string jsstring;
  now : Z
}.

(** The JSON bodies the handlers answer with. *)
Inductive Payload :=
| PError (error : jsstring)
| PErrors (error : jsstring) (errors : gmap string jsstring)
| PList (data : list Doc) (count : Z)
| PData (data : Doc)
| PCreated (message : jsstring) (pageId : jsstring)
| PMessage (message : jsstring)
| PPage (message : jsstring) (page : Doc).

(** [NextResponse.json(payload, { status })] *)
Record Response := { payload : Payload; status : Z }.
Definition NextResponse_json (p : Payload) (st : Z) : Response :=
  {| payload := p; status := st |}.

(** Modelled from the spec: [logAuditEvent] of src/lib/auth.ts, which is
    not among the sources. "Audit Entry -- append-only: action tag, acting
    admin id, target type/id, before/after snapshot, request origin
    address, timestamp." *)
Definition logAuditEvent (action adminId targetType targetId : jsstring)
    (changes : option (Doc * option Doc)) (ipAddress : option jsstring)
    (now : Z) : M unit :=
  modify (fun w =>
    {| landingPages := landingPages w;
       auditLogs :=
         {| Store.action := action; Store.adminId := adminId;
            Store.targetType := targetType; Store.targetId := targetId;
            Store.changes := changes; Store.ipAddress := ipAddress;
            timestamp := now |} :: auditLogs w;
       rebuildRequests := rebuildRequests w; calls := calls w;
       storeUp := storeUp w |}).

(** Modelled from the spec: [triggerRebuild] of src/lib/rebuild.ts, which
    is not among the sources. "POSTs a rebuild request to an external CI
    hook; any failure is logged and swallowed". The handler does not wait
    for it; what remains is that a rebuild was asked for. *)
Definition triggerRebuild : M unit :=
  modify (fun w =>
    {| landingPages := landingPages w; auditLogs := auditLogs w;
       rebuildRequests := S (rebuildRequests w); calls := calls w;
       storeUp := storeUp w |}).

(** [await request.json()] *)
Definition request_json (request : Request) : M Doc :=
  match json request with
  | Some body => ret body
  | None => throw
  end.

(** [isSlugTaken(body.slug, excludeId)] as the handlers call it. The
    adapter declares the argument a string; the handlers pass whatever the
    JSON body holds under [slug]. With a value [v] the query compares the
    stored slugs with [v]; an absent field is [undefined], which the
    store's client refuses as the value of a query (the call throws). *)
Definition isSlugTakenAny (v : Value) (excludeId : option jsstring) : M bool :=
  (entered (CallAdapter "isSlugTaken") ;;;
   let* snapshot := queryGet (fun l => limit 1 (where_ "slug" v l)) in
   match snapshot with
   | [] => ret false
   | doc :: _ =>
       match given excludeId with
       | Some ex => ret (negb (bool_decide (fst doc = ex)))
       | None => ret true
       end
   end)%M.

Definition isSlugTakenOf (slug : option Value) (excludeId : option jsstring)
    : M bool :=
  match slug with
  | Some v => isSlugTakenAny v excludeId
  | None => (entered (CallAdapter "isSlugTaken") ;;; throw)%M
  end.

Section Handlers.

Variable toLowerCase : jsstring -> jsstring.
(** [validateLandingPageForm] as src/lib/validation.ts has it is not a
    TypeScript program: each of its tests reads [if (error := f(x))], and
    [error] is declared nowhere. No behaviour is ascribed to it here: the
    handlers take the validator as a parameter, which on the request body
    as it comes answers with an error mapping or throws. *)
Variable validateLandingPageForm : Doc -> Result (gmap string jsstring).
Variable autoId : gmap jsstring Doc -> jsstring.

(** The Validator as the handlers enter it. *)
Definition validate (body : Doc) : M (gmap string jsstring) :=
  (entered CallValidator ;;; lift (validateLandingPageForm body))%M.

(** [Object.keys(errors).length > 0] *)
Definition hasErrors (errors : gmap string jsstring) : bool :=
  negb (bool_decide (errors = ∅)).

(** [searchParams.get(k) || undefined] *)
Definition param (request : Request) (k : string) : option jsstring :=
  given (searchParams request !! k).

(** ** src/app/api/landing-pages/route.ts *)

(** GET /api/landing-pages *)
Definition GET_list (request : Request) : M Response :=
  try_catch
    (let* admin := ret (currentAdmin request) in
     match admin with
     | None => ret (NextResponse_json (PError (u "Unauthorized")) 401)
     | Some admin =>
         let status := param request "status" in
         let category := param request "category" in
         let search := param request "search" in
         let* pages :=
           getLandingPages toLowerCase
             (Some {| f_status := status; f_category := category;
                      f_search := search |}) in
         ret (NextResponse_json (PList pages (Z.of_nat (length pages))) 200)
     end)%M
    (ret (NextResponse_json
            (PError (u "Server error fetching landing pages")) 500)).

(** POST /api/landing-pages *)
Definition POST_create (request : Request) : M Response :=
  try_catch
    (let* admin := ret (currentAdmin request) in
     match admin with
     | None => ret (NextResponse_json (PError (u "Unauthorized")) 401)
     | Some admin =>
         let* body := request_json request in
         let* errors := validate body in
         if hasErrors errors then
           ret (NextResponse_json (PErrors (u "Validation failed") errors) 400)
         else
           let* taken := isSlugTakenOf (body !! "slug") None in
           if taken then
             ret (NextResponse_json
                    (PErrors (u "Validation failed")
                             {[ "slug" := u "Slug is already taken" ]}) 400)
           else
             let* pageId :=
               createLandingPage autoId body (uid admin) (now request) in
             logAuditEvent (u "page_created") (uid admin) (u "landingPage")
                           pageId None (ip request) (now request) ;;;
             ret (NextResponse_json
                    (PCreated (u "Landing page created successfully") pageId)
                    201)
     end)%M
    (ret (NextResponse_json
            (PError (u "Server error creating landing page")) 500)).

(** ** src/app/api/landing-pages/[id]/route.ts *)

(** GET /api/landing-pages/[id] *)
Definition GET_page (request : Request) (id : jsstring) : M Response :=
  try_catch
    (let* admin := ret (currentAdmin request) in
     match admin with
     | None => ret (NextResponse_json (PError (u "Unauthorized")) 401)
     | Some admin =>
         let* page := getLandingPageById id in
         match page with
         | None =>
             ret (NextResponse_json (PError (u "Landing page not found")) 404)
         | Some page => ret (NextResponse_json (PData page) 200)
         end
     end)%M
    (ret (NextResponse_json
            (PError (u "Server error fetching landing page")) 500)).

(** PUT /api/landing-pages/[id] *)
Definition PUT_page (request : Request) (id : jsstring) : M Response :=
  try_catch
    (let* admin := ret (currentAdmin request) in
     match admin with
     | None => ret (NextResponse_json (PError (u "Unauthorized")) 401)
     | Some admin =>
         let* body := request_json request in
         let* oldPage := getLandingPageById id in
         match oldPage with
         | None =>
             ret (NextResponse_json (PError (u "Landing page not found")) 404)
         | Some oldPage =>
             let* errors := validate body in
             if hasErrors errors then
               ret (NextResponse_json
                      (PErrors (u "Validation failed") errors) 400)
             else
               let* taken :=
                 if bool_decide (body !! "slug" = oldPage !! "slug")
                 then ret false
                 else isSlugTakenOf (body !! "slug") (Some id) in
               if taken then
                 ret (NextResponse_json
                        (PErrors (u "Validation failed")
                                 {[ "slug" := u "Slug is already taken" ]}) 400)
               else
                 let* success :=
                   updateLandingPage id body (uid admin) (now request) in
                 if negb success then
                   ret (NextResponse_json
                          (PError (u "Failed to update landing page")) 400)
                 else
                   logAuditEvent (u "page_updated") (uid admin)
                                 (u "landingPage") id
                                 (Some (oldPage, Some body)) (ip request)
                                 (now request) ;;;
                   ret (NextResponse_json
                          (PMessage (u "Landing page updated successfully"))
                          200)
         end
     end)%M
    (ret (NextResponse_json
            (PError (u "Server error updating landing page")) 500)).

(** DELETE /api/landing-pages/[id] *)
Definition DELETE_page (request : Request) (id : jsstring) : M Response :=
  try_catch
    (let* admin := ret (currentAdmin request) in
     match admin with
     | None => ret (NextResponse_json (PError (u "Unauthorized")) 401)
     | Some admin =>
         let* page := getLandingPageById id in
         match page with
         | None =>
             ret (NextResponse_json (PError (u "Landing page not found")) 404)
         | Some page =>
             let* success := deleteLandingPage id in
             if negb success then
               ret (NextResponse_json
                      (PError (u "Failed to delete landing page")) 400)
             else
               logAuditEvent (u "page_deleted") (uid admin) (u "landingPage")
                             id (Some (page, None)) (ip request)
                             (now request) ;;;
               ret (NextResponse_json
                      (PMessage (u "Landing page deleted successfully")) 200)
         end
     end)%M
    (ret (NextResponse_json
            (PError (u "Server error deleting landing page")) 500)).

(** ** src/app/api/landing-pages/[id]/publish/route.ts *)

(** POST /api/landing-pages/[id]/publish *)
Definition POST_publish (request : Request) (id : jsstring) : M Response :=
  try_catch
    (let* admin := ret (currentAdmin request) in
     match admin with
     | None => ret (NextResponse_json (PError (u "Unauthorized")) 401)
     | Some admin =>
         let* body := request_json request in
         match body !! "publish" with
         | Some (VBool publish) =>
             let* page := getLandingPageById id in
             match page with
             | None =>
                 ret (NextResponse_json
                        (PError (u "Landing page not found")) 404)
             | Some page =>
                 let newStatus : string :=
                   if publish then "published" else "draft" in
                 if fieldIs page "status" newStatus then
                   ret (NextResponse_json
                          (PPage (u "Page is already " ++ u newStatus)
                                 (<["status" := VStr (u newStatus)]> page))
                          200)
                 else
                   let oldPage := page in
                   let* success :=
                     updateLandingPage id {[ "status" := VStr (u newStatus) ]}
                                       (uid admin) (now request) in
                   if negb success then
                     ret (NextResponse_json
                            (PError (u "Failed to update page status")) 400)
                   else
                     logAuditEvent
                       (if publish then u "page_published"
                        else u "page_unpublished")
                       (uid admin) (u "landingPage") id
                       (Some (oldPage,
                              Some (<["status" := VStr (u newStatus)]> oldPage)))
                       (ip request) (now request) ;;;
                     triggerRebuild ;;;
                     ret (NextResponse_json
                            (PPage
                               (u "Page " ++
                                (if publish then u "published"
                                 else u "unpublished") ++
                                u " successfully. Rebuilding site...")
                               (<["status" := VStr (u newStatus)]> page))
                            200)
             end
         | _ =>
             ret (NextResponse_json
                    (PError (u "Invalid request: publish must be boolean")) 400)
         end
     end)%M
    (ret (NextResponse_json
            (PError (u "Server error updating page status")) 500)).

End Handlers.

End Routes.
Export Routes.

(* ===================================================================== *)
(** * src/app/sitemap.ts                                                  *)
(* ===================================================================== *)

Module Sitemap.

Record SitemapEntry := {
  url : jsstring;
  lastModified : Value;
  changeFrequency : jsstring;
  priority : Q
}.

Section Sitemap.

(** [process.env.NEXT_PUBLIC_SITE_URL || 'https://kashpages.in'] *)
Variable SITE_URL : jsstring.
(** [String(v)] for a value that is not a string, as a template literal
    applies it. *)
Variable String_ : option Value -> jsstring.
(** [new Date(v)] for a value that is not a [Date]. *)
Variable newDate : option Value -> Value.

(** [`${v}`] *)
Definition interpolate (v : option Value) : jsstring :=
  match v with
  | Some (VStr s) => s
  | _ => String_ v
  end.

Definition pageEntry (page : Doc) : SitemapEntry :=
  {| url := SITE_URL ++ u "/" ++ interpolate (page !! "slug");
     lastModified :=
       match page !! "updatedAt" with
       | Some (VDate t) => VDate t
       | other => newDate other
       end;
     changeFrequency := u "monthly";
     priority := 8 # 10 |}.

(** The [staticPages] of the source; [now] is [new Date()]. *)
Definition staticPages (now : Z) : list SitemapEntry :=
  [ {| url := SITE_URL; lastModified := VDate now;
       changeFrequency := u "weekly"; priority := 1 |};
    {| url := SITE_URL ++ u "/about"; lastModified := VDate now;
       changeFrequency := u "monthly"; priority := 7 # 10 |};
    {| url := SITE_URL ++ u "/privacy"; lastModified := VDate now;
       changeFrequency := u "yearly"; priority := 5 # 10 |};
    {| url := SITE_URL ++ u "/terms"; lastModified := VDate now;
       changeFrequency := u "yearly"; priority := 5 # 10 |};
    {| url := SITE_URL ++ u "/plans"; lastModified := VDate now;
       changeFrequency := u "monthly"; priority := 7 # 10 |} ].

Definition sitemap (now : Z) : M (list SitemapEntry) :=
  try_catch
    (let* pages := getPublishedLandingPages in
     let pageEntries := pageEntry <$> pages in
     ret (staticPages now ++ pageEntries))%M
    (* Return static pages only if there's an error *)
    (ret [ {| url := SITE_URL; lastModified := VDate now;
              changeFrequency := u "weekly"; priority := 1 |} ]).

End Sitemap.

End Sitemap.
Export Sitemap.

(* ===================================================================== *)
(** * What the specification speaks of                                    *)
(* ===================================================================== *)

(** The language of [/^[a-z0-9-]+$/]: a non-empty string of lower-case
    letters, digits and hyphens. *)
Definition slugLetter (c : N) : Prop :=
  (97 <= c <= 122)%N \/ (48 <= c <= 57)%N \/ c = 45%N.

Definition matchesSlugPattern (s : jsstring) : Prop :=
  s <> [] /\ Forall slugLetter s.

(** A body of ten spaces. *)
Definition tenSpaces : jsstring := replicate 10 32%N.

(** The [URL] constructor on the plain absolute URLs used as examples
    below: [http://] or [https://], a host made of lower-case letters,
    digits, dots and hyphens that starts with a letter, then nothing or a
    [/] and a path of letters, digits and [. - _ /]. On these the
    constructor succeeds and reports the host as written. Strings of any
    other shape are outside this fragment and get [None] here. *)
Definition hostChar (c : N) : bool :=
  isLower c || isDigit c || (c =? 46)%N || (c =? HYPHEN)%N.

Definition pathChar (c : N) : bool :=
  isWordChar c || (c =? 46)%N || (c =? HYPHEN)%N || (c =? 47)%N.

Fixpoint spanClass (p : N -> bool) (s : jsstring) : jsstring * jsstring :=
  match s with
  | c :: r => if p c then let '(a, b) := spanClass p r in (c :: a, b)
              else ([], s)
  | [] => ([], [])
  end.

Definition afterScheme (s : jsstring) : option (jsstring * jsstring) :=
  if startsWith s (u "https://") then Some (u "https:", drop 8 s)
  else if startsWith s (u "http://") then Some (u "http:", drop 7 s)
  else None.

Definition newURL_plain (s : jsstring) : option URL :=
  match afterScheme s with
  | Some (scheme, rest) =>
      let '(host, path) := spanClass hostChar rest in
      match host with
      | h :: _ =>
          if isLower h && forallb pathChar path
             && (falsy path || startsWith path (u "/"))
          then Some {| protocol := scheme; hostname := host;
                       pathname := if falsy path then u "/" else path |}
          else None
      | [] => None
      end
  | None => None
  end.

(** "Ends (case-insensitively) in a known image extension." *)
Definition hasImageExtension (toLowerCase : jsstring -> jsstring)
    (imageUrl : jsstring) : bool :=
  existsb (fun ext => endsWith (toLowerCase imageUrl) ext) validExtensions.

(** "Belongs to an allow-listed hosting domain": the host of the URL is
    one of the domains or a subdomain of one. *)
Definition allowListedDomains : list jsstring :=
  [u "firebaseapp.com"; u "firebase.google.com"].

Definition onAllowListedDomain (url : URL) : bool :=
  existsb (fun d => bool_decide (hostname url = d)
                    || endsWith (hostname url) (u "." ++ d))
          allowListedDomains.

(** Acceptance of an image URL as the specification words it. *)
Definition imageUrlAcceptable (toLowerCase : jsstring -> jsstring)
    (newURL : jsstring -> option URL) (imageUrl : jsstring) : Prop :=
  imageUrl <> [] /\
  exists url, newURL imageUrl = Some url /\
    (hasImageExtension toLowerCase imageUrl = true \/
     onAllowListedDomain url = true).

Definition strayFirebaseUrl : jsstring :=
  u "https://evil.example/firebaseapp.com".

(** The code units a generated slug is made of: [a-z0-9_-]. *)
Definition slugOut (c : N) : bool :=
  isLower c || isDigit c || (c =? UNDERSCORE)%N || (c =? HYPHEN)%N.

(** No two hyphens next to each other. *)
Fixpoint noDoubleHyphen (s : jsstring) : bool :=
  match s with
  | a :: r =>
      match r with
      | b :: _ => negb ((a =? HYPHEN)%N && (b =? HYPHEN)%N)
      | [] => true
      end && noDoubleHyphen r
  | [] => true
  end.

(** What [generateSlug] returns: only [a-z0-9_-], no run of hyphens, no
    hyphen at either end. *)
Definition slugShaped (s : jsstring) : Prop :=
  Forall (fun c => slugOut c = true) s /\ noDoubleHyphen s = true /\
  head s <> Some HYPHEN /\ last s <> Some HYPHEN.

(** ** Records *)

(** The record holds slug [s]. *)
Definition holdsSlug (d : Doc) (s : jsstring) : Prop :=
  d !! "slug" = Some (VStr s).

(** [status == published], [publishedAt] non-null, and the [isPublished]
    flag of a record. *)
Definition statusPublished (d : Doc) : bool := fieldIs d "status" "published".

Definition publishedAtSet (d : Doc) : bool :=
  match d !! "publishedAt" with
  | Some VNull | None => false
  | Some _ => true
  end.

Definition isPublishedFlag (d : Doc) : bool := truthy (d !! "isPublished").

(** "publishedAt is non-null iff status==published", and [isPublished]
    says the same. *)
Definition publishInvariant (d : Doc) : Prop :=
  publishedAtSet d = statusPublished d /\
  isPublishedFlag d = statusPublished d.

(** The value and the world a computation ends with. *)
Definition valueOf {A} (r : Result A * World) : Result A := fst r.
Definition worldOf {A} (r : Result A * World) : World := snd r.

(** ** Sample data *)

Definition sampleAdmin : Admin :=
  {| uid := u "admin-1"; email := u "admin@kashpages.in";
     displayName := u "Admin" |}.

(** The record of the scenario as the store holds it once published at
    time 1000. *)
Definition cafeNoonPublished : Doc :=
  list_to_map
    [ ("businessName", VStr (u "Cafe Noon"));
      ("slug", VStr (u "cafe-noon"));
      ("status", VStr (u "published"));
      ("isPublished", VBool true);
      ("publishedAt", VDate 1000);
      ("createdAt", VDate 900);
      ("updatedAt", VDate 1000);
      ("createdBy", VStr (u "admin-1"));
      ("updatedBy", VStr (u "admin-1")) ].

Definition emptyWorld : World :=
  {| landingPages := ∅; auditLogs := []; rebuildRequests := 0;
     calls := []; storeUp := true |}.

(** A store with that one record under the identifier [p1]. *)
Definition cafeWorld : World :=
  set_landingPages (insert (u "p1") cafeNoonPublished) emptyWorld.

(** The same store out of reach. *)
Definition cafeWorldDown : World :=
  {| landingPages := landingPages cafeWorld; auditLogs := [];
     rebuildRequests := 0; calls := []; storeUp := false |}.

(** An update that changes the business name and says nothing of the
    status. *)
Definition renameOnly : Doc := {[ "businessName" := VStr (u "Cafe Noon 2") ]}.

(** The answer of every admin endpoint to a request without a valid admin
    session. *)
Definition unauthorized : Response :=
  NextResponse_json (PError (u "Unauthorized")) 401.

(** A request that asks to publish, from the sample admin. *)
Definition publishRequest : Request :=
  {| currentAdmin := Some sampleAdmin;
     json := Some {[ "publish" := VBool true ]};
     ip := None; searchParams := ∅; now := 2000 |}.

(** A request that carries no session. *)
Definition anonymousRequest : Request :=
  {| currentAdmin := None;
     json := Some {[ "publish" := VBool true ]};
     ip := None; searchParams := ∅; now := 2000 |}.

(** The entry of the site root, the first of the static pages. *)
Definition rootEntry (SITE_URL : jsstring) (now : Z) : SitemapEntry :=
  {| url := SITE_URL; lastModified := VDate now;
     changeFrequency := u "weekly"; priority := 1 |}.

Definition kashpages : jsstring := u "https://kashpages.in".

(** The scenario's form as the body of a PUT request; it has no [status]
    field. *)
Definition cafeNoonBody : Doc :=
  list_to_map
    [ ("businessName", VStr (u "Cafe Noon"));
      ("slug", VStr (u "cafe-noon"));
      ("metaTitle", VStr (u "Cafe Noon"));
      ("metaDescription",
         VStr (u "A cozy cafe in town serving coffee and pastries daily."));
      ("ogTitle", VStr (u "Cafe Noon"));
      ("ogDescription", VStr (u "Visit Cafe Noon today."));
      ("ogImage", VStr (u "https://example.com/img.jpg"));
      ("businessCategory", VStr (u "Food"));
      ("businessLocation", VStr (u "Srinagar"));
      ("htmlContent", VStr (u "<html><body>Welcome</body></html>")) ].

Definition editRequest : Request :=
  {| currentAdmin := Some sampleAdmin; json := Some cafeNoonBody;
     ip := None; searchParams := ∅; now := 2000 |}.

(** A request of the given admin with the given body. *)
Definition requestOf (admin : Admin) (body : Doc) : Request :=
  {| currentAdmin := Some admin; json := Some body;
     ip := None; searchParams := ∅; now := 2000 |}.

(** A validator for the examples, in the place of the handlers' parameter:
    it looks at the slug alone, with [validateSlug], and throws on a body
    whose slug is no string. *)
Definition slugOnlyValidator (body : Doc) : Result (gmap string jsstring) :=
  match body !! "slug" with
  | Some (VStr s) =>
      Ok (match validateSlug s with
          | Some e => {[ "slug" := e ]}
          | None => ∅
          end)
  | _ => Thrown
  end.

(** The scenario's body with a slug that [validateSlug] refuses. *)
Definition badSlugBody : Doc := <["slug" := VStr (u "Cafe Noon")]> cafeNoonBody.

(** A body that is a form in nothing: its slug is a number. *)
Definition numberSlugBody : Doc := {[ "slug" := VNum 5 ]}.

(** ** More of the validators *)

(** The language of [/^[^\s@]+@[^\s@]+\.[^\s@]+$/]: three non-empty
    stretches free of white space and [@], the first two separated by an
    [@], the last two by a dot. *)
Definition emailLetter (c : N) : Prop := isWhiteSpace c = false /\ c <> 64%N.

Definition matchesEmailPattern (s : jsstring) : Prop :=
  exists a b c : jsstring,
    s = a ++ [64%N] ++ b ++ [46%N] ++ c /\
    a <> [] /\ b <> [] /\ c <> [] /\
    Forall emailLetter a /\ Forall emailLetter b /\ Forall emailLetter c.

(** ** More of the Record Store Adapter *)

(** The world once an entry into the Validator or the adapter is logged. *)
Definition noted (c : Call) (w : World) : World :=
  {| landingPages := landingPages w; auditLogs := auditLogs w;
     rebuildRequests := rebuildRequests w; calls := c :: calls w;
     storeUp := storeUp w |}.

(** The fields [createLandingPage] stamps on every new record. *)
Definition stampKeys : list string :=
  [ "createdAt"; "updatedAt"; "createdBy"; "updatedBy"; "isPublished";
    "publishedAt"; "viewCount"; "lastViewedAt" ].

(** The fields [updateLandingPage] decides by itself. *)
Definition updateKeys : list string :=
  [ "updatedAt"; "updatedBy"; "isPublished"; "publishedAt" ].

(** A record as the read operations hand it out. *)
Definition storedAs (w : World) (page : Doc) (id : jsstring) (d : Doc) : Prop :=
  landingPages w !! id = Some d /\ page = withId id d.

(** A draft of the scenario's form, as a create request carries it. *)
Definition cafeNoonDraft : Doc :=
  <["status" := VStr (u "draft")]>
    (list_to_map
       [ ("businessName", VStr (u "Cafe Noon"));
         ("slug", VStr (u "cafe-noon")) ]).

(** The string a field holds, if it holds one. *)
Definition textOf (page : Doc) (k : string) : option jsstring :=
  match page !! k with
  | Some (VStr s) => Some s
  | _ => None
  end.

(** The records a listing with the given filters looks at: those that
    have an [updatedAt] field, the status asked for when a status is
    given, and the category asked for when a category is given. *)
Definition listed_by (w : World) (filters : option Filters) (page : Doc) : Prop :=
  exists id d,
    storedAs w page id d /\
    is_Some (d !! "updatedAt") /\
    (forall s, given (filters ≫= f_status) = Some s ->
               d !! "status" = Some (VStr s)) /\
    (forall c, given (filters ≫= f_category) = Some c ->
               d !! "businessCategory" = Some (VStr c)).

(** A second record, a draft without a title. *)
Definition teaHouseDraft : Doc :=
  list_to_map
    [ ("businessName", VStr (u "Tea House"));
      ("slug", VStr (u "tea-house"));
      ("status", VStr (u "draft"));
      ("isPublished", VBool false);
      ("publishedAt", VNull);
      ("createdAt", VDate 1100);
      ("updatedAt", VDate 1200);
      ("createdBy", VStr (u "admin-1"));
      ("updatedBy", VStr (u "admin-1")) ].

Definition twoPageWorld : World :=
  set_landingPages (insert (u "p2") teaHouseDraft) cafeWorld.

Definition searchCafe : option Filters :=
  Some {| f_status := None; f_category := None; f_search := Some (u "Cafe") |}.

Definition onlyDrafts : option Filters :=
  Some {| f_status := Some (u "draft"); f_category := Some [];
          f_search := None |}.

(** ** More of the route handlers *)

(** The fields [updateLandingPage] writes over a stored record [old]. *)
Definition updateFields (data : Doc) (adminId : jsstring) (now : Z)
    (old : Doc) : Doc :=
  let updateData : Doc :=
    <["isPublished" := VBool (fieldIs data "status" "published")]>
    (<["updatedBy" := VStr adminId]>
    (<["updatedAt" := VDate now]> data)) in
  let updateData :=
    if fieldIs data "status" "published" && negb (truthy (old !! "isPublished"))
    then <["publishedAt" := VDate now]> updateData else updateData in
  if negb (fieldIs data "status" "published") && truthy (old !! "isPublished")
  then <["publishedAt" := VNull]> updateData else updateData.

(** The document [createLandingPage] stores for the given data. *)
Definition stamped (data : Doc) (adminId : jsstring) (now : Z) : Doc :=
  <["lastViewedAt" := VNull]>
  (<["viewCount" := VNum 0]>
  (<["publishedAt" :=
       if fieldIs data "status" "published" then VDate now else VNull]>
  (<["isPublished" := VBool (fieldIs data "status" "published")]>
  (<["updatedBy" := VStr adminId]>
  (<["createdBy" := VStr adminId]>
  (<["updatedAt" := VDate now]>
  (<["createdAt" := VDate now]> data))))))).

(** The world with one more audit entry. *)
Definition audited (e : AuditEntry) (w : World) : World :=
  {| landingPages := landingPages w; auditLogs := e :: auditLogs w;
     rebuildRequests := rebuildRequests w; calls := calls w;
     storeUp := storeUp w |}.

(** The audit entry a handler writes for a request. *)
Definition auditEntry (request : Request) (admin : Admin)
    (action id : jsstring) (changes : option (Doc * option Doc)) : AuditEntry :=
  {| Store.action := action; Store.adminId := uid admin;
     Store.targetType := u "landingPage"; Store.targetId := id;
     Store.changes := changes; Store.ipAddress := ip request;
     timestamp := now request |}.

(** The status a publish toggle aims at. *)
Definition targetStatus (publish : bool) : string :=
  if publish then "published" else "draft".

(** A computation leaves the world related by [R] to the one it started
    in, whatever it returns. *)
Definition preserves {A} (R : World -> World -> Prop) (m : M A) : Prop :=
  forall w, R w (worldOf (m w)).

(** Same rebuild counter; same records, audit log and rebuild counter. *)
Definition sameRebuilds (w w' : World) : Prop :=
  rebuildRequests w' = rebuildRequests w.

Definition sameData (w w' : World) : Prop :=
  landingPages w' = landingPages w /\ auditLogs w' = auditLogs w /\
  rebuildRequests w' = rebuildRequests w.

(** A request of the sample admin that asks to unpublish. *)
Definition unpublishRequest : Request :=
  {| currentAdmin := Some sampleAdmin;
     json := Some {[ "publish" := VBool false ]};
     ip := None; searchParams := ∅; now := 2000 |}.

(** The scenario's body once more, with a status, as a create request
    carries it. *)
Definition cafeNoonCreateBody : Doc := <["status" := VStr (u "published")]> cafeNoonBody.

Definition createRequest : Request :=
  {| currentAdmin := Some sampleAdmin; json := Some cafeNoonCreateBody;
     ip := None; searchParams := ∅; now := 1500 |}.

(** A request of the sample admin with a body that is no form at all. *)
Definition emptyBodyRequest : Request :=
  {| currentAdmin := Some sampleAdmin; json := Some ∅;
     ip := None; searchParams := ∅; now := 1500 |}.

(** An edit that moves the scenario's record to the slug of the second
    sample record. *)
Definition cafeToTeaBody : Doc := <["slug" := VStr (u "tea-house")]> cafeNoonBody.

Definition moveSlugRequest : Request :=
  {| currentAdmin := Some sampleAdmin; json := Some cafeToTeaBody;
     ip := None; searchParams := ∅; now := 2000 |}.

(** The fields a status-only update writes. *)
Definition toggleKeys : list string :=
  [ "status"; "updatedAt"; "updatedBy"; "isPublished"; "publishedAt" ].

(** What a toggle makes of [publishedAt]: publishing a record whose
    [isPublished] flag is off stamps it, unpublishing one whose flag is on
    clears it, and otherwise the field stays as the record has it. *)
Definition publishedAtAfter (publish : bool) (now : Z) (old : Doc)
    : option Value :=
  if publish then
    if isPublishedFlag old then old !! "publishedAt" else Some (VDate now)
  else
    if isPublishedFlag old then Some VNull else old !! "publishedAt".

(** An archived record whose flag is off and that still carries a
    publication date. *)
Definition cafeNoonArchived : Doc :=
  <["status" := VStr (u "archived")]>
    (<["isPublished" := VBool false]> cafeNoonPublished).

Definition archivedWorld : World :=
  {| landingPages := {[ u "p1" := cafeNoonArchived ]}; auditLogs := [];
     rebuildRequests := 0; calls := []; storeUp := true |}.

(** The status code a handler answers with. *)
Definition statusOf (r : Result Response * World) : option Z :=
  match valueOf r with
  | Ok response => Some (status response)
  | Thrown => None
  end.

(** ** src/app/api/auth/login/route.ts *)

(** The JSON bodies of the login endpoint. *)
Inductive LoginPayload :=
| LError (error : jsstring)
| LAdmin (uid email displayName : jsstring).

Record LoginResponse := { loginPayload : LoginPayload; loginStatus : Z }.

(** POST /api/auth/login. [verifyAdminToken] of src/lib/auth.ts is not
    among the sources and is taken as a parameter: the admin a token
    belongs to, [Ok None] for a token of somebody who is no admin,
    [Thrown] when it raises. [json] is what [request.json()] resolves to,
    [None] when it rejects or yields [null].
    Modelled from the spec: [setAuthCookie], which is not among the
    sources either; "issue a server-side session artifact": the session
    cookie becomes the token. The second component is the session cookie
    after the call. *)
Definition POST_login (verifyAdminToken : jsstring -> Result (option Admin))
    (json : option Doc) (cookie : option jsstring)
    : LoginResponse * option jsstring :=
  match json with
  | None =>
      ({| loginPayload := LError (u "Server error during login");
          loginStatus := 500 |}, cookie)
  | Some body =>
      match body !! "token" with
      | Some (VStr token) =>
          if falsy token then
            ({| loginPayload := LError (u "Invalid request: token is required");
                loginStatus := 400 |}, cookie)
          else
            match verifyAdminToken token with
            | Thrown =>
                ({| loginPayload := LError (u "Server error during login");
                    loginStatus := 500 |}, cookie)
            | Ok None =>
                ({| loginPayload :=
                      LError (u "Unauthorized: You do not have admin access");
                    loginStatus := 403 |}, cookie)
            | Ok (Some admin) =>
                ({| loginPayload :=
                      LAdmin (Store.uid admin) (Store.email admin)
                             (Store.displayName admin);
                    loginStatus := 200 |}, Some token)
            end
      | _ =>
          ({| loginPayload := LError (u "Invalid request: token is required");
              loginStatus := 400 |}, cookie)
      end
  end.

(* ===================================================================== *)
(** * Properties of the validators                                        *)
(* ===================================================================== *)

(** ** Code units and the primitives on strings *)

#[local] Arguments N.eqb : simpl never.
#[local] Arguments N.leb : simpl never.

Lemma len_nonneg (s : jsstring) : 0 <= len s.
Proof. unfold len. lia. Qed.

Lemma falsy_nil (s : jsstring) : falsy s = true <-> s = [].
Proof. destruct s; simpl; split; congruence. Qed.

Lemma falsy_false (s : jsstring) : falsy s = false <-> s <> [].
Proof. destruct s; simpl; split; congruence. Qed.

Lemma startsWith_nil (s : jsstring) : startsWith s [] = true.
Proof. by destruct s. Qed.

Lemma startsWith_hyphen (s : jsstring) :
  startsWith s (u "-") = true <-> head s = Some HYPHEN.
Proof.
  change (u "-") with [HYPHEN].
  destruct s as [|c r]; cbn [startsWith head]; [split; discriminate|].
  rewrite startsWith_nil, andb_true_r, N.eqb_eq.
  split; [intros <-; reflexivity | intros [=]; congruence].
Qed.

Lemma endsWith_hyphen (s : jsstring) :
  endsWith s (u "-") = true <-> last s = Some HYPHEN.
Proof.
  unfold endsWith. change (rev (u "-")) with (u "-").
  rewrite startsWith_hyphen, rev_alt.
  change (rev_append s []) with (reverse s).
  by rewrite head_reverse.
Qed.

Lemma slugClass_spec (c : N) : slugClass c = true <-> slugLetter c.
Proof.
  unfold slugClass, slugLetter, isLower, isDigit, inRange, HYPHEN.
  rewrite !orb_true_iff, !andb_true_iff, !N.leb_le, N.eqb_eq. tauto.
Qed.

Lemma slugRegexTest_spec (s : jsstring) :
  slugRegexTest s = true <-> matchesSlugPattern s.
Proof.
  unfold matchesSlugPattern, slugRegexTest.
  destruct s as [|c r]; [split; [discriminate | intros [? _]; congruence]|].
  rewrite forallb_forall, Forall_forall.
  split.
  - intros H; split; [discriminate|].
    intros x Hx. apply slugClass_spec, H. by apply list_elem_of_In.
  - intros [_ H] x Hx. apply slugClass_spec, H. by apply list_elem_of_In.
Qed.

(** C4. [validateSlug] returns no error exactly for the strings that match
    [^[a-z0-9-]+$], have between 2 and 50 code units, and neither start
    nor end with a hyphen; every other string, the empty one included,
    gets an error message. *)
Theorem validateSlug_accepts_exactly (s : jsstring) :
  validateSlug s = None <->
  matchesSlugPattern s /\ 2 <= len s <= 50 /\
  head s <> Some HYPHEN /\ last s <> Some HYPHEN.
Proof.
  unfold validateSlug.
  destruct (falsy s) eqn:Hf.
  { apply falsy_nil in Hf. subst s. split; [discriminate|].
    intros [[H _] _]. congruence. }
  destruct (len s <? 2) eqn:H2; [split; [discriminate | lia]|].
  destruct (len s >? 50) eqn:H50; [split; [discriminate | lia]|].
  destruct (slugRegexTest s) eqn:Hre; simpl.
  2:{ split; [discriminate|]. intros [H _].
      apply slugRegexTest_spec in H. congruence. }
  apply slugRegexTest_spec in Hre.
  destruct (startsWith s (u "-")) eqn:Hs; simpl.
  { apply startsWith_hyphen in Hs. split; [discriminate | tauto]. }
  destruct (endsWith s (u "-")) eqn:He.
  { apply endsWith_hyphen in He. split; [discriminate | tauto]. }
  split; [intros _ | reflexivity].
  repeat split; try lia; try assumption.
  - apply Hre.
  - apply Hre.
  - intros H. apply startsWith_hyphen in H. congruence.
  - intros H. apply endsWith_hyphen in H. congruence.
Qed.

(** ** The HTML body *)

Lemma trim_nil : trim [] = [].
Proof. reflexivity. Qed.

(** C6, as the code has it. [validateHtmlContent] accepts an HTML body
    exactly when its length after trimming white space from both ends lies
    in the window [10, 1,000,000]; the empty body and every body whose
    trimmed length is outside the window get an error. *)
Theorem validateHtmlContent_trimmed_window (html : jsstring) :
  validateHtmlContent html = None <-> 10 <= len (trim html) <= 1000000.
Proof.
  unfold validateHtmlContent.
  destruct (falsy html) eqn:Hf.
  { apply falsy_nil in Hf. subst html. rewrite trim_nil.
    split; [discriminate | unfold len; simpl; lia]. }
  cbv zeta.
  destruct (len (trim html) <? 10) eqn:H1; [split; [discriminate | lia]|].
  destruct (len (trim html) >? 1000000) eqn:H2; [split; [discriminate | lia]|].
  split; [lia | reflexivity].
Qed.

(** C6, as stated, fails: a body of ten spaces has a length inside the
    window and is rejected. *)
Lemma validateHtmlContent_window_counterexample :
  ~ (validateHtmlContent tenSpaces = None <-> 10 <= len tenSpaces <= 1000000).
Proof.
  intros [_ H].
  assert (Hw : 10 <= len tenSpaces <= 1000000) by (vm_compute; split; discriminate).
  specialize (H Hw). vm_compute in H. discriminate.
Qed.

(** ** Required text *)

Lemma validateRequired_too_long (value fieldName : jsstring) :
  trim value <> [] -> len value > 500 ->
  validateRequired value fieldName =
    Some (fieldName ++ u " must not exceed 500 characters").
Proof.
  intros Ht Hl. unfold validateRequired.
  assert (Hv : falsy value = false).
  { apply falsy_false. intros ->. by apply Ht. }
  apply falsy_false in Ht. rewrite Hv, Ht. simpl.
  destruct (len value >? 500) eqn:H; [done | lia].
Qed.

(** ** The image URL *)

(** What [validateOgImage] accepts, as it is written: a non-empty string
    that parses as a URL and either ends (case-insensitively) in a known
    image extension or has the text [firebaseapp.com] or
    [firebase.google.com] somewhere in it, the host or elsewhere. *)
Lemma validateOgImage_accepts_exactly
    (toLowerCase : jsstring -> jsstring) (newURL : jsstring -> option URL)
    (imageUrl : jsstring) :
  validateOgImage toLowerCase newURL imageUrl = None <->
  imageUrl <> [] /\ is_Some (newURL imageUrl) /\
  (hasImageExtension toLowerCase imageUrl = true \/
   includes imageUrl (u "firebaseapp.com") = true \/
   includes imageUrl (u "firebase.google.com") = true).
Proof.
  unfold validateOgImage, validateUrl, hasImageExtension.
  destruct (falsy imageUrl) eqn:Hf.
  { apply falsy_nil in Hf. split; [discriminate | tauto]. }
  apply falsy_false in Hf.
  destruct (newURL imageUrl) as [url|] eqn:Hu.
  2:{ split; [discriminate|]. intros (_ & [? ?] & _). discriminate. }
  cbv zeta.
  destruct (existsb _ validExtensions); simpl.
  { split; [|done]. intros _. split; [done|]. split; [by eexists | by left]. }
  destruct (includes imageUrl (u "firebaseapp.com")); simpl.
  { split; [|done]. intros _. split; [done|]. split; [by eexists | tauto]. }
  destruct (includes imageUrl (u "firebase.google.com")); simpl.
  { split; [|done]. intros _. split; [done|]. split; [by eexists | tauto]. }
  split; [discriminate|]. intros (_ & _ & [H | [H | H]]); discriminate.
Qed.

(** C5 at [https://evil.example/firebaseapp.com]. The string parses as
    a URL whose host is [evil.example], it ends in no image extension, and
    its host is neither of the allow-listed domains nor a subdomain of
    one: it is not acceptable in the claim's sense, nor in the sense of
    the validator's own message, "Image URL should be a direct image file
    (jpg, png, gif, webp) or Firebase URL". [validateOgImage] accepts it
    all the same, because [imageUrl.includes('firebaseapp.com')] finds the
    text in the path. *)
Theorem validateOgImage_accepts_stray_firebase_text :
  validateOgImage toLowerCase_ascii newURL_plain strayFirebaseUrl = None /\
  (exists url, newURL_plain strayFirebaseUrl = Some url /\
               hostname url = u "evil.example" /\
               onAllowListedDomain url = false) /\
  hasImageExtension toLowerCase_ascii strayFirebaseUrl = false /\
  includes strayFirebaseUrl (u "firebaseapp.com") = true /\
  ~ imageUrlAcceptable toLowerCase_ascii newURL_plain strayFirebaseUrl.
Proof.
  split; [by vm_compute|].
  split; [eexists; split; [by vm_compute|]; split; by vm_compute|].
  split; [by vm_compute|]. split; [by vm_compute|].
  intros (_ & url & Hurl & Hor).
  vm_compute in Hurl. injection Hurl as <-.
  destruct Hor as [Hext | Hdom]; vm_compute in Hext || vm_compute in Hdom;
    discriminate.
Qed.

(** ** Slug derivation *)

Ltac classes :=
  unfold slugOut, slugClass, isWordChar, isWhiteSpace, isLower, isUpper,
    isDigit, inRange, HYPHEN, UNDERSCORE in *;
  rewrite <- ?not_true_iff_false in *;
  rewrite ?orb_true_iff, ?andb_true_iff, ?N.leb_le, ?N.eqb_eq in *;
  try lia.

Lemma slugOut_not_space (c : N) : slugOut c = true -> isWhiteSpace c = false.
Proof. classes. Qed.

Lemma slugOut_kept (c : N) :
  slugOut c = true ->
  isWordChar c || isWhiteSpace c || (c =? HYPHEN)%N = true.
Proof. classes. Qed.

Lemma slugOut_ascii_lower (c : N) :
  slugOut c = true -> (c < 128)%N /\ isUpper c = false.
Proof. classes. Qed.

Lemma kept_lower_slugOut (c : N) :
  isWordChar c || isWhiteSpace c || (c =? HYPHEN)%N = true ->
  isUpper c = false -> isWhiteSpace c = false -> slugOut c = true.
Proof. classes. Qed.

(** *** Dropping a prefix or a suffix *)

Lemma dropPrefix_suffix (p : N -> bool) (s : jsstring) :
  dropPrefix p s `suffix_of` s.
Proof.
  induction s as [|c r IH]; simpl; [done|].
  destruct (p c); [by apply suffix_cons_r | done].
Qed.

Lemma dropPrefix_head (p : N -> bool) (s : jsstring) (c : N) :
  head (dropPrefix p s) = Some c -> p c = false.
Proof.
  induction s as [|a r IH]; simpl; [done|].
  destruct (p a) eqn:Ha; [done|]. simpl. by intros [= <-].
Qed.

Lemma dropPrefix_id (p : N -> bool) (s : jsstring) :
  (forall c, head s = Some c -> p c = false) -> dropPrefix p s = s.
Proof.
  destruct s as [|a r]; simpl; [done|]. intros H. by rewrite (H a).
Qed.

Lemma rev_is_reverse (s : jsstring) : rev s = reverse s.
Proof. by rewrite rev_alt. Qed.

Lemma dropSuffix_prefix (p : N -> bool) (s : jsstring) :
  rev (dropPrefix p (rev s)) `prefix_of` s.
Proof.
  destruct (dropPrefix_suffix p (rev s)) as [k Hk].
  exists (rev k). rewrite <- rev_app_distr, <- Hk. by rewrite rev_involutive.
Qed.

Lemma dropSuffix_last (p : N -> bool) (s : jsstring) (c : N) :
  last (rev (dropPrefix p (rev s))) = Some c -> p c = false.
Proof. rewrite rev_is_reverse, last_reverse. apply dropPrefix_head. Qed.

Lemma dropSuffix_id (p : N -> bool) (s : jsstring) :
  (forall c, last s = Some c -> p c = false) ->
  rev (dropPrefix p (rev s)) = s.
Proof.
  intros H. rewrite dropPrefix_id; [apply rev_involutive|].
  intros c. rewrite rev_is_reverse, head_reverse. apply H.
Qed.

Lemma Forall_suffix {A} (P : A -> Prop) (l k : list A) :
  l `suffix_of` k -> Forall P k -> Forall P l.
Proof. intros [x ->] H. by apply Forall_app in H as [_ ?]. Qed.

Lemma Forall_prefix {A} (P : A -> Prop) (l k : list A) :
  l `prefix_of` k -> Forall P k -> Forall P l.
Proof. intros [x ->] H. by apply Forall_app in H as [? _]. Qed.

Lemma trim_Forall (P : N -> Prop) (s : jsstring) :
  Forall P s -> Forall P (trim s).
Proof.
  intros H. unfold trim, trimEnd, trimStart.
  eapply Forall_prefix; [apply dropSuffix_prefix|].
  eapply Forall_suffix; [apply dropPrefix_suffix | done].
Qed.

Lemma trim_id (s : jsstring) :
  (forall c, head s = Some c -> isWhiteSpace c = false) ->
  (forall c, last s = Some c -> isWhiteSpace c = false) ->
  trim s = s.
Proof.
  intros Hh Hl. unfold trim, trimEnd, trimStart.
  rewrite (dropPrefix_id _ s Hh). by apply dropSuffix_id.
Qed.

(** *** Runs *)

Lemma replaceRuns_Forall (Q : N -> Prop) (p : N -> bool) (b : bool)
    (s : jsstring) :
  Q HYPHEN -> Forall (fun c => p c = false -> Q c) s ->
  Forall Q (replaceRuns p b s).
Proof.
  intros Hh H. revert b. induction H as [|c r Hc Hr IH]; intros b; simpl.
  { constructor. }
  destruct (p c) eqn:Hp.
  - destruct b; [apply IH | constructor; [done | apply IH]].
  - constructor; [by apply Hc | apply IH].
Qed.

Lemma replaceRuns_id (p : N -> bool) (b : bool) (s : jsstring) :
  Forall (fun c => p c = false) s -> replaceRuns p b s = s.
Proof.
  intros H. revert b. induction H as [|c r Hc Hr IH]; intros b; simpl; [done|].
  by rewrite Hc, IH.
Qed.

Lemma squeeze_shape (b : bool) (s : jsstring) :
  noDoubleHyphen (replaceRuns (N.eqb HYPHEN) b s) = true /\
  (b = true -> head (replaceRuns (N.eqb HYPHEN) b s) <> Some HYPHEN).
Proof.
  revert b. induction s as [|c r IH]; intros b; simpl.
  { split; [done | by intros _]. }
  destruct (HYPHEN =? c)%N eqn:Hc.
  - destruct b.
    + apply IH.
    + split; [|done]. simpl.
      destruct (IH true) as [Hn Hh].
      rewrite Hn, andb_true_r.
      destruct (replaceRuns (N.eqb HYPHEN) true r) as [|x y] eqn:E; [done|].
      simpl in Hh. apply negb_true_iff, N.eqb_neq. intros ->. by apply Hh.
  - split.
    + simpl. destruct (IH false) as [Hn _]. rewrite Hn, andb_true_r.
      destruct (replaceRuns (N.eqb HYPHEN) false r); [done|].
      apply negb_true_iff, andb_false_iff. left.
      rewrite N.eqb_sym. done.
    + intros _. simpl. intros [= ->]. by rewrite N.eqb_refl in Hc.
Qed.

Lemma squeeze_id (b : bool) (s : jsstring) :
  noDoubleHyphen s = true ->
  (b = true -> head s <> Some HYPHEN) ->
  replaceRuns (N.eqb HYPHEN) b s = s.
Proof.
  revert b. induction s as [|c r IH]; intros b Hn Hb; simpl; [done|].
  simpl in Hn. apply andb_true_iff in Hn as [Hcr Hn].
  destruct (HYPHEN =? c)%N eqn:Hc.
  - apply N.eqb_eq in Hc. subst c.
    destruct b; [exfalso; by apply Hb|].
    f_equal. apply IH; [done|]. intros _.
    destruct r as [|x y]; [done|]. simpl.
    rewrite N.eqb_refl in Hcr. simpl in Hcr.
    apply negb_true_iff, N.eqb_neq in Hcr. congruence.
  - f_equal. apply IH; [done | discriminate].
Qed.

Lemma noDoubleHyphen_app (a b : jsstring) :
  noDoubleHyphen (a ++ b) = true ->
  noDoubleHyphen a = true /\ noDoubleHyphen b = true.
Proof.
  induction a as [|x a IH]; simpl; [done|].
  intros H. apply andb_true_iff in H as [H1 H2].
  destruct (IH H2) as [Ha Hb]. split; [|done].
  rewrite Ha, andb_true_r.
  destruct a; [done | exact H1].
Qed.

(** *** The shape of a generated slug *)

Lemma stripHyphens_shape (s : jsstring) :
  Forall (fun c => slugOut c = true) s -> noDoubleHyphen s = true ->
  slugShaped (stripHyphens s).
Proof.
  intros Hall Hn. unfold stripHyphens.
  pose proof (dropPrefix_suffix (N.eqb HYPHEN) s) as Hsuf.
  pose proof (dropPrefix_head (N.eqb HYPHEN) s) as Hhd.
  revert Hsuf Hhd. generalize (dropPrefix (N.eqb HYPHEN) s). intros d Hsuf Hhd.
  pose proof (dropSuffix_prefix (N.eqb HYPHEN) d) as Hpre.
  pose proof (dropSuffix_last (N.eqb HYPHEN) d) as Hla.
  revert Hpre Hla. generalize (rev (dropPrefix (N.eqb HYPHEN) (rev d))).
  intros e Hpre Hla.
  destruct Hsuf as [k ->]. destruct Hpre as [k' ->].
  apply Forall_app in Hall as [_ Hall]. apply Forall_app in Hall as [Hall _].
  apply noDoubleHyphen_app in Hn as [_ Hn].
  apply noDoubleHyphen_app in Hn as [Hn _].
  repeat split; [done | done | |].
  - intros He. specialize (Hhd HYPHEN).
    rewrite N.eqb_refl in Hhd. destruct e; [done|]. by apply Hhd in He.
  - intros He. apply Hla in He. by rewrite N.eqb_refl in He.
Qed.

Section GenerateSlug.

(** What the proofs use of [String.prototype.toLowerCase]: its result has
    no upper-case ASCII letter, and it leaves an ASCII string without
    upper-case letters as it is. *)
Variable toLowerCase : jsstring -> jsstring.
Hypothesis toLowerCase_lower :
  forall s, Forall (fun c => isUpper c = false) (toLowerCase s).
Hypothesis toLowerCase_fixed :
  forall s, Forall (fun c => (c < 128)%N /\ isUpper c = false) s ->
            toLowerCase s = s.

Lemma generateSlug_shape (title : jsstring) :
  slugShaped (generateSlug toLowerCase title).
Proof.
  unfold generateSlug. apply stripHyphens_shape.
  - unfold squeezeHyphens, spacesToHyphen.
    apply replaceRuns_Forall; [done|]. apply Forall_forall. intros c Hc _.
    revert c Hc. apply Forall_forall.
    apply replaceRuns_Forall; [done|].
    unfold removeSpecial. apply Forall_forall. intros c Hc Hws.
    apply list_elem_of_In, filter_In in Hc as [Hc Hkeep].
    apply kept_lower_slugOut; [done | | done].
    pose proof (trim_Forall _ _ (toLowerCase_lower title)) as Hl.
    rewrite Forall_forall in Hl. apply Hl. by apply list_elem_of_In.
  - apply squeeze_shape.
Qed.

Lemma generateSlug_fixes_slugShaped (s : jsstring) :
  slugShaped s -> generateSlug toLowerCase s = s.
Proof.
  intros (Hall & Hn & Hh & Hl). unfold generateSlug.
  rewrite toLowerCase_fixed.
  2:{ eapply Forall_impl; [exact Hall|]. intros c. apply slugOut_ascii_lower. }
  assert (Hin : forall c, c ∈ s -> slugOut c = true) by by apply Forall_forall.
  rewrite trim_id.
  2:{ intros c Hc. apply slugOut_not_space, Hin. by apply head_Some_elem_of. }
  2:{ intros c Hc. apply slugOut_not_space, Hin. by apply last_Some_elem_of. }
  unfold removeSpecial.
  rewrite forallb_filter_id.
  2:{ apply forallb_forall. intros c Hc. apply slugOut_kept, Hin.
      by apply list_elem_of_In. }
  unfold spacesToHyphen. rewrite replaceRuns_id.
  2:{ eapply Forall_impl; [exact Hall|]. intros c. apply slugOut_not_space. }
  unfold squeezeHyphens. rewrite squeeze_id; [|done|discriminate].
  unfold stripHyphens. rewrite (dropPrefix_id _ s).
  2:{ intros c Hc. apply N.eqb_neq. congruence. }
  apply dropSuffix_id. intros c Hc. apply N.eqb_neq. congruence.
Qed.

(** C8. [generateSlug] is idempotent: applying it to its own result gives
    that result again. *)
Theorem generateSlug_idempotent (t : jsstring) :
  generateSlug toLowerCase (generateSlug toLowerCase t)
  = generateSlug toLowerCase t.
Proof. apply generateSlug_fixes_slugShaped, generateSlug_shape. Qed.

End GenerateSlug.

Lemma toLowerCase_ascii_lower (s : jsstring) :
  Forall (fun c => isUpper c = false) (toLowerCase_ascii s).
Proof.
  unfold toLowerCase_ascii. apply Forall_fmap, Forall_forall. intros c _.
  simpl. destruct (isUpper c) eqn:E; [|done]. classes.
Qed.

Lemma toLowerCase_ascii_fixed (s : jsstring) :
  Forall (fun c => (c < 128)%N /\ isUpper c = false) s ->
  toLowerCase_ascii s = s.
Proof.
  unfold toLowerCase_ascii. induction 1 as [|c r [_ Hc] _ IH]; [done|].
  rewrite fmap_cons. by rewrite Hc, IH.
Qed.

Lemma generateSlug_idempotent_witness :
  generateSlug toLowerCase_ascii
    (generateSlug toLowerCase_ascii (u "  Cafe Noon!! "))
  = generateSlug toLowerCase_ascii (u "  Cafe Noon!! ").
Proof.
  apply (generateSlug_idempotent toLowerCase_ascii
           toLowerCase_ascii_lower toLowerCase_ascii_fixed).
Defined.

Example generateSlug_cafe_noon :
  generateSlug toLowerCase_ascii (u "  Cafe Noon!! ") = u "cafe-noon".
Proof. reflexivity. Qed.

Example generateSlug_keeps_underscore :
  generateSlug toLowerCase_ascii (u "--A_b  --  c--") = u "a_b-c".
Proof. reflexivity. Qed.

(* ===================================================================== *)
(** * Properties of the Record Store Adapter                              *)
(* ===================================================================== *)

(** ** Queries *)

Lemma insertSorted_Permutation {A} (le : A -> A -> bool) (x : A) (l : list A) :
  insertSorted le x l ≡ₚ x :: l.
Proof.
  induction l as [|y r IH]; simpl; [done|].
  destruct (le x y); [done|]. rewrite IH. apply Permutation_swap.
Qed.

Lemma sortBy_Permutation {A} (le : A -> A -> bool) (l : list A) :
  sortBy le l ≡ₚ l.
Proof.
  induction l as [|x r IH]; simpl; [done|].
  rewrite insertSorted_Permutation. by rewrite IH.
Qed.

Lemma byName_elem_of (m : gmap jsstring Doc) (id : jsstring) (d : Doc) :
  (id, d) ∈ byName (map_to_list m) <-> m !! id = Some d.
Proof.
  unfold byName. rewrite sortBy_Permutation. apply elem_of_map_to_list.
Qed.

Lemma byName_NoDup (m : gmap jsstring Doc) : NoDup (byName (map_to_list m)).
Proof.
  unfold byName. rewrite sortBy_Permutation. apply NoDup_map_to_list.
Qed.

Lemma filter_none {A} (f : A -> bool) (l : list A) :
  (forall y, y ∈ l -> f y = false) -> List.filter f l = [].
Proof.
  induction l as [|a r IH]; simpl; [done|]. intros H.
  rewrite (H a) by left. apply IH. intros y Hy. apply H. by right.
Qed.

Lemma filter_unique {A} (f : A -> bool) (l : list A) (x : A) :
  NoDup l -> x ∈ l -> f x = true ->
  (forall y, y ∈ l -> f y = true -> y = x) ->
  List.filter f l = [x].
Proof.
  induction 1 as [|a r Ha Hr IH]; intros Hx Hfx Huniq.
  { by apply elem_of_nil in Hx. }
  simpl. destruct (f a) eqn:Hfa.
  - assert (a = x) as -> by (apply Huniq; [left | done]).
    f_equal. apply filter_none. intros y Hy.
    destruct (f y) eqn:Hfy; [|done].
    assert (y = x) as -> by (apply Huniq; [by right | done]). done.
  - apply elem_of_cons in Hx as [-> | Hx]; [congruence|].
    apply IH; [done | done |]. intros y Hy. apply Huniq. by right.
Qed.

(** The query of [isSlugTaken] and [getLandingPageBySlug] when one record
    holds the slug, and when none does. *)
Lemma slugQuery_unique (m : gmap jsstring Doc) (s id : jsstring) (d : Doc) :
  m !! id = Some d -> holdsSlug d s ->
  (forall id' d', m !! id' = Some d' -> holdsSlug d' s -> id' = id) ->
  limit 1 (where_ "slug" (VStr s) (byName (map_to_list m))) = [(id, d)].
Proof.
  intros Hm Hs Huniq. unfold where_.
  rewrite (filter_unique _ _ (id, d)); [done | apply byName_NoDup | | |].
  - by apply byName_elem_of.
  - simpl. by apply bool_decide_eq_true.
  - intros [id' d'] Hy Hf. apply byName_elem_of in Hy.
    simpl in Hf. apply bool_decide_eq_true in Hf.
    assert (id' = id) as -> by by eapply Huniq. congruence.
Qed.

Lemma slugQuery_none (m : gmap jsstring Doc) (s : jsstring) :
  (forall id d, m !! id = Some d -> ~ holdsSlug d s) ->
  limit 1 (where_ "slug" (VStr s) (byName (map_to_list m))) = [].
Proof.
  intros Hnone. unfold where_. rewrite filter_none; [done|].
  intros [id d] Hy. apply byName_elem_of in Hy. simpl.
  apply bool_decide_eq_false. by apply (Hnone id).
Qed.

(** [isSlugTaken] in terms of the answer of its query. *)
Lemma isSlugTaken_value (slug : jsstring) (excludeId : option jsstring)
    (w : World) :
  storeUp w = true ->
  valueOf (isSlugTaken slug excludeId w) =
    Ok match limit 1 (where_ "slug" (VStr slug)
                        (byName (map_to_list (landingPages w)))) with
       | [] => false
       | doc :: _ =>
           match given excludeId with
           | Some ex => negb (bool_decide (fst doc = ex))
           | None => true
           end
       end.
Proof.
  intros Hup. unfold isSlugTaken, queryGet, reach, entered, modify, gets,
    bind, valueOf. simpl. rewrite Hup. simpl.
  destruct (where_ "slug" (VStr slug) _) as [|doc ?]; [done|].
  by destruct (given excludeId).
Qed.

(** C7. In a store where exactly one record holds slug [s]:
    [isSlugTaken(s, excludeId = that record's id)] is false;
    [isSlugTaken(s)] without [excludeId], or with the identifier of a
    different record, is true; and for a slug [s'] that no record holds,
    [isSlugTaken] is false whatever [excludeId] is. *)
Theorem isSlugTaken_exclude_own (w : World) (s s' id : jsstring) (d : Doc) :
  storeUp w = true ->
  id <> [] ->
  landingPages w !! id = Some d ->
  holdsSlug d s ->
  (forall id' d', landingPages w !! id' = Some d' -> holdsSlug d' s -> id' = id) ->
  (forall id' d', landingPages w !! id' = Some d' -> ~ holdsSlug d' s') ->
  valueOf (isSlugTaken s (Some id) w) = Ok false /\
  valueOf (isSlugTaken s None w) = Ok true /\
  (forall other, other <> id ->
     valueOf (isSlugTaken s (Some other) w) = Ok true) /\
  (forall excludeId, valueOf (isSlugTaken s' excludeId w) = Ok false).
Proof.
  intros Hup Hid Hm Hs Huniq Hnone.
  repeat split; intros; rewrite isSlugTaken_value by done.
  - rewrite (slugQuery_unique _ s id d) by done. simpl.
    apply falsy_false in Hid. rewrite Hid.
    by rewrite bool_decide_eq_true_2.
  - by rewrite (slugQuery_unique _ s id d).
  - rewrite (slugQuery_unique _ s id d) by done. simpl.
    destruct (falsy other); [done|].
    by rewrite bool_decide_eq_false_2.
  - by rewrite slugQuery_none.
Qed.

Lemma isSlugTaken_exclude_own_witness :
  valueOf (isSlugTaken (u "cafe-noon") (Some (u "p1")) cafeWorld) = Ok false /\
  valueOf (isSlugTaken (u "cafe-noon") None cafeWorld) = Ok true /\
  (forall other, other <> u "p1" ->
     valueOf (isSlugTaken (u "cafe-noon") (Some other) cafeWorld) = Ok true) /\
  (forall excludeId,
     valueOf (isSlugTaken (u "tea-house") excludeId cafeWorld) = Ok false).
Proof.
  apply (isSlugTaken_exclude_own cafeWorld (u "cafe-noon") (u "tea-house")
           (u "p1") cafeNoonPublished).
  - reflexivity.
  - discriminate.
  - reflexivity.
  - reflexivity.
  - intros id' d' H _. simpl in H.
    apply lookup_insert_Some in H as [[? _] | [_ H]]; [done|].
    by rewrite lookup_empty in H.
  - intros id' d' H. simpl in H.
    apply lookup_insert_Some in H as [[_ <-] | [_ H]]; [by vm_compute|].
    by rewrite lookup_empty in H.
Defined.

(** ** Create and Update *)

Lemma fieldIs_insert_ne (o : Doc) (k k' : string) (v : Value) (s : string) :
  k <> k' -> fieldIs (<[k := v]> o) k' s = fieldIs o k' s.
Proof. intros. unfold fieldIs. by rewrite lookup_insert_ne. Qed.

(** The document [createLandingPage] stores. *)
Lemma createLandingPage_stores (autoId : gmap jsstring Doc -> jsstring)
    (data : Doc) (adminId : jsstring) (now : Z) (w : World) :
  storeUp w = true ->
  exists d,
    valueOf (createLandingPage autoId data adminId now w)
      = Ok (autoId (landingPages w)) /\
    landingPages (worldOf (createLandingPage autoId data adminId now w))
      !! autoId (landingPages w) = Some d /\
    d !! "status" = data !! "status" /\
    d !! "isPublished" = Some (VBool (fieldIs data "status" "published")) /\
    d !! "publishedAt" =
      Some (if fieldIs data "status" "published" then VDate now else VNull).
Proof.
  intros Hup.
  unfold createLandingPage, docAdd, reach, entered, modify, gets, bind, ret,
    valueOf, worldOf. simpl. rewrite Hup. simpl.
  eexists. split; [done|]. split; [apply lookup_insert_eq|].
  by simplify_map_eq.
Qed.

(** Every record produced by Create satisfies the invariant: [publishedAt]
    is set exactly when the initial status is published. *)
Lemma createLandingPage_invariant (autoId : gmap jsstring Doc -> jsstring)
    (data : Doc) (adminId : jsstring) (now : Z) (w : World) :
  storeUp w = true ->
  exists d,
    landingPages (worldOf (createLandingPage autoId data adminId now w))
      !! autoId (landingPages w) = Some d /\
    publishInvariant d.
Proof.
  intros Hup.
  destruct (createLandingPage_stores autoId data adminId now w Hup)
    as (d & _ & Hd & Hst & Hip & Hpa).
  exists d. split; [done|].
  unfold publishInvariant, publishedAtSet, isPublishedFlag, statusPublished.
  rewrite Hip, Hpa. unfold fieldIs. rewrite Hst. simpl.
  by destruct (bool_decide _).
Qed.

(** The document [updateLandingPage] leaves under [id]. *)
Lemma updateLandingPage_stores (id : jsstring) (data : Doc)
    (adminId : jsstring) (now : Z) (w : World) (old : Doc) :
  storeUp w = true ->
  landingPages w !! id = Some old ->
  valueOf (updateLandingPage id data adminId now w) = Ok true /\
  landingPages (worldOf (updateLandingPage id data adminId now w)) !! id =
    Some
      ((let updateData : Doc :=
          <["isPublished" := VBool (fieldIs data "status" "published")]>
          (<["updatedBy" := VStr adminId]>
          (<["updatedAt" := VDate now]> data)) in
        let updateData :=
          if fieldIs data "status" "published"
             && negb (truthy (old !! "isPublished"))
          then <["publishedAt" := VDate now]> updateData else updateData in
        if negb (fieldIs data "status" "published")
           && truthy (old !! "isPublished")
        then <["publishedAt" := VNull]> updateData else updateData) ∪ old).
Proof.
  intros Hup Hold.
  unfold updateLandingPage, getLandingPageById, docUpdate, docGet, reach,
    entered, modify, gets, bind, ret, valueOf, worldOf.
  simpl. rewrite Hup. simpl. rewrite Hold. simpl. rewrite Hold. simpl.
  assert (Hip : withId id old !! "isPublished" = old !! "isPublished").
  { unfold withId. rewrite lookup_union_l; [done|]. by simplify_map_eq. }
  rewrite Hip. split; [done|]. apply lookup_insert_eq.
Qed.

(** Update keeps the invariant whenever the data carries a status and does
    not itself carry [publishedAt]: [publishedAt] becomes [now] on a
    transition into published, null on a transition out of it, and is left
    as it was otherwise. *)
Lemma updateLandingPage_invariant_with_status (id : jsstring) (data : Doc)
    (adminId : jsstring) (now : Z) (w : World) (old : Doc) :
  storeUp w = true ->
  landingPages w !! id = Some old ->
  publishInvariant old ->
  is_Some (data !! "status") ->
  data !! "publishedAt" = None ->
  exists d,
    landingPages (worldOf (updateLandingPage id data adminId now w)) !! id
      = Some d /\
    publishInvariant d.
Proof.
  intros Hup Hold [Hpa Hip] [st Hst] Hnone.
  destruct (updateLandingPage_stores id data adminId now w old Hup Hold)
    as [_ Hd].
  eexists. split; [exact Hd|]. clear Hd. cbv zeta.
  unfold publishInvariant, publishedAtSet, isPublishedFlag, statusPublished,
    fieldIs in *.
  rewrite <- Hip in Hpa. clear Hip. rewrite Hst.
  destruct (bool_decide (Some st = Some (VStr (u "published")))) eqn:Hnew;
    destruct (truthy (old !! "isPublished")) eqn:Hflag; simpl;
    match goal with
    | |- context [ (?U ∪ old) !! "status" ] =>
        assert (Hs : (U ∪ old) !! "status" = Some st)
          by (apply lookup_union_Some_l; by simplify_map_eq);
        assert (Hi : exists b, (U ∪ old) !! "isPublished" = Some (VBool b)
                               /\ b = bool_decide (Some st = Some (VStr (u "published"))))
          by (eexists; split; [apply lookup_union_Some_l; by simplify_map_eq
                              | by rewrite Hnew])
    end; destruct Hi as (b & Hi & ->); rewrite Hs, Hi; simpl;
    rewrite Hnew; (split; [|done]).
  - rewrite lookup_union_r by by simplify_map_eq.
    destruct (old !! "publishedAt") as [[]|]; done.
  - by erewrite lookup_union_Some_l by by simplify_map_eq.
  - by erewrite lookup_union_Some_l by by simplify_map_eq.
  - rewrite lookup_union_r by by simplify_map_eq.
    destruct (old !! "publishedAt") as [[]|]; done.
Qed.

(** C1 at the failing input. A published record that satisfies the
    invariant is updated with data that changes the business name and
    carries no status. The update succeeds, the status stays published,
    and yet [isPublished] becomes false and [publishedAt] null: the
    invariant is lost. *)
Theorem updateLandingPage_without_status_clears_publishedAt :
  landingPages cafeWorld !! u "p1" = Some cafeNoonPublished /\
  publishInvariant cafeNoonPublished /\
  valueOf (updateLandingPage (u "p1") renameOnly (u "admin-1") 2000 cafeWorld)
    = Ok true /\
  exists d,
    landingPages
      (worldOf (updateLandingPage (u "p1") renameOnly (u "admin-1") 2000
                  cafeWorld)) !! u "p1" = Some d /\
    d !! "status" = Some (VStr (u "published")) /\
    d !! "isPublished" = Some (VBool false) /\
    d !! "publishedAt" = Some VNull /\
    ~ publishInvariant d.
Proof.
  split; [reflexivity|]. split; [by vm_compute|].
  destruct (updateLandingPage_stores (u "p1") renameOnly (u "admin-1") 2000
              cafeWorld cafeNoonPublished eq_refl eq_refl) as [Hv Hd].
  split; [exact Hv|]. eexists. split; [exact Hd|].
  split; [by vm_compute|]. split; [by vm_compute|]. split; [by vm_compute|].
  intros [H _]. vm_compute in H. discriminate.
Qed.

(* ===================================================================== *)
(** * Properties of the route handlers                                    *)
(* ===================================================================== *)

Lemma withId_lookup_ne (id : jsstring) (data : Doc) (k : string) :
  k <> "id" -> withId id data !! k = data !! k.
Proof.
  intros Hk. unfold withId.
  destruct (data !! k) as [v|] eqn:E.
  - by apply lookup_union_Some_l.
  - rewrite lookup_union_r by done. by apply lookup_singleton_ne.
Qed.

(** C2. [Toggle(id, true)] on a record whose status is already published
    is a no-op: the handler answers 200 with the record as it is, the
    stored records (so their status, publishedAt and updatedAt) are
    unchanged, no audit entry is written, and no rebuild is asked for. *)
Theorem POST_publish_already_published (request : Request) (id : jsstring)
    (admin : Admin) (body page : Doc) (w : World) :
  currentAdmin request = Some admin ->
  json request = Some body ->
  body !! "publish" = Some (VBool true) ->
  storeUp w = true ->
  landingPages w !! id = Some page ->
  page !! "status" = Some (VStr (u "published")) ->
  valueOf (POST_publish request id w) =
    Ok (NextResponse_json
          (PPage (u "Page is already published") (withId id page)) 200) /\
  landingPages (worldOf (POST_publish request id w)) = landingPages w /\
  auditLogs (worldOf (POST_publish request id w)) = auditLogs w /\
  rebuildRequests (worldOf (POST_publish request id w)) = rebuildRequests w.
Proof.
  intros Hadmin Hjson Hpub Hup Hpage Hstatus.
  assert (Hst : withId id page !! "status" = Some (VStr (u "published")))
    by by rewrite withId_lookup_ne.
  unfold POST_publish, try_catch, request_json, getLandingPageById, docGet,
    reach, entered, modify, gets, bind, ret, valueOf, worldOf.
  rewrite Hadmin, Hjson. simpl. rewrite Hpub, Hup. simpl. rewrite Hpage.
  unfold fieldIs. rewrite bool_decide_eq_true_2 by done. simpl.
  rewrite insert_id by done. done.
Qed.

Lemma POST_publish_already_published_witness :
  valueOf (POST_publish publishRequest (u "p1") cafeWorld) =
    Ok (NextResponse_json
          (PPage (u "Page is already published")
                 (withId (u "p1") cafeNoonPublished)) 200) /\
  landingPages (worldOf (POST_publish publishRequest (u "p1") cafeWorld))
    = landingPages cafeWorld /\
  auditLogs (worldOf (POST_publish publishRequest (u "p1") cafeWorld))
    = auditLogs cafeWorld /\
  rebuildRequests (worldOf (POST_publish publishRequest (u "p1") cafeWorld))
    = rebuildRequests cafeWorld.
Proof.
  apply (POST_publish_already_published publishRequest (u "p1") sampleAdmin
           {[ "publish" := VBool true ]} cafeNoonPublished cafeWorld);
    reflexivity.
Defined.

(** C9. On every endpoint of the admin surface (list, create, read,
    update, delete, publish-toggle) a request without a valid admin
    session is answered 401, and the world is left exactly as it was:
    neither the stored records nor the log of entries into the Validator
    and the Record Store Adapter have changed. *)
Theorem admin_endpoints_require_session
    (toLowerCase : jsstring -> jsstring)
    (validateLandingPageForm : Doc -> Result (gmap string jsstring))
    (autoId : gmap jsstring Doc -> jsstring)
    (request : Request) (id : jsstring) (w : World) :
  currentAdmin request = None ->
  GET_list toLowerCase request w = (Ok unauthorized, w) /\
  POST_create validateLandingPageForm autoId request w
    = (Ok unauthorized, w) /\
  GET_page request id w = (Ok unauthorized, w) /\
  PUT_page validateLandingPageForm request id w = (Ok unauthorized, w) /\
  DELETE_page request id w = (Ok unauthorized, w) /\
  POST_publish request id w = (Ok unauthorized, w).
Proof.
  intros Hnone.
  unfold GET_list, POST_create, GET_page, PUT_page, DELETE_page, POST_publish,
    try_catch, bind, ret.
  rewrite Hnone. repeat split.
Qed.

Lemma admin_endpoints_require_session_witness :
  GET_list toLowerCase_ascii anonymousRequest cafeWorld
    = (Ok unauthorized, cafeWorld) /\
  POST_create slugOnlyValidator (fun _ => u "p2")
    anonymousRequest cafeWorld = (Ok unauthorized, cafeWorld) /\
  GET_page anonymousRequest (u "p1") cafeWorld = (Ok unauthorized, cafeWorld) /\
  PUT_page slugOnlyValidator anonymousRequest (u "p1") cafeWorld
    = (Ok unauthorized, cafeWorld) /\
  DELETE_page anonymousRequest (u "p1") cafeWorld
    = (Ok unauthorized, cafeWorld) /\
  POST_publish anonymousRequest (u "p1") cafeWorld
    = (Ok unauthorized, cafeWorld).
Proof.
  apply (admin_endpoints_require_session toLowerCase_ascii slugOnlyValidator
           (fun _ => u "p2") anonymousRequest (u "p1") cafeWorld).
  reflexivity.
Defined.

(* ===================================================================== *)
(** * Properties of the sitemap                                           *)
(* ===================================================================== *)

(** With the store in reach the sitemap is the five static entries
    followed by one entry per page that [getPublishedLandingPages]
    returns. *)
Lemma sitemap_store_up (SITE_URL : jsstring)
    (String_ : option Value -> jsstring) (newDate : option Value -> Value)
    (now : Z) (w : World) :
  storeUp w = true ->
  exists pages,
    valueOf (getPublishedLandingPages w) = Ok pages /\
    valueOf (sitemap SITE_URL String_ newDate now w) =
      Ok (staticPages SITE_URL now
          ++ (pageEntry SITE_URL String_ newDate <$> pages)).
Proof.
  intros Hup.
  unfold sitemap, getPublishedLandingPages, try_catch, queryGet, reach,
    entered, modify, gets, bind, ret, valueOf.
  simpl. rewrite Hup. simpl. by eexists.
Qed.

(** Every page [getPublishedLandingPages] returns is a stored record whose
    status is published. *)
Lemma getPublishedLandingPages_published (w : World) (pages : list Doc)
    (page : Doc) :
  valueOf (getPublishedLandingPages w) = Ok pages ->
  page ∈ pages ->
  exists id d, landingPages w !! id = Some d /\ page = withId id d /\
               d !! "status" = Some (VStr (u "published")).
Proof.
  unfold getPublishedLandingPages, queryGet, reach, entered, modify, gets,
    bind, ret, valueOf. simpl.
  destruct (storeUp w); simpl; [|discriminate].
  intros [= <-] Hin.
  apply list_elem_of_fmap in Hin as ([id d] & -> & Hin).
  unfold orderByDesc in Hin. rewrite sortBy_Permutation in Hin.
  apply list_elem_of_In, filter_In in Hin as [Hin _].
  unfold where_ in Hin. apply filter_In in Hin as [Hin Hst].
  apply list_elem_of_In, byName_elem_of in Hin.
  apply bool_decide_eq_true in Hst.
  by exists id, d.
Qed.

(** C3 at the failing input. When the query for published records fails,
    the sitemap is the single entry of the site root: the entries for
    /about, /privacy, /terms and /plans of the static set are missing. *)
Theorem sitemap_store_down_root_only (SITE_URL : jsstring)
    (String_ : option Value -> jsstring) (newDate : option Value -> Value)
    (now : Z) (w : World) :
  storeUp w = false ->
  valueOf (sitemap SITE_URL String_ newDate now w)
    = Ok [rootEntry SITE_URL now] /\
  valueOf (sitemap SITE_URL String_ newDate now w)
    <> Ok (staticPages SITE_URL now).
Proof.
  intros Hdown.
  unfold sitemap, getPublishedLandingPages, try_catch, queryGet, reach,
    entered, modify, gets, bind, ret, valueOf.
  simpl. rewrite Hdown. simpl. split; [done|]. discriminate.
Qed.

Lemma sitemap_store_down_root_only_witness :
  valueOf (sitemap kashpages (fun _ => u "undefined") (fun _ => VNull) 3000
             cafeWorldDown)
    = Ok [rootEntry kashpages 3000] /\
  valueOf (sitemap kashpages (fun _ => u "undefined") (fun _ => VNull) 3000
             cafeWorldDown)
    <> Ok (staticPages kashpages 3000).
Proof.
  apply (sitemap_store_down_root_only kashpages (fun _ => u "undefined")
           (fun _ => VNull) 3000 cafeWorldDown).
  reflexivity.
Defined.

(** With the store in reach the scenario's record gets its entry after
    the five static ones. *)
Example sitemap_cafe_noon :
  valueOf (sitemap kashpages (fun _ => u "undefined") (fun _ => VNull) 3000
             cafeWorld)
  = Ok (staticPages kashpages 3000 ++
        [ {| url := u "https://kashpages.in/cafe-noon";
             lastModified := VDate 1000;
             changeFrequency := u "monthly"; priority := 8 # 10 |} ]).
Proof. by vm_compute. Qed.

(** The same loss through the update endpoint: an edit of the published
    record that the validator lets pass and that names no status is
    answered 200, and leaves the record published with [isPublished] false
    and [publishedAt] null. *)
Example PUT_page_without_status :
  let r := PUT_page slugOnlyValidator editRequest (u "p1") cafeWorld in
  valueOf r = Ok (NextResponse_json
                    (PMessage (u "Landing page updated successfully")) 200) /\
  match landingPages (worldOf r) !! u "p1" with
  | Some d =>
      d !! "status" = Some (VStr (u "published")) /\
      d !! "isPublished" = Some (VBool false) /\
      d !! "publishedAt" = Some VNull
  | None => False
  end.
Proof. vm_compute. repeat split. Qed.

(* ===================================================================== *)
(** * Further properties of the validators                                *)
(* ===================================================================== *)

(** ** Required text, and the fields checked by length alone *)

(** [validateRequired] accepts a value exactly when something is left of
    it after trimming and the value as given, white space included, has
    at most 500 code units. A value of white space only is reported as
    missing, a longer one as too long. *)
Theorem validateRequired_accepts_exactly (value fieldName : jsstring) :
  (validateRequired value fieldName = None <->
     trim value <> [] /\ len value <= 500) /\
  (trim value = [] ->
     validateRequired value fieldName = Some (fieldName ++ u " is required")) /\
  (trim value <> [] -> len value > 500 ->
     validateRequired value fieldName
       = Some (fieldName ++ u " must not exceed 500 characters")).
Proof.
  split; [|split].
  - unfold validateRequired.
    destruct (falsy value) eqn:Hv; simpl.
    { apply falsy_nil in Hv. subst value. split; [discriminate|].
      intros [H _]. by destruct H. }
    destruct (falsy (trim value)) eqn:Ht; simpl.
    { apply falsy_nil in Ht. split; [discriminate | tauto]. }
    apply falsy_false in Ht.
    destruct (len value >? 500) eqn:Hl; [split; [discriminate | lia]|].
    split; [intros _; split; [done | lia] | done].
  - intros Ht. unfold validateRequired.
    apply falsy_nil in Ht. rewrite Ht. by rewrite orb_true_r.
  - apply validateRequired_too_long.
Qed.

(** The meta description and the phone number are checked by length
    alone, on the value as given: the description passes exactly with 20
    to 160 code units, the phone number exactly when it is empty or has 7
    to 20 code units, whatever these are. *)
Theorem length_only_validators (s : jsstring) :
  (validateMetaDescription s = None <-> 20 <= len s <= 160) /\
  (validatePhone s = None <-> s = [] \/ 7 <= len s <= 20).
Proof.
  split.
  - unfold validateMetaDescription. destruct (falsy s) eqn:Hf.
    { apply falsy_nil in Hf. subst s. split; [discriminate|].
      unfold len. simpl. lia. }
    destruct (len s <? 20) eqn:H1; [split; [discriminate | lia]|].
    destruct (len s >? 160) eqn:H2; [split; [discriminate | lia]|].
    split; [lia | done].
  - unfold validatePhone. destruct (falsy s) eqn:Hf.
    { apply falsy_nil in Hf. split; [by left | done]. }
    apply falsy_false in Hf.
    destruct (len s <? 7) eqn:H1.
    { split; [discriminate|]. intros [? | ?]; [done | lia]. }
    destruct (len s >? 20) eqn:H2.
    { split; [discriminate|]. intros [? | ?]; [done | lia]. }
    split; [intros _; right; lia | done].
Qed.

(** ** The e-mail pattern *)

Lemma emailClass_spec (c : N) : emailClass c = true <-> emailLetter c.
Proof.
  unfold emailClass, emailLetter.
  rewrite andb_true_iff, !negb_true_iff, N.eqb_neq. tauto.
Qed.

Lemma Forall_emailClass (s : jsstring) :
  forallb emailClass s = true <-> Forall emailLetter s.
Proof.
  rewrite forallb_forall, Forall_forall. split; intros H c Hc.
  - apply emailClass_spec, H. by apply list_elem_of_In.
  - apply emailClass_spec, H. by apply list_elem_of_In.
Qed.

Lemma splitAt64_Some (s a b : jsstring) :
  splitAt64 s = Some (a, b) ->
  s = a ++ [64%N] ++ b /\ Forall (fun c => c <> 64%N) a.
Proof.
  revert a. induction s as [|c r IH]; intros a; simpl; [done|].
  destruct (c =? 64)%N eqn:Hc.
  - intros [= <- <-]. apply N.eqb_eq in Hc. subst c. by split.
  - destruct (splitAt64 r) as [[a' b']|]; [|done].
    intros [= <- <-]. destruct (IH a' eq_refl) as [-> Ha].
    split; [done|]. constructor; [by apply N.eqb_neq | done].
Qed.

Lemma splitAt64_app (a b : jsstring) :
  Forall (fun c => c <> 64%N) a -> splitAt64 (a ++ [64%N] ++ b) = Some (a, b).
Proof.
  induction 1 as [|c r Hc _ IH]; simpl; [done|].
  apply N.eqb_neq in Hc. rewrite Hc. simpl in IH. by rewrite IH.
Qed.

Lemma dotInside_step (x d z : N) (q : jsstring) :
  dotInside (x :: d :: z :: q) = (d =? 46)%N || dotInside (d :: z :: q).
Proof. reflexivity. Qed.

Lemma dotInside_true (dom : jsstring) :
  dotInside dom = true <->
  exists b c, dom = b ++ [46%N] ++ c /\ b <> [] /\ c <> [].
Proof.
  split.
  - induction dom as [|x r IH]; [done|].
    destruct r as [|d [|y t]]; [done | done |].
    change (dotInside (x :: d :: y :: t))
      with ((d =? 46)%N || dotInside (d :: y :: t)).
    intros H. apply orb_true_iff in H as [H | H].
    + apply N.eqb_eq in H. subst d. by exists [x], (y :: t).
    + destruct (IH H) as (b & c & Hbc & Hb & Hc).
      exists (x :: b), c. rewrite Hbc. done.
  - intros (b & c & -> & Hb & Hc).
    destruct c as [|y t]; [done|]. clear Hc.
    induction b as [|x b IH]; [done|]. clear Hb.
    destruct b as [|x' b']; [reflexivity|].
    specialize (IH ltac:(done)).
    destruct b' as [|z q]; cbn [app] in *;
      rewrite dotInside_step, IH; apply orb_true_r.
Qed.

(** The matcher written for [/^[^\s@]+@[^\s@]+\.[^\s@]+$/] accepts the
    language of the pattern, and [validateEmail] accepts exactly the empty
    string and the strings of that language. *)
Theorem validateEmail_accepts_exactly (email : jsstring) :
  validateEmail email = None <-> email = [] \/ matchesEmailPattern email.
Proof.
  assert (Hre : emailRegexTest email = true <-> matchesEmailPattern email).
  { unfold emailRegexTest, matchesEmailPattern. split.
    - destruct (splitAt64 email) as [[a dom]|] eqn:Hs; [|done].
      apply splitAt64_Some in Hs as [-> _].
      rewrite !andb_true_iff, negb_true_iff, falsy_false, !Forall_emailClass.
      intros [[[Ha Hfa] Hfd] Hdot].
      apply dotInside_true in Hdot as (b & c & -> & Hb & Hc).
      exists a, b, c. apply Forall_app in Hfd as [Hfb Hfc].
      apply Forall_cons in Hfc as [_ Hfc]. done.
    - intros (a & b & c & -> & Ha & Hb & Hc & Hfa & Hfb & Hfc).
      rewrite splitAt64_app.
      2:{ eapply Forall_impl; [exact Hfa|]. by intros x [_ ?]. }
      rewrite !andb_true_iff, negb_true_iff, falsy_false, !Forall_emailClass.
      repeat split; [done | done | | ].
      + apply Forall_app. split; [done|]. apply Forall_cons. split; [|done].
        split; [done | done].
      + apply dotInside_true. by exists b, c. }
  unfold validateEmail. destruct (falsy email) eqn:Hf.
  { apply falsy_nil in Hf. split; [by left | done]. }
  apply falsy_false in Hf.
  destruct (emailRegexTest email) eqn:Ht; simpl.
  - split; [intros _; right; by apply Hre | done].
  - split; [discriminate|]. intros [? | H]; [done|].
    apply Hre in H. congruence.
Qed.

(** ** Derived slugs and the slug check *)

Lemma validateSlug_None_inv (s : jsstring) :
  validateSlug s = None ->
  2 <= len s <= 50 /\ slugRegexTest s = true /\
  startsWith s (u "-") = false /\ endsWith s (u "-") = false.
Proof.
  unfold validateSlug.
  destruct (falsy s); [done|].
  destruct (len s <? 2) eqn:H2; [done|].
  destruct (len s >? 50) eqn:H50; [done|].
  destruct (slugRegexTest s); [|done]. simpl.
  destruct (startsWith s (u "-")); [done|].
  destruct (endsWith s (u "-")); [done|].
  intros _. repeat split; lia.
Qed.

Lemma slugClass_slugOut (c : N) : slugClass c = true -> slugOut c = true.
Proof. classes. Qed.

Lemma slugOut_slugClass (c : N) :
  slugOut c = true -> c <> UNDERSCORE -> slugClass c = true.
Proof. classes. Qed.

Lemma slugClass_not_underscore (c : N) : slugClass c = true -> c <> UNDERSCORE.
Proof. classes. Qed.

Lemma not_hyphen_head (s : jsstring) :
  startsWith s (u "-") = false <-> head s <> Some HYPHEN.
Proof.
  rewrite <- startsWith_hyphen. by destruct (startsWith s (u "-")).
Qed.

Lemma not_hyphen_last (s : jsstring) :
  endsWith s (u "-") = false <-> last s <> Some HYPHEN.
Proof.
  rewrite <- endsWith_hyphen. by destruct (endsWith s (u "-")).
Qed.

Section DerivedSlugs.

Variable toLowerCase : jsstring -> jsstring.
Hypothesis toLowerCase_lower :
  forall s, Forall (fun c => isUpper c = false) (toLowerCase s).
Hypothesis toLowerCase_fixed :
  forall s, Forall (fun c => (c < 128)%N /\ isUpper c = false) s ->
            toLowerCase s = s.

(** Whatever the title, the derived slug consists of [a-z0-9_-] only, has
    no two hyphens in a row, and neither starts nor ends with a hyphen. *)
Theorem generateSlug_output_shape (title : jsstring) :
  Forall (fun c => slugOut c = true) (generateSlug toLowerCase title) /\
  noDoubleHyphen (generateSlug toLowerCase title) = true /\
  head (generateSlug toLowerCase title) <> Some HYPHEN /\
  last (generateSlug toLowerCase title) <> Some HYPHEN.
Proof. by apply generateSlug_shape. Qed.

(** The slug check accepts a derived slug exactly when it has between 2
    and 50 code units and no underscore: the derivation keeps underscores,
    which the check does not allow, and does not bound the length. *)
Theorem validateSlug_of_generateSlug (title : jsstring) :
  validateSlug (generateSlug toLowerCase title) = None <->
  2 <= len (generateSlug toLowerCase title) <= 50 /\
  UNDERSCORE ∉ generateSlug toLowerCase title.
Proof.
  destruct (generateSlug_shape toLowerCase toLowerCase_lower title)
    as (Hall & _ & Hh & Hl).
  set (s := generateSlug toLowerCase title) in *.
  split.
  - intros H. apply validateSlug_None_inv in H as (Hlen & Hre & _).
    split; [done|]. intros Hin.
    apply slugRegexTest_spec in Hre as [_ Hre].
    rewrite Forall_forall in Hre. specialize (Hre _ Hin).
    unfold slugLetter, UNDERSCORE in Hre. lia.
  - intros [Hlen Hno]. unfold validateSlug.
    assert (Hne : s <> []).
    { intros E. rewrite E in Hlen. unfold len in Hlen. simpl in Hlen. lia. }
    apply falsy_false in Hne as Hf. rewrite Hf.
    destruct (len s <? 2) eqn:H2; [lia|].
    destruct (len s >? 50) eqn:H50; [lia|].
    assert (Hre : slugRegexTest s = true).
    { apply slugRegexTest_spec. split; [done|].
      apply Forall_forall. intros c Hc. apply slugClass_spec.
      apply slugOut_slugClass.
      - rewrite Forall_forall in Hall. by apply Hall.
      - intros ->. by apply Hno. }
    rewrite Hre. simpl.
    apply not_hyphen_head in Hh. apply not_hyphen_last in Hl.
    by rewrite Hh, Hl.
Qed.

(** On a slug that passes the slug check the derivation changes nothing,
    unless the slug has two hyphens in a row: the check allows such a
    run, the derivation squeezes it. *)
Theorem generateSlug_on_valid_slug (s : jsstring) :
  validateSlug s = None ->
  (generateSlug toLowerCase s = s <-> noDoubleHyphen s = true).
Proof.
  intros H. apply validateSlug_None_inv in H as (_ & Hre & Hh & Hl).
  apply slugRegexTest_spec in Hre as [_ Hre].
  split.
  - intros E.
    destruct (generateSlug_shape toLowerCase toLowerCase_lower s)
      as (_ & Hn & _). by rewrite E in Hn.
  - intros Hn. apply generateSlug_fixes_slugShaped; [done|].
    repeat split; [| done | by apply not_hyphen_head | by apply not_hyphen_last].
    eapply Forall_impl; [exact Hre|]. intros c Hc.
    by apply slugClass_slugOut, slugClass_spec.
Qed.

End DerivedSlugs.

Lemma generateSlug_output_shape_witness :
  Forall (fun c => slugOut c = true)
         (generateSlug toLowerCase_ascii (u " My_Shop -- #1 ")) /\
  noDoubleHyphen (generateSlug toLowerCase_ascii (u " My_Shop -- #1 ")) = true /\
  head (generateSlug toLowerCase_ascii (u " My_Shop -- #1 ")) <> Some HYPHEN /\
  last (generateSlug toLowerCase_ascii (u " My_Shop -- #1 ")) <> Some HYPHEN.
Proof.
  apply (generateSlug_output_shape toLowerCase_ascii toLowerCase_ascii_lower).
Defined.

Lemma validateSlug_of_generateSlug_witness :
  validateSlug (generateSlug toLowerCase_ascii (u " My_Shop -- #1 ")) = None <->
  2 <= len (generateSlug toLowerCase_ascii (u " My_Shop -- #1 ")) <= 50 /\
  UNDERSCORE ∉ generateSlug toLowerCase_ascii (u " My_Shop -- #1 ").
Proof.
  apply (validateSlug_of_generateSlug toLowerCase_ascii toLowerCase_ascii_lower).
Defined.

Lemma generateSlug_on_valid_slug_witness :
  generateSlug toLowerCase_ascii (u "cafe--noon") = u "cafe--noon" <->
  noDoubleHyphen (u "cafe--noon") = true.
Proof.
  apply (generateSlug_on_valid_slug toLowerCase_ascii toLowerCase_ascii_lower
           toLowerCase_ascii_fixed (u "cafe--noon")).
  reflexivity.
Defined.

(** A title with an underscore derives a slug that the check refuses, and
    a valid slug with a run of hyphens is not a fixed point. *)
Example generateSlug_underscore_refused :
  generateSlug toLowerCase_ascii (u " My_Shop -- #1 ") = u "my_shop-1" /\
  validateSlug (u "my_shop-1")
  = Some (u "Slug must contain only lowercase letters, numbers, and hyphens").
Proof. by vm_compute. Qed.

Example generateSlug_squeezes_valid_slug :
  validateSlug (u "cafe--noon") = None /\
  generateSlug toLowerCase_ascii (u "cafe--noon") = u "cafe-noon".
Proof. by vm_compute. Qed.

(* ===================================================================== *)
(** * Further properties of the Record Store Adapter                      *)
(* ===================================================================== *)

Ltac listed :=
  unfold stampKeys, updateKeys;
  repeat first [ apply list_elem_of_here | apply list_elem_of_further ].

Lemma withId_lookup_id (id : jsstring) (data : Doc) :
  withId id data !! "id" = Some (default (VStr id) (data !! "id")).
Proof.
  unfold withId. destruct (data !! "id") as [v|] eqn:E; simpl.
  - by apply lookup_union_Some_l.
  - rewrite lookup_union_r by done. apply lookup_singleton_eq.
Qed.

Lemma getLandingPageById_run (id : jsstring) (w : World) :
  storeUp w = true ->
  getLandingPageById id w =
    (Ok (withId id <$> landingPages w !! id),
     noted (CallAdapter "getLandingPageById") w).
Proof.
  intros Hup. unfold getLandingPageById, docGet, reach, entered, modify, gets,
    bind, ret, noted. simpl. rewrite Hup. simpl.
  by destruct (landingPages w !! id).
Qed.

(** ** Create *)

(** Create followed by GetById on the identifier it returns gives back the
    data with the eight stamps of the call: [createdAt] and [updatedAt]
    are [now], [createdBy] and [updatedBy] the acting admin, [isPublished]
    says whether the data's status is published, [publishedAt] is [now]
    in that case and null otherwise, the view counter is zero and
    [lastViewedAt] null, whatever the data said about these eight fields.
    Every other field is the data's; the [id] reported is the document's
    unless the data has an [id] field of its own; no other record
    changes. *)
Theorem createLandingPage_round_trip (autoId : gmap jsstring Doc -> jsstring)
    (data : Doc) (adminId : jsstring) (now : Z) (w : World) :
  storeUp w = true ->
  valueOf (createLandingPage autoId data adminId now w)
    = Ok (autoId (landingPages w)) /\
  (exists page,
     valueOf (getLandingPageById (autoId (landingPages w))
                (worldOf (createLandingPage autoId data adminId now w)))
       = Ok (Some page) /\
     page !! "createdAt" = Some (VDate now) /\
     page !! "updatedAt" = Some (VDate now) /\
     page !! "createdBy" = Some (VStr adminId) /\
     page !! "updatedBy" = Some (VStr adminId) /\
     page !! "isPublished"
       = Some (VBool (fieldIs data "status" "published")) /\
     page !! "publishedAt"
       = Some (if fieldIs data "status" "published"
               then VDate now else VNull) /\
     page !! "viewCount" = Some (VNum 0) /\
     page !! "lastViewedAt" = Some VNull /\
     (forall k, k ∉ stampKeys -> k <> "id" -> page !! k = data !! k) /\
     page !! "id"
       = Some (default (VStr (autoId (landingPages w))) (data !! "id"))) /\
  (forall id', id' <> autoId (landingPages w) ->
     landingPages (worldOf (createLandingPage autoId data adminId now w)) !! id'
     = landingPages w !! id').
Proof.
  intros Hup.
  set (newId := autoId (landingPages w)).
  assert (Hrun : exists pageData w',
    createLandingPage autoId data adminId now w = (Ok newId, w') /\
    storeUp w' = true /\
    landingPages w' = <[newId := pageData]> (landingPages w) /\
    pageData !! "createdAt" = Some (VDate now) /\
    pageData !! "updatedAt" = Some (VDate now) /\
    pageData !! "createdBy" = Some (VStr adminId) /\
    pageData !! "updatedBy" = Some (VStr adminId) /\
    pageData !! "isPublished"
      = Some (VBool (fieldIs data "status" "published")) /\
    pageData !! "publishedAt"
      = Some (if fieldIs data "status" "published"
              then VDate now else VNull) /\
    pageData !! "viewCount" = Some (VNum 0) /\
    pageData !! "lastViewedAt" = Some VNull /\
    (forall k, k ∉ stampKeys -> pageData !! k = data !! k)).
  { unfold createLandingPage, docAdd, reach, entered, modify, gets, bind, ret.
    simpl. rewrite Hup. simpl. eexists _, _. split; [reflexivity|].
    simpl. split; [done|]. split; [reflexivity|].
    repeat (split; [by simplify_map_eq|]).
    intros k Hk. unfold stampKeys in Hk.
    repeat (rewrite lookup_insert_ne by (intros <-; apply Hk; listed)).
    done. }
  destruct Hrun as (pageData & w' & Hrun & Hup' & Hpages & H1 & H2 & H3 & H4
                    & H5 & H6 & H7 & H8 & Hrest).
  unfold valueOf, worldOf. rewrite Hrun. simpl.
  split; [done|]. split.
  - exists (withId newId pageData).
    rewrite getLandingPageById_run by done. simpl.
    rewrite Hpages, lookup_insert_eq. simpl. split; [done|].
    rewrite !withId_lookup_ne by done.
    repeat (split; [done|]). split.
    + intros k Hk Hid. rewrite withId_lookup_ne by done. by apply Hrest.
    + rewrite withId_lookup_id. rewrite Hrest; [done|].
      unfold stampKeys. rewrite !not_elem_of_cons. repeat split; try done.
      apply not_elem_of_nil.
  - intros id' Hid. rewrite Hpages. by apply lookup_insert_ne.
Qed.

Lemma createLandingPage_round_trip_witness :
  valueOf (createLandingPage (fun _ => u "p2") cafeNoonDraft (u "admin-1") 1500
             emptyWorld) = Ok (u "p2") /\
  (exists page,
     valueOf (getLandingPageById (u "p2")
                (worldOf (createLandingPage (fun _ => u "p2") cafeNoonDraft
                            (u "admin-1") 1500 emptyWorld)))
       = Ok (Some page) /\
     page !! "createdAt" = Some (VDate 1500) /\
     page !! "updatedAt" = Some (VDate 1500) /\
     page !! "createdBy" = Some (VStr (u "admin-1")) /\
     page !! "updatedBy" = Some (VStr (u "admin-1")) /\
     page !! "isPublished"
       = Some (VBool (fieldIs cafeNoonDraft "status" "published")) /\
     page !! "publishedAt"
       = Some (if fieldIs cafeNoonDraft "status" "published"
               then VDate 1500 else VNull) /\
     page !! "viewCount" = Some (VNum 0) /\
     page !! "lastViewedAt" = Some VNull /\
     (forall k, k ∉ stampKeys -> k <> "id" -> page !! k = cafeNoonDraft !! k) /\
     page !! "id" = Some (default (VStr (u "p2")) (cafeNoonDraft !! "id"))) /\
  (forall id', id' <> u "p2" ->
     landingPages (worldOf (createLandingPage (fun _ => u "p2") cafeNoonDraft
                              (u "admin-1") 1500 emptyWorld)) !! id'
     = landingPages emptyWorld !! id').
Proof.
  apply (createLandingPage_round_trip (fun _ => u "p2") cafeNoonDraft
           (u "admin-1") 1500 emptyWorld).
  reflexivity.
Defined.

Lemma createLandingPage_invariant_witness :
  exists d,
    landingPages (worldOf (createLandingPage (fun _ => u "p2") cafeNoonDraft
                             (u "admin-1") 1500 emptyWorld)) !! u "p2" = Some d /\
    publishInvariant d.
Proof.
  apply (createLandingPage_invariant (fun _ => u "p2") cafeNoonDraft
           (u "admin-1") 1500 emptyWorld).
  reflexivity.
Defined.

(** ** Update *)

(** Update of an identifier that is not in the store answers false and
    changes no record. *)
Theorem updateLandingPage_missing_id (id : jsstring) (data : Doc)
    (adminId : jsstring) (now : Z) (w : World) :
  storeUp w = true ->
  landingPages w !! id = None ->
  valueOf (updateLandingPage id data adminId now w) = Ok false /\
  landingPages (worldOf (updateLandingPage id data adminId now w))
    = landingPages w.
Proof.
  intros Hup Hnone.
  unfold updateLandingPage, bind, entered, modify, valueOf, worldOf. simpl.
  rewrite getLandingPageById_run by done. simpl. rewrite Hnone. done.
Qed.

Lemma updateLandingPage_missing_id_witness :
  valueOf (updateLandingPage (u "p9") renameOnly (u "admin-1") 2000 cafeWorld)
    = Ok false /\
  landingPages (worldOf (updateLandingPage (u "p9") renameOnly (u "admin-1")
                           2000 cafeWorld))
    = landingPages cafeWorld.
Proof.
  apply (updateLandingPage_missing_id (u "p9") renameOnly (u "admin-1") 2000
           cafeWorld); reflexivity.
Defined.

(** Update of a stored record stamps [updatedAt] with [now] and
    [updatedBy] with the acting admin and recomputes [isPublished] from
    the status in the data. Every field it does not decide itself takes
    the value the data gives, [createdAt] and [createdBy] included, and
    keeps its stored value when the data does not mention it. No other
    record changes. *)
Theorem updateLandingPage_fields (id : jsstring) (data : Doc)
    (adminId : jsstring) (now : Z) (w : World) (old : Doc) :
  storeUp w = true ->
  landingPages w !! id = Some old ->
  valueOf (updateLandingPage id data adminId now w) = Ok true /\
  (exists d,
     landingPages (worldOf (updateLandingPage id data adminId now w)) !! id
       = Some d /\
     d !! "updatedAt" = Some (VDate now) /\
     d !! "updatedBy" = Some (VStr adminId) /\
     d !! "isPublished" = Some (VBool (fieldIs data "status" "published")) /\
     (forall k, k ∉ updateKeys ->
        d !! k = match data !! k with
                 | Some v => Some v
                 | None => old !! k
                 end)) /\
  (forall id', id' <> id ->
     landingPages (worldOf (updateLandingPage id data adminId now w)) !! id'
     = landingPages w !! id').
Proof.
  intros Hup Hold.
  destruct (updateLandingPage_stores id data adminId now w old Hup Hold)
    as [Hv Hd].
  split; [done|]. split.
  - eexists. split; [exact Hd|]. cbv zeta.
    set (U0 := <["isPublished" := VBool (fieldIs data "status" "published")]>
                 (<["updatedBy" := VStr adminId]>
                 (<["updatedAt" := VDate now]> data))).
    assert (H0 : U0 !! "updatedAt" = Some (VDate now)
                 /\ U0 !! "updatedBy" = Some (VStr adminId)
                 /\ U0 !! "isPublished"
                    = Some (VBool (fieldIs data "status" "published"))
                 /\ forall k, k ∉ updateKeys -> U0 !! k = data !! k).
    { subst U0. repeat (split; [by simplify_map_eq|]).
      intros k Hk. unfold updateKeys in Hk.
      repeat (rewrite lookup_insert_ne by (intros <-; apply Hk; listed)).
      done. }
    destruct H0 as (Ha & Hb & Hc & Hrest).
    assert (Hpa : forall (U : Doc) v k, k <> "publishedAt" ->
                    (<["publishedAt" := v]> U) !! k = U !! k).
    { intros U v k Hk. by apply lookup_insert_ne. }
    assert (Hnot : forall k, k ∉ updateKeys -> k <> "publishedAt").
    { intros k Hk ->. apply Hk. listed. }
    destruct (fieldIs data "status" "published" && _);
      destruct (negb (fieldIs data "status" "published") && _);
      (split; [apply lookup_union_Some_l; by rewrite ?Hpa|]);
      (split; [apply lookup_union_Some_l; by rewrite ?Hpa|]);
      (split; [apply lookup_union_Some_l; by rewrite ?Hpa|]);
      intros k Hk; rewrite lookup_union, ?Hpa by (by apply Hnot);
      rewrite (Hrest k Hk); by destruct (data !! k), (old !! k).
  - intros id' Hid.
    unfold updateLandingPage, getLandingPageById, docUpdate, docGet, reach,
      entered, modify, gets, bind, ret, worldOf.
    simpl. rewrite Hup. simpl. rewrite Hold. simpl. rewrite Hold. simpl.
    by apply lookup_insert_ne.
Qed.

Lemma updateLandingPage_fields_witness :
  valueOf (updateLandingPage (u "p1") renameOnly (u "admin-1") 2000 cafeWorld)
    = Ok true /\
  (exists d,
     landingPages (worldOf (updateLandingPage (u "p1") renameOnly (u "admin-1")
                              2000 cafeWorld)) !! u "p1" = Some d /\
     d !! "updatedAt" = Some (VDate 2000) /\
     d !! "updatedBy" = Some (VStr (u "admin-1")) /\
     d !! "isPublished" = Some (VBool (fieldIs renameOnly "status" "published")) /\
     (forall k, k ∉ updateKeys ->
        d !! k = match renameOnly !! k with
                 | Some v => Some v
                 | None => cafeNoonPublished !! k
                 end)) /\
  (forall id', id' <> u "p1" ->
     landingPages (worldOf (updateLandingPage (u "p1") renameOnly (u "admin-1")
                              2000 cafeWorld)) !! id'
     = landingPages cafeWorld !! id').
Proof.
  apply (updateLandingPage_fields (u "p1") renameOnly (u "admin-1") 2000
           cafeWorld cafeNoonPublished); reflexivity.
Defined.

Lemma updateLandingPage_invariant_with_status_witness :
  exists d,
    landingPages (worldOf (updateLandingPage (u "p1")
                             {[ "status" := VStr (u "draft") ]} (u "admin-1")
                             2000 cafeWorld)) !! u "p1" = Some d /\
    publishInvariant d.
Proof.
  apply (updateLandingPage_invariant_with_status (u "p1")
           {[ "status" := VStr (u "draft") ]} (u "admin-1") 2000 cafeWorld
           cafeNoonPublished).
  - reflexivity.
  - reflexivity.
  - by vm_compute.
  - by eexists.
  - reflexivity.
Defined.

(** ** Delete *)

(** Delete of an unknown identifier answers false and changes no record;
    delete of a stored record answers true and removes exactly that
    record, after which GetById no longer finds it. *)
Theorem deleteLandingPage_effect (id : jsstring) (w : World) :
  storeUp w = true ->
  (landingPages w !! id = None ->
     valueOf (deleteLandingPage id w) = Ok false /\
     landingPages (worldOf (deleteLandingPage id w)) = landingPages w) /\
  (is_Some (landingPages w !! id) ->
     valueOf (deleteLandingPage id w) = Ok true /\
     landingPages (worldOf (deleteLandingPage id w))
       = delete id (landingPages w) /\
     valueOf (getLandingPageById id (worldOf (deleteLandingPage id w)))
       = Ok None).
Proof.
  intros Hup. split.
  - intros Hnone.
    unfold deleteLandingPage, getLandingPageById, docDelete, docGet, reach,
      entered, modify, gets, bind, ret, valueOf, worldOf.
    simpl. rewrite Hup. simpl. by rewrite Hnone.
  - intros [d Hd].
    assert (Hrun : exists w',
      deleteLandingPage id w = (Ok true, w') /\ storeUp w' = true /\
      landingPages w' = delete id (landingPages w)).
    { unfold deleteLandingPage, getLandingPageById, docDelete, docGet, reach,
        entered, modify, gets, bind, ret.
      simpl. rewrite Hup. simpl. rewrite Hd. simpl. by eexists. }
    destruct Hrun as (w' & Hrun & Hup' & Hpages).
    unfold valueOf, worldOf. rewrite Hrun. simpl.
    split; [done|]. split; [done|].
    rewrite getLandingPageById_run by done. simpl.
    by rewrite Hpages, lookup_delete_eq.
Qed.

Lemma deleteLandingPage_effect_witness :
  (landingPages cafeWorld !! u "p1" = None ->
     valueOf (deleteLandingPage (u "p1") cafeWorld) = Ok false /\
     landingPages (worldOf (deleteLandingPage (u "p1") cafeWorld))
       = landingPages cafeWorld) /\
  (is_Some (landingPages cafeWorld !! u "p1") ->
     valueOf (deleteLandingPage (u "p1") cafeWorld) = Ok true /\
     landingPages (worldOf (deleteLandingPage (u "p1") cafeWorld))
       = delete (u "p1") (landingPages cafeWorld) /\
     valueOf (getLandingPageById (u "p1")
                (worldOf (deleteLandingPage (u "p1") cafeWorld)))
       = Ok None).
Proof.
  apply (deleteLandingPage_effect (u "p1") cafeWorld). reflexivity.
Defined.

(** ** Lookups by slug *)

Lemma limit1_filter {A} (f : A -> bool) (l : list A) :
  (take 1 (List.filter f l) = [] /\ forall x, x ∈ l -> f x = false) \/
  (exists x, take 1 (List.filter f l) = [x] /\ x ∈ l /\ f x = true).
Proof.
  induction l as [|a r IH]; simpl.
  { left. split; [done|]. intros x Hx. by apply elem_of_nil in Hx. }
  destruct (f a) eqn:Hfa.
  - right. exists a. simpl. split; [by destruct (List.filter f r)|].
    split; [left | done].
  - destruct IH as [[Hnil Hnone] | (x & Hx & Hin & Hfx)].
    + left. split; [done|]. intros x Hx.
      apply elem_of_cons in Hx as [-> | Hx]; [done | by apply Hnone].
    + right. exists x. split; [done|]. split; [by right | done].
Qed.

Lemma slugQuery_cases (m : gmap jsstring Doc) (slug : jsstring) :
  (limit 1 (where_ "slug" (VStr slug) (byName (map_to_list m))) = [] /\
   forall id d, m !! id = Some d -> ~ holdsSlug d slug) \/
  (exists id d,
     limit 1 (where_ "slug" (VStr slug) (byName (map_to_list m))) = [(id, d)] /\
     m !! id = Some d /\ holdsSlug d slug).
Proof.
  unfold limit, where_.
  destruct (limit1_filter
              (fun d : jsstring * Doc =>
                 bool_decide (snd d !! "slug" = Some (VStr slug)))
              (byName (map_to_list m)))
    as [[Hnil Hnone] | ([id d] & Hx & Hin & Hfx)].
  - left. split; [done|]. intros id d Hd Hs.
    apply byName_elem_of in Hd. apply Hnone in Hd. simpl in Hd.
    by apply bool_decide_eq_false in Hd.
  - right. exists id, d. split; [done|]. split; [by apply byName_elem_of|].
    simpl in Hfx. by apply bool_decide_eq_true in Hfx.
Qed.

Lemma getLandingPageBySlug_value (slug : jsstring) (w : World) :
  storeUp w = true ->
  valueOf (getLandingPageBySlug slug w) =
    Ok match limit 1 (where_ "slug" (VStr slug)
                        (byName (map_to_list (landingPages w)))) with
       | [] => None
       | doc :: _ => Some (withId (fst doc) (snd doc))
       end.
Proof.
  intros Hup. unfold getLandingPageBySlug, queryGet, reach, entered, modify,
    gets, bind, valueOf. simpl. rewrite Hup. simpl.
  by destruct (where_ "slug" (VStr slug) _).
Qed.

(** GetBySlug finds a page exactly when some record holds the slug, and
    the page it hands out is a stored record that holds it. *)
Theorem getLandingPageBySlug_finds (slug : jsstring) (w : World) :
  storeUp w = true ->
  match valueOf (getLandingPageBySlug slug w) with
  | Ok (Some page) =>
      exists id d, storedAs w page id d /\ holdsSlug d slug
  | Ok None =>
      forall id d, landingPages w !! id = Some d -> ~ holdsSlug d slug
  | Thrown => False
  end.
Proof.
  intros Hup. rewrite getLandingPageBySlug_value by done.
  destruct (slugQuery_cases (landingPages w) slug)
    as [[-> Hnone] | (id & d & -> & Hd & Hs)].
  - exact Hnone.
  - by exists id, d.
Qed.

Lemma getLandingPageBySlug_finds_witness :
  match valueOf (getLandingPageBySlug (u "cafe-noon") cafeWorld) with
  | Ok (Some page) =>
      exists id d, storedAs cafeWorld page id d /\ holdsSlug d (u "cafe-noon")
  | Ok None =>
      forall id d, landingPages cafeWorld !! id = Some d ->
                   ~ holdsSlug d (u "cafe-noon")
  | Thrown => False
  end.
Proof.
  apply (getLandingPageBySlug_finds (u "cafe-noon") cafeWorld). reflexivity.
Defined.

(** Without [excludeId], IsSlugTaken answers true exactly when some record
    holds the slug, which is exactly when GetBySlug finds a page. *)
Theorem isSlugTaken_iff_held (slug : jsstring) (w : World) :
  storeUp w = true ->
  exists taken,
    valueOf (isSlugTaken slug None w) = Ok taken /\
    (taken = true <->
       exists id d, landingPages w !! id = Some d /\ holdsSlug d slug) /\
    (taken = true <->
       exists page, valueOf (getLandingPageBySlug slug w) = Ok (Some page)).
Proof.
  intros Hup.
  rewrite isSlugTaken_value, getLandingPageBySlug_value by done.
  destruct (slugQuery_cases (landingPages w) slug)
    as [[-> Hnone] | (id & d & -> & Hd & Hs)]; simpl.
  - exists false. split; [done|]. split.
    + split; [done|]. intros (id & d & Hd & Hs). by destruct (Hnone id d).
    + split; [done|]. by intros [page ?].
  - exists true. split; [done|]. split.
    + split; [|done]. intros _. by exists id, d.
    + split; [|done]. intros _. by eexists.
Qed.

Lemma isSlugTaken_iff_held_witness :
  exists taken,
    valueOf (isSlugTaken (u "cafe-noon") None cafeWorld) = Ok taken /\
    (taken = true <->
       exists id d, landingPages cafeWorld !! id = Some d
                    /\ holdsSlug d (u "cafe-noon")) /\
    (taken = true <->
       exists page,
         valueOf (getLandingPageBySlug (u "cafe-noon") cafeWorld)
         = Ok (Some page)).
Proof.
  apply (isSlugTaken_iff_held (u "cafe-noon") cafeWorld). reflexivity.
Defined.

(** ** Listings *)

Lemma where_elem_of (field : string) (v : Value) (l : Snapshot)
    (x : jsstring * Doc) :
  x ∈ where_ field v l <-> x ∈ l /\ snd x !! field = Some v.
Proof.
  unfold where_. rewrite !list_elem_of_In, filter_In, bool_decide_eq_true.
  done.
Qed.

Lemma orderByDesc_elem_of (field : string) (l : Snapshot)
    (x : jsstring * Doc) :
  x ∈ orderByDesc field l <-> x ∈ l /\ is_Some (snd x !! field).
Proof.
  unfold orderByDesc. rewrite sortBy_Permutation.
  rewrite !list_elem_of_In, filter_In, bool_decide_eq_true. done.
Qed.

(** The pages of the static renderer are exactly the stored records whose
    status is published and that have a [publishedAt] field, each handed
    out with its identifier; a draft or archived record is never among
    them, and the call changes no record. *)
Theorem getPublishedLandingPages_exactly (w : World) :
  storeUp w = true ->
  exists pages,
    valueOf (getPublishedLandingPages w) = Ok pages /\
    (forall page,
       page ∈ pages <->
       exists id d,
         storedAs w page id d /\
         d !! "status" = Some (VStr (u "published")) /\
         is_Some (d !! "publishedAt")) /\
    landingPages (worldOf (getPublishedLandingPages w)) = landingPages w.
Proof.
  intros Hup.
  unfold getPublishedLandingPages, queryGet, reach, entered, modify, gets,
    bind, ret, valueOf, worldOf. simpl. rewrite Hup. simpl.
  eexists. split; [reflexivity|]. split; [|done].
  intros page. rewrite list_elem_of_fmap. split.
  - intros ([id d] & -> & Hin).
    apply orderByDesc_elem_of in Hin as [Hin Hpa].
    apply where_elem_of in Hin as [Hin Hst].
    apply byName_elem_of in Hin. by exists id, d.
  - intros (id & d & [Hd ->] & Hst & Hpa).
    exists (id, d). split; [done|].
    apply orderByDesc_elem_of. split; [|done].
    apply where_elem_of. split; [|done]. by apply byName_elem_of.
Qed.

Lemma getPublishedLandingPages_exactly_witness :
  exists pages,
    valueOf (getPublishedLandingPages twoPageWorld) = Ok pages /\
    (forall page,
       page ∈ pages <->
       exists id d,
         storedAs twoPageWorld page id d /\
         d !! "status" = Some (VStr (u "published")) /\
         is_Some (d !! "publishedAt")) /\
    landingPages (worldOf (getPublishedLandingPages twoPageWorld))
      = landingPages twoPageWorld.
Proof.
  apply (getPublishedLandingPages_exactly twoPageWorld). reflexivity.
Defined.

Lemma listing_snapshot (toLowerCase : jsstring -> jsstring)
    (filters : option Filters) (w : World) :
  storeUp w = true ->
  exists snapshot : Snapshot,
    getLandingPages toLowerCase filters w =
      (match given (filters ≫= f_search) with
       | Some search =>
           filterR (matchesSearch toLowerCase (toLowerCase search))
                   ((fun d => withId (fst d) (snd d)) <$> snapshot)
       | None => Ok ((fun d => withId (fst d) (snd d)) <$> snapshot)
       end,
       noted (CallAdapter "getLandingPages") w) /\
    forall page,
      page ∈ (fun d => withId (fst d) (snd d)) <$> snapshot <->
      listed_by w filters page.
Proof.
  intros Hup.
  unfold getLandingPages, queryGet, reach, entered, modify, gets, bind, ret,
    lift, noted. simpl. rewrite Hup. simpl.
  eexists. split.
  { destruct (given (filters ≫= f_search)); reflexivity. }
  intros page. rewrite list_elem_of_fmap. unfold listed_by, storedAs. split.
  - intros ([id d] & -> & Hin).
    apply orderByDesc_elem_of in Hin as [Hin Hup'].
    exists id, d. simpl in *.
    destruct (given (filters ≫= f_category)) as [c|];
      [apply where_elem_of in Hin as [Hin Hc]|];
      (destruct (given (filters ≫= f_status)) as [s|];
       [apply where_elem_of in Hin as [Hin Hs]|]);
      apply byName_elem_of in Hin;
      (split; [done|]); (split; [done|]); split; intros ? [=]; by subst.
  - intros (id & d & [Hd ->] & Hup' & Hs & Hc).
    exists (id, d). split; [done|].
    apply orderByDesc_elem_of. split; [|done].
    destruct (given (filters ≫= f_category)) as [c|];
      [apply where_elem_of; split; [|by apply Hc]|];
      (destruct (given (filters ≫= f_status)) as [s|];
       [apply where_elem_of; split; [|by apply Hs]|]);
      by apply byName_elem_of.
Qed.

(** Without a search text the listing is exactly the stored records that
    have an [updatedAt] field and match the status and the category asked
    for; a filter given as the empty string is no filter. *)
Theorem getLandingPages_without_search (toLowerCase : jsstring -> jsstring)
    (filters : option Filters) (w : World) :
  storeUp w = true ->
  given (filters ≫= f_search) = None ->
  exists pages,
    valueOf (getLandingPages toLowerCase filters w) = Ok pages /\
    forall page, page ∈ pages <-> listed_by w filters page.
Proof.
  intros Hup Hsearch.
  destruct (listing_snapshot toLowerCase filters w Hup) as (snap & Hrun & Hin).
  unfold valueOf. rewrite Hrun, Hsearch. simpl. by eexists.
Qed.

Lemma getLandingPages_without_search_witness :
  exists pages,
    valueOf (getLandingPages toLowerCase_ascii onlyDrafts twoPageWorld)
      = Ok pages /\
    forall page, page ∈ pages <-> listed_by twoPageWorld onlyDrafts page.
Proof.
  apply (getLandingPages_without_search toLowerCase_ascii onlyDrafts
           twoPageWorld); reflexivity.
Defined.

Lemma filterR_Ok {A} (pred : A -> Result bool) (f : A -> bool) (l : list A) :
  (forall x, x ∈ l -> pred x = Ok (f x)) ->
  filterR pred l = Ok (List.filter f l).
Proof.
  induction l as [|a r IH]; intros H; simpl; [done|].
  rewrite (H a) by left. rewrite IH by (intros x Hx; apply H; by right).
  by destruct (f a).
Qed.

Lemma filterR_Thrown {A} (pred : A -> Result bool) (l : list A) (x : A) :
  x ∈ l -> pred x = Thrown -> filterR pred l = Thrown.
Proof.
  induction 1 as [a r | a b r Hin IH]; intros Hx; simpl.
  - by rewrite Hx.
  - destruct (pred b); [|done]. by rewrite IH.
Qed.

(** With a search text the listing reads [title] of every record it looks
    at. If one of them has no string under [title] the call throws; a
    record created from the form alone, which has no title field, is
    enough. When all have strings under [title], [slug] and
    [businessName], the listing keeps exactly those whose title, slug or
    business name contains the search text, all put in lower case. *)
Theorem getLandingPages_search (toLowerCase : jsstring -> jsstring)
    (filters : option Filters) (search : jsstring) (w : World) :
  storeUp w = true ->
  given (filters ≫= f_search) = Some search ->
  ((exists page, listed_by w filters page /\ textOf page "title" = None) ->
     valueOf (getLandingPages toLowerCase filters w) = Thrown) /\
  ((forall page, listed_by w filters page ->
      exists t s b, textOf page "title" = Some t /\
                    textOf page "slug" = Some s /\
                    textOf page "businessName" = Some b) ->
   exists pages,
     valueOf (getLandingPages toLowerCase filters w) = Ok pages /\
     forall page,
       page ∈ pages <->
       listed_by w filters page /\
       exists t s b,
         textOf page "title" = Some t /\ textOf page "slug" = Some s /\
         textOf page "businessName" = Some b /\
         (includes (toLowerCase t) (toLowerCase search) = true \/
          includes (toLowerCase s) (toLowerCase search) = true \/
          includes (toLowerCase b) (toLowerCase search) = true)).
Proof.
  intros Hup Hsearch.
  destruct (listing_snapshot toLowerCase filters w Hup) as (snap & Hrun & Hin).
  unfold valueOf. rewrite Hrun, Hsearch. simpl. clear Hrun.
  set (pages := (fun d => withId (fst d) (snd d)) <$> snap) in *.
  split.
  - intros (page & Hl & Ht). apply Hin in Hl.
    apply (filterR_Thrown _ _ page); [done|].
    unfold matchesSearch, lowerField. unfold textOf in Ht.
    by destruct (page !! "title") as [[]|].
  - intros Hall.
    set (f := fun page : Doc =>
           match textOf page "title", textOf page "slug",
                 textOf page "businessName" with
           | Some t, Some s, Some b =>
               includes (toLowerCase t) (toLowerCase search)
               || includes (toLowerCase s) (toLowerCase search)
               || includes (toLowerCase b) (toLowerCase search)
           | _, _, _ => false
           end).
    exists (List.filter f pages). split.
    + apply filterR_Ok. intros page Hp. apply Hin in Hp.
      destruct (Hall page Hp) as (t & s & b & Ht & Hs & Hb).
      unfold f, matchesSearch, lowerField. rewrite Ht, Hs, Hb.
      unfold textOf in Ht, Hs, Hb.
      destruct (page !! "title") as [[]|]; try done.
      destruct (page !! "slug") as [[]|]; try done.
      destruct (page !! "businessName") as [[]|]; try done.
      injection Ht as ->. injection Hs as ->. injection Hb as ->.
      destruct (includes (toLowerCase t) _); [done|].
      by destruct (includes (toLowerCase s) _).
    + intros page. rewrite list_elem_of_In, filter_In, <- list_elem_of_In, Hin.
      split.
      * intros [Hl Hf]. split; [done|].
        destruct (Hall page Hl) as (t & s & b & Ht & Hs & Hb).
        exists t, s, b. repeat (split; [done|]).
        unfold f in Hf. rewrite Ht, Hs, Hb in Hf.
        apply orb_true_iff in Hf as [Hf | Hf]; [|by right; right].
        apply orb_true_iff in Hf as [Hf | Hf]; [by left | by right; left].
      * intros [Hl (t & s & b & Ht & Hs & Hb & Hor)]. split; [done|].
        unfold f. rewrite Ht, Hs, Hb.
        destruct Hor as [-> | [-> | ->]]; rewrite ?orb_true_r; done.
Qed.

Lemma getLandingPages_search_witness :
  ((exists page, listed_by cafeWorld searchCafe page
                 /\ textOf page "title" = None) ->
     valueOf (getLandingPages toLowerCase_ascii searchCafe cafeWorld) = Thrown) /\
  ((forall page, listed_by cafeWorld searchCafe page ->
      exists t s b, textOf page "title" = Some t /\
                    textOf page "slug" = Some s /\
                    textOf page "businessName" = Some b) ->
   exists pages,
     valueOf (getLandingPages toLowerCase_ascii searchCafe cafeWorld)
       = Ok pages /\
     forall page,
       page ∈ pages <->
       listed_by cafeWorld searchCafe page /\
       exists t s b,
         textOf page "title" = Some t /\ textOf page "slug" = Some s /\
         textOf page "businessName" = Some b /\
         (includes (toLowerCase_ascii t) (toLowerCase_ascii (u "Cafe")) = true \/
          includes (toLowerCase_ascii s) (toLowerCase_ascii (u "Cafe")) = true \/
          includes (toLowerCase_ascii b) (toLowerCase_ascii (u "Cafe")) = true)).
Proof.
  apply (getLandingPages_search toLowerCase_ascii searchCafe (u "Cafe")
           cafeWorld); reflexivity.
Defined.

(** The scenario's record has no title: a search over a store that holds
    it throws, and the listing endpoint answers 500. *)
Example search_without_title :
  valueOf (getLandingPages toLowerCase_ascii searchCafe cafeWorld) = Thrown.
Proof. by vm_compute. Qed.

(* ===================================================================== *)
(** * Further properties of the route handlers                            *)
(* ===================================================================== *)

(** ** Running the adapter *)

Lemma bind_Ok {A B} (m : M A) (k : A -> M B) (w w' : World) (a : A) :
  m w = (Ok a, w') -> bind m k w = k a w'.
Proof. intros H. unfold bind. by rewrite H. Qed.

Lemma bind_Thrown {A B} (m : M A) (k : A -> M B) (w w' : World) :
  m w = (Thrown, w') -> bind m k w = (Thrown, w').
Proof. intros H. unfold bind. by rewrite H. Qed.

Lemma updateLandingPage_run (id : jsstring) (data : Doc) (adminId : jsstring)
    (now : Z) (w : World) (old : Doc) :
  storeUp w = true ->
  landingPages w !! id = Some old ->
  updateLandingPage id data adminId now w =
    (Ok true,
     set_landingPages (insert id (updateFields data adminId now old ∪ old))
       (noted (CallAdapter "getLandingPageById")
          (noted (CallAdapter "updateLandingPage") w))).
Proof.
  intros Hup Hold.
  assert (Hip : withId id old !! "isPublished" = old !! "isPublished")
    by by apply withId_lookup_ne.
  unfold updateLandingPage, getLandingPageById, docUpdate, docGet, reach,
    entered, modify, gets, bind, ret, updateFields, set_landingPages, noted.
  simpl. rewrite Hup. simpl. rewrite Hold. simpl. rewrite Hold. simpl.
  by rewrite Hip.
Qed.

Lemma createLandingPage_run (autoId : gmap jsstring Doc -> jsstring)
    (data : Doc) (adminId : jsstring) (now : Z) (w : World) :
  storeUp w = true ->
  createLandingPage autoId data adminId now w =
    (Ok (autoId (landingPages w)),
     set_landingPages
       (insert (autoId (landingPages w)) (stamped data adminId now))
       (noted (CallAdapter "createLandingPage") w)).
Proof.
  intros Hup.
  unfold createLandingPage, docAdd, reach, entered, modify, gets, bind, ret,
    stamped, set_landingPages, noted.
  simpl. by rewrite Hup.
Qed.

Lemma deleteLandingPage_run (id : jsstring) (w : World) (d : Doc) :
  storeUp w = true ->
  landingPages w !! id = Some d ->
  deleteLandingPage id w =
    (Ok true,
     set_landingPages (delete id)
       (noted (CallAdapter "getLandingPageById")
          (noted (CallAdapter "deleteLandingPage") w))).
Proof.
  intros Hup Hd.
  unfold deleteLandingPage, getLandingPageById, docDelete, docGet, reach,
    entered, modify, gets, bind, ret, set_landingPages, noted.
  simpl. rewrite Hup. simpl. rewrite Hd. simpl. done.
Qed.

Lemma isSlugTaken_run (slug : jsstring) (excludeId : option jsstring)
    (w : World) :
  storeUp w = true ->
  isSlugTaken slug excludeId w =
    (Ok match limit 1 (where_ "slug" (VStr slug)
                         (byName (map_to_list (landingPages w)))) with
        | [] => false
        | doc :: _ =>
            match given excludeId with
            | Some ex => negb (bool_decide (fst doc = ex))
            | None => true
            end
        end,
     noted (CallAdapter "isSlugTaken") w).
Proof.
  intros Hup. unfold isSlugTaken, queryGet, reach, entered, modify, gets,
    bind, noted. simpl. rewrite Hup. simpl.
  destruct (where_ "slug" (VStr slug) _) as [|doc ?]; [done|].
  by destruct (given excludeId).
Qed.

(** What a status-only update leaves of a record that satisfies the
    invariant. *)
Lemma updateFields_status_only (st : string) (adminId : jsstring) (now : Z)
    (old : Doc) :
  publishInvariant old ->
  let d := updateFields {[ "status" := VStr (u st) ]} adminId now old ∪ old in
  d !! "status" = Some (VStr (u st)) /\
  d !! "isPublished"
    = Some (VBool (bool_decide (VStr (u st) = VStr (u "published")))) /\
  d !! "updatedAt" = Some (VDate now) /\
  d !! "updatedBy" = Some (VStr adminId) /\
  publishedAtSet d = bool_decide (VStr (u st) = VStr (u "published")) /\
  (bool_decide (VStr (u st) = VStr (u "published")) = true ->
   statusPublished old = false -> d !! "publishedAt" = Some (VDate now)).
Proof.
  intros [Hpa Hip]. cbv zeta.
  unfold updateFields, fieldIs, publishedAtSet, isPublishedFlag,
    statusPublished in *. rewrite lookup_singleton_eq.
  assert (Hb : bool_decide (Some (VStr (u st)) = Some (VStr (u "published")))
               = bool_decide (VStr (u st) = VStr (u "published"))).
  { apply bool_decide_ext. split; congruence. }
  rewrite Hb. clear Hb.
  rewrite <- Hip in Hpa.
  destruct (bool_decide (VStr (u st) = VStr (u "published"))) eqn:Hnew;
    destruct (truthy (old !! "isPublished")) eqn:Hflag; simpl;
    (split; [apply lookup_union_Some_l; by simplify_map_eq|]);
    (split; [apply lookup_union_Some_l; by simplify_map_eq|]);
    (split; [apply lookup_union_Some_l; by simplify_map_eq|]);
    (split; [apply lookup_union_Some_l; by simplify_map_eq|]).
  - split; [|congruence].
    rewrite lookup_union_r by by simplify_map_eq.
    destruct (old !! "publishedAt") as [[]|]; done.
  - split.
    + by erewrite lookup_union_Some_l by by simplify_map_eq.
    + intros _ _. apply lookup_union_Some_l. by simplify_map_eq.
  - split; [|done].
    by erewrite lookup_union_Some_l by by simplify_map_eq.
  - split; [|done].
    rewrite lookup_union_r by by simplify_map_eq.
    destruct (old !! "publishedAt") as [[]|]; done.
Qed.

Lemma updateFields_status_only_fields (st : string) (adminId : jsstring)
    (now : Z) (old : Doc) :
  let b := bool_decide (VStr (u st) = VStr (u "published")) in
  let d := updateFields {[ "status" := VStr (u st) ]} adminId now old ∪ old in
  d !! "status" = Some (VStr (u st)) /\
  d !! "isPublished" = Some (VBool b) /\
  d !! "updatedAt" = Some (VDate now) /\
  d !! "updatedBy" = Some (VStr adminId) /\
  d !! "publishedAt" = publishedAtAfter b now old /\
  (forall k, k ∉ toggleKeys -> d !! k = old !! k).
Proof.
  cbv zeta.
  unfold updateFields, fieldIs, publishedAtAfter, isPublishedFlag.
  rewrite lookup_singleton_eq.
  assert (Hb : bool_decide (Some (VStr (u st)) = Some (VStr (u "published")))
               = bool_decide (VStr (u st) = VStr (u "published"))).
  { apply bool_decide_ext. split; congruence. }
  rewrite Hb. clear Hb.
  destruct (bool_decide (VStr (u st) = VStr (u "published")));
    destruct (truthy (old !! "isPublished")); simpl;
    (split; [apply lookup_union_Some_l; by simplify_map_eq|]);
    (split; [apply lookup_union_Some_l; by simplify_map_eq|]);
    (split; [apply lookup_union_Some_l; by simplify_map_eq|]);
    (split; [apply lookup_union_Some_l; by simplify_map_eq|]);
    (split;
     [ first [ apply lookup_union_Some_l; by simplify_map_eq
             | apply lookup_union_r; by simplify_map_eq ]
     | intros k Hk; apply lookup_union_r;
       repeat (rewrite lookup_insert_ne by (intros <-; apply Hk; listed));
       apply lookup_singleton_ne; intros <-; apply Hk; listed ]).
Qed.

(** ** The publish toggle *)

(** A toggle that changes the status (publish on a record that is not
    published, unpublish on one that is not a draft, an archived one
    included) is answered 200; the stored record gets the new status, the
    matching [isPublished], [updatedAt] = now and [updatedBy] = the admin,
    and keeps every other field but [publishedAt]. That one is stamped
    with now when a record whose [isPublished] flag is off gets
    published, cleared when one whose flag is on gets unpublished, and
    left as stored otherwise; so on a record that satisfied the publish
    invariant it ends up set exactly when the record is now published.
    No other record changes; one audit entry with the record before and
    after is written, and one rebuild is asked for. The page in the
    answer is the record as read before the update with only its status
    replaced. *)
Theorem POST_publish_transition (request : Request) (id : jsstring)
    (admin : Admin) (body page : Doc) (publish : bool) (w : World) :
  currentAdmin request = Some admin ->
  json request = Some body ->
  body !! "publish" = Some (VBool publish) ->
  storeUp w = true ->
  landingPages w !! id = Some page ->
  page !! "status" <> Some (VStr (u (targetStatus publish))) ->
  valueOf (POST_publish request id w) =
    Ok (NextResponse_json
          (PPage (u "Page " ++
                  (if publish then u "published" else u "unpublished") ++
                  u " successfully. Rebuilding site...")
                 (<["status" := VStr (u (targetStatus publish))]>
                    (withId id page))) 200) /\
  (exists d,
     landingPages (worldOf (POST_publish request id w)) !! id = Some d /\
     d !! "status" = Some (VStr (u (targetStatus publish))) /\
     d !! "isPublished" = Some (VBool publish) /\
     d !! "publishedAt" = publishedAtAfter publish (now request) page /\
     (publishInvariant page ->
        publishedAtSet d = publish /\
        (publish = true ->
           d !! "publishedAt" = Some (VDate (now request)))) /\
     d !! "updatedAt" = Some (VDate (now request)) /\
     d !! "updatedBy" = Some (VStr (uid admin)) /\
     (forall k, k ∉ toggleKeys -> d !! k = page !! k)) /\
  (forall id', id' <> id ->
     landingPages (worldOf (POST_publish request id w)) !! id'
     = landingPages w !! id') /\
  auditLogs (worldOf (POST_publish request id w)) =
    auditEntry request admin
      (if publish then u "page_published" else u "page_unpublished") id
      (Some (withId id page,
             Some (<["status" := VStr (u (targetStatus publish))]>
                     (withId id page))))
    :: auditLogs w /\
  rebuildRequests (worldOf (POST_publish request id w))
    = S (rebuildRequests w).
Proof.
  intros Hadmin Hjson Hpub Hup Hpage Hstatus.
  assert (Hrun : POST_publish request id w =
    (Ok (NextResponse_json
          (PPage (u "Page " ++
                  (if publish then u "published" else u "unpublished") ++
                  u " successfully. Rebuilding site...")
                 (<["status" := VStr (u (targetStatus publish))]>
                    (withId id page))) 200),
     {| landingPages :=
          <[id := updateFields {[ "status" := VStr (u (targetStatus publish)) ]}
                    (uid admin) (now request) page ∪ page]> (landingPages w);
        auditLogs :=
          auditEntry request admin
            (if publish then u "page_published" else u "page_unpublished") id
            (Some (withId id page,
                   Some (<["status" := VStr (u (targetStatus publish))]>
                           (withId id page))))
          :: auditLogs w;
        rebuildRequests := S (rebuildRequests w);
        calls := CallAdapter "getLandingPageById"
                 :: CallAdapter "updateLandingPage"
                 :: CallAdapter "getLandingPageById" :: calls w;
        storeUp := storeUp w |})).
  { unfold POST_publish, try_catch, request_json.
    rewrite Hadmin, Hjson.
    rewrite (bind_Ok _ _ w w (Some admin)) by done.
    rewrite (bind_Ok _ _ w w body) by done.
    rewrite Hpub.
    erewrite bind_Ok by (by apply getLandingPageById_run).
    rewrite Hpage. simpl.
    assert (Hne : fieldIs (withId id page) "status" (targetStatus publish)
                  = false).
    { unfold fieldIs. apply bool_decide_eq_false.
      by rewrite withId_lookup_ne. }
    fold (targetStatus publish). rewrite Hne.
    erewrite bind_Ok by (by apply updateLandingPage_run).
    simpl. by destruct publish. }
  unfold valueOf, worldOf. rewrite Hrun. simpl.
  split; [done|].
  destruct (updateFields_status_only_fields (targetStatus publish) (uid admin)
              (now request) page) as (F1 & F2 & F3 & F4 & F5 & F6).
  assert (Hb : bool_decide (VStr (u (targetStatus publish))
                            = VStr (u "published")) = publish)
    by by destruct publish.
  rewrite Hb in *.
  split.
  - eexists. split; [apply lookup_insert_eq|].
    repeat (split; [done|]). split; [|done].
    intros Hinv.
    destruct (updateFields_status_only (targetStatus publish) (uid admin)
                (now request) page Hinv) as (_ & _ & _ & _ & H5 & H6).
    rewrite Hb in *. split; [done|].
    intros ->. apply H6; [done|].
    unfold statusPublished, fieldIs. by apply bool_decide_eq_false.
  - split; [|done]. intros id' Hid. by apply lookup_insert_ne.
Qed.

Lemma POST_publish_transition_witness :
  valueOf (POST_publish unpublishRequest (u "p1") cafeWorld) =
    Ok (NextResponse_json
          (PPage (u "Page " ++ u "unpublished" ++
                  u " successfully. Rebuilding site...")
                 (<["status" := VStr (u (targetStatus false))]>
                    (withId (u "p1") cafeNoonPublished))) 200) /\
  (exists d,
     landingPages (worldOf (POST_publish unpublishRequest (u "p1") cafeWorld))
       !! u "p1" = Some d /\
     d !! "status" = Some (VStr (u (targetStatus false))) /\
     d !! "isPublished" = Some (VBool false) /\
     d !! "publishedAt"
       = publishedAtAfter false (now unpublishRequest) cafeNoonPublished /\
     (publishInvariant cafeNoonPublished ->
        publishedAtSet d = false /\
        (false = true ->
           d !! "publishedAt" = Some (VDate (now unpublishRequest)))) /\
     d !! "updatedAt" = Some (VDate (now unpublishRequest)) /\
     d !! "updatedBy" = Some (VStr (uid sampleAdmin)) /\
     (forall k, k ∉ toggleKeys -> d !! k = cafeNoonPublished !! k)) /\
  (forall id', id' <> u "p1" ->
     landingPages (worldOf (POST_publish unpublishRequest (u "p1") cafeWorld))
       !! id' = landingPages cafeWorld !! id') /\
  auditLogs (worldOf (POST_publish unpublishRequest (u "p1") cafeWorld)) =
    auditEntry unpublishRequest sampleAdmin (u "page_unpublished") (u "p1")
      (Some (withId (u "p1") cafeNoonPublished,
             Some (<["status" := VStr (u (targetStatus false))]>
                     (withId (u "p1") cafeNoonPublished))))
    :: auditLogs cafeWorld /\
  rebuildRequests (worldOf (POST_publish unpublishRequest (u "p1") cafeWorld))
    = S (rebuildRequests cafeWorld).
Proof.
  apply (POST_publish_transition unpublishRequest (u "p1") sampleAdmin
           {[ "publish" := VBool false ]} cafeNoonPublished false cafeWorld).
  - reflexivity.
  - reflexivity.
  - reflexivity.
  - reflexivity.
  - reflexivity.
  - by vm_compute.
Defined.

(** Without the invariant the date can survive: unpublishing an archived
    record whose flag is off leaves the publication date it carried. *)
Example POST_publish_unpublish_archived :
  match landingPages
          (worldOf (POST_publish unpublishRequest (u "p1") archivedWorld))
        !! u "p1" with
  | Some d =>
      d !! "status" = Some (VStr (u "draft")) /\
      d !! "isPublished" = Some (VBool false) /\
      d !! "publishedAt" = cafeNoonPublished !! "publishedAt" /\
      publishedAtSet d = true
  | None => False
  end.
Proof. vm_compute. repeat split. Qed.

(** A toggle that cannot be carried out changes nothing: a body that does
    not parse is answered 500 and a [publish] that is not a boolean 400,
    both before the store is looked at; an identifier that is not in the
    store is answered 404, with no record changed, no audit entry and no
    rebuild. *)
Theorem POST_publish_rejects (request : Request) (id : jsstring)
    (admin : Admin) (w : World) :
  currentAdmin request = Some admin ->
  (json request = None ->
     POST_publish request id w =
       (Ok (NextResponse_json
              (PError (u "Server error updating page status")) 500), w)) /\
  (forall body,
     json request = Some body ->
     (forall b, body !! "publish" <> Some (VBool b)) ->
     POST_publish request id w =
       (Ok (NextResponse_json
              (PError (u "Invalid request: publish must be boolean")) 400), w)) /\
  (forall body b,
     json request = Some body ->
     body !! "publish" = Some (VBool b) ->
     storeUp w = true ->
     landingPages w !! id = None ->
     POST_publish request id w =
       (Ok (NextResponse_json (PError (u "Landing page not found")) 404),
        noted (CallAdapter "getLandingPageById") w)).
Proof.
  intros Hadmin. split; [|split].
  - intros Hjson. unfold POST_publish, try_catch, request_json, bind, ret, throw.
    by rewrite Hadmin, Hjson.
  - intros body Hjson Hnb.
    unfold POST_publish, try_catch, request_json, bind, ret.
    rewrite Hadmin, Hjson.
    destruct (body !! "publish") as [[| b | | |]|]; try done.
    by destruct (Hnb b).
  - intros body b Hjson Hb Hup Hnone.
    unfold POST_publish, try_catch, request_json.
    rewrite Hadmin, Hjson.
    rewrite (bind_Ok _ _ w w (Some admin)) by done.
    rewrite (bind_Ok _ _ w w body) by done.
    rewrite Hb.
    erewrite bind_Ok by (by apply getLandingPageById_run).
    by rewrite Hnone.
Qed.

Lemma POST_publish_rejects_witness :
  (json publishRequest = None ->
     POST_publish publishRequest (u "p9") cafeWorld =
       (Ok (NextResponse_json
              (PError (u "Server error updating page status")) 500),
        cafeWorld)) /\
  (forall body,
     json publishRequest = Some body ->
     (forall b, body !! "publish" <> Some (VBool b)) ->
     POST_publish publishRequest (u "p9") cafeWorld =
       (Ok (NextResponse_json
              (PError (u "Invalid request: publish must be boolean")) 400),
        cafeWorld)) /\
  (forall body b,
     json publishRequest = Some body ->
     body !! "publish" = Some (VBool b) ->
     storeUp cafeWorld = true ->
     landingPages cafeWorld !! u "p9" = None ->
     POST_publish publishRequest (u "p9") cafeWorld =
       (Ok (NextResponse_json (PError (u "Landing page not found")) 404),
        noted (CallAdapter "getLandingPageById") cafeWorld)).
Proof.
  apply (POST_publish_rejects publishRequest (u "p9") sampleAdmin cafeWorld).
  reflexivity.
Defined.

(** ** Create *)

(** On a slug that is a string the handlers' call is the adapter's. *)
Lemma isSlugTakenOf_string (slug : jsstring) (excludeId : option jsstring) :
  isSlugTakenOf (Some (VStr slug)) excludeId = isSlugTaken slug excludeId.
Proof. reflexivity. Qed.

(** A create request is turned down without a trace in the store. When
    the validator answers with a non-empty error mapping the request is
    answered 400 with that mapping, and when the validator throws it is
    answered 500; both happen before the adapter is entered, so also with
    the store down. A body the validator lets pass whose slug some record
    already holds is answered 400 with the error under [slug]. In all
    three cases no record is written, no audit entry, and no rebuild asked
    for: the world changes in the log of entries alone. *)
Theorem POST_create_rejects
    (validateLandingPageForm : Doc -> Result (gmap string jsstring))
    (autoId : gmap jsstring Doc -> jsstring)
    (request : Request) (admin : Admin) (body : Doc) (w : World) :
  currentAdmin request = Some admin ->
  json request = Some body ->
  (forall errors,
     validateLandingPageForm body = Ok errors ->
     hasErrors errors = true ->
     POST_create validateLandingPageForm autoId request w =
       (Ok (NextResponse_json (PErrors (u "Validation failed") errors) 400),
        noted CallValidator w)) /\
  (validateLandingPageForm body = Thrown ->
     POST_create validateLandingPageForm autoId request w =
       (Ok (NextResponse_json
              (PError (u "Server error creating landing page")) 500),
        noted CallValidator w)) /\
  (forall errors slug,
     validateLandingPageForm body = Ok errors ->
     hasErrors errors = false ->
     body !! "slug" = Some (VStr slug) ->
     storeUp w = true ->
     (exists id d, landingPages w !! id = Some d /\ holdsSlug d slug) ->
     POST_create validateLandingPageForm autoId request w =
       (Ok (NextResponse_json
              (PErrors (u "Validation failed")
                 {[ "slug" := u "Slug is already taken" ]}) 400),
        noted (CallAdapter "isSlugTaken") (noted CallValidator w))).
Proof.
  intros Hadmin Hjson. split; [|split].
  - intros errors Hv Herr.
    unfold POST_create, try_catch, request_json, validate.
    rewrite Hadmin, Hjson.
    rewrite (bind_Ok _ _ w w (Some admin)) by done.
    rewrite (bind_Ok _ _ w w body) by done.
    unfold bind at 1, lift. simpl. by rewrite Hv, Herr.
  - intros Hv.
    unfold POST_create, try_catch, request_json, validate.
    rewrite Hadmin, Hjson.
    rewrite (bind_Ok _ _ w w (Some admin)) by done.
    rewrite (bind_Ok _ _ w w body) by done.
    unfold bind at 1, lift. simpl. by rewrite Hv.
  - intros errors slug Hv Herr Hslug Hup (id & d & Hd & Hs).
    unfold POST_create, try_catch, request_json, validate.
    rewrite Hadmin, Hjson.
    rewrite (bind_Ok _ _ w w (Some admin)) by done.
    rewrite (bind_Ok _ _ w w body) by done.
    unfold bind at 1, lift. simpl. rewrite Hv, Herr, Hslug.
    rewrite isSlugTakenOf_string.
    erewrite bind_Ok by (by apply isSlugTaken_run).
    cbn [landingPages].
    destruct (slugQuery_cases (landingPages w) slug)
      as [[_ Hnone] | (id' & d' & Hq & _ & _)].
    + by destruct (Hnone id d).
    + by rewrite Hq.
Qed.

Lemma POST_create_rejects_witness :
  (forall errors,
     slugOnlyValidator cafeNoonCreateBody = Ok errors ->
     hasErrors errors = true ->
     POST_create slugOnlyValidator (fun _ => u "p2") createRequest cafeWorld =
       (Ok (NextResponse_json (PErrors (u "Validation failed") errors) 400),
        noted CallValidator cafeWorld)) /\
  (slugOnlyValidator cafeNoonCreateBody = Thrown ->
     POST_create slugOnlyValidator (fun _ => u "p2") createRequest cafeWorld =
       (Ok (NextResponse_json
              (PError (u "Server error creating landing page")) 500),
        noted CallValidator cafeWorld)) /\
  (forall errors slug,
     slugOnlyValidator cafeNoonCreateBody = Ok errors ->
     hasErrors errors = false ->
     cafeNoonCreateBody !! "slug" = Some (VStr slug) ->
     storeUp cafeWorld = true ->
     (exists id d, landingPages cafeWorld !! id = Some d /\ holdsSlug d slug) ->
     POST_create slugOnlyValidator (fun _ => u "p2") createRequest cafeWorld =
       (Ok (NextResponse_json
              (PErrors (u "Validation failed")
                 {[ "slug" := u "Slug is already taken" ]}) 400),
        noted (CallAdapter "isSlugTaken") (noted CallValidator cafeWorld))).
Proof.
  apply (POST_create_rejects slugOnlyValidator (fun _ => u "p2")
           createRequest sampleAdmin cafeNoonCreateBody cafeWorld);
    reflexivity.
Defined.

(** The three refusals on sample requests: a slug the validator objects
    to, a body on which the validator throws, and a slug that the
    scenario's record holds. *)
Example POST_create_refusals :
  POST_create slugOnlyValidator (fun _ => u "p2")
    (requestOf sampleAdmin badSlugBody) cafeWorldDown
  = (Ok (NextResponse_json
           (PErrors (u "Validation failed")
              {[ "slug" := u "Slug must contain only lowercase letters, numbers, and hyphens" ]})
           400),
     noted CallValidator cafeWorldDown) /\
  POST_create slugOnlyValidator (fun _ => u "p2")
    (requestOf sampleAdmin numberSlugBody) cafeWorld
  = (Ok (NextResponse_json
           (PError (u "Server error creating landing page")) 500),
     noted CallValidator cafeWorld) /\
  POST_create slugOnlyValidator (fun _ => u "p2") createRequest cafeWorld
  = (Ok (NextResponse_json
           (PErrors (u "Validation failed")
              {[ "slug" := u "Slug is already taken" ]}) 400),
     noted (CallAdapter "isSlugTaken") (noted CallValidator cafeWorld)).
Proof. by vm_compute. Qed.

(** A create request whose body the validator lets pass, with a string
    for a slug that no record holds, is answered 201 with the identifier
    the store assigned. The record stored under it is the body with the
    stamps of the call, it satisfies the publish invariant, one
    [page_created] audit entry is written, and no rebuild is asked for,
    also when the body's status is published. *)
Theorem POST_create_success
    (validateLandingPageForm : Doc -> Result (gmap string jsstring))
    (autoId : gmap jsstring Doc -> jsstring)
    (request : Request) (admin : Admin) (body : Doc)
    (errors : gmap string jsstring) (slug : jsstring) (w : World) :
  currentAdmin request = Some admin ->
  json request = Some body ->
  validateLandingPageForm body = Ok errors ->
  hasErrors errors = false ->
  body !! "slug" = Some (VStr slug) ->
  storeUp w = true ->
  (forall id d, landingPages w !! id = Some d -> ~ holdsSlug d slug) ->
  valueOf (POST_create validateLandingPageForm autoId request w) =
    Ok (NextResponse_json
          (PCreated (u "Landing page created successfully")
                    (autoId (landingPages w))) 201) /\
  landingPages (worldOf (POST_create validateLandingPageForm autoId request w)) =
    <[autoId (landingPages w) := stamped body (uid admin) (now request)]>
      (landingPages w) /\
  publishInvariant (stamped body (uid admin) (now request)) /\
  auditLogs (worldOf (POST_create validateLandingPageForm autoId request w)) =
    auditEntry request admin (u "page_created") (autoId (landingPages w)) None
    :: auditLogs w /\
  rebuildRequests (worldOf (POST_create validateLandingPageForm autoId request w))
    = rebuildRequests w.
Proof.
  intros Hadmin Hjson Hv Herr Hslug Hup Hfree.
  assert (Hrun : exists w',
    POST_create validateLandingPageForm autoId request w =
      (Ok (NextResponse_json
             (PCreated (u "Landing page created successfully")
                       (autoId (landingPages w))) 201), w') /\
    landingPages w' =
      <[autoId (landingPages w) := stamped body (uid admin) (now request)]>
        (landingPages w) /\
    auditLogs w' =
      auditEntry request admin (u "page_created") (autoId (landingPages w)) None
      :: auditLogs w /\
    rebuildRequests w' = rebuildRequests w).
  { unfold POST_create, try_catch, request_json, validate.
    rewrite Hadmin, Hjson.
    rewrite (bind_Ok _ _ w w (Some admin)) by done.
    rewrite (bind_Ok _ _ w w body) by done.
    unfold bind at 1, lift. simpl. rewrite Hv, Herr, Hslug.
    rewrite isSlugTakenOf_string.
    erewrite bind_Ok by (by apply isSlugTaken_run).
    cbn [landingPages].
    destruct (slugQuery_cases (landingPages w) slug)
      as [[Hq _] | (id' & d' & _ & Hd' & Hs')]; [|by destruct (Hfree id' d')].
    rewrite Hq.
    erewrite bind_Ok by (by apply createLandingPage_run).
    simpl. by eexists. }
  destruct Hrun as (w' & Hrun & Hp & Ha & Hr).
  unfold valueOf, worldOf. rewrite Hrun. simpl.
  repeat (split; [done|]). split; [|done].
  unfold publishInvariant, publishedAtSet, isPublishedFlag, statusPublished,
    stamped.
  assert (Hst : fieldIs (stamped body (uid admin) (now request)) "status"
                  "published" = fieldIs body "status" "published").
  { unfold stamped. by rewrite !fieldIs_insert_ne. }
  unfold stamped in Hst. rewrite Hst.
  split; simplify_map_eq; by destruct (fieldIs body "status" "published").
Qed.

Lemma POST_create_success_witness :
  valueOf (POST_create slugOnlyValidator (fun _ => u "p2")
             createRequest emptyWorld) =
    Ok (NextResponse_json
          (PCreated (u "Landing page created successfully") (u "p2")) 201) /\
  landingPages (worldOf (POST_create slugOnlyValidator
                           (fun _ => u "p2") createRequest emptyWorld)) =
    <[u "p2" := stamped cafeNoonCreateBody (uid sampleAdmin)
                        (now createRequest)]> (landingPages emptyWorld) /\
  publishInvariant (stamped cafeNoonCreateBody (uid sampleAdmin)
                            (now createRequest)) /\
  auditLogs (worldOf (POST_create slugOnlyValidator
                        (fun _ => u "p2") createRequest emptyWorld)) =
    auditEntry createRequest sampleAdmin (u "page_created") (u "p2") None
    :: auditLogs emptyWorld /\
  rebuildRequests (worldOf (POST_create slugOnlyValidator
                              (fun _ => u "p2") createRequest emptyWorld))
    = rebuildRequests emptyWorld.
Proof.
  apply (POST_create_success slugOnlyValidator (fun _ => u "p2")
           createRequest sampleAdmin cafeNoonCreateBody ∅ (u "cafe-noon")
           emptyWorld).
  - reflexivity.
  - reflexivity.
  - by vm_compute.
  - reflexivity.
  - reflexivity.
  - reflexivity.
  - intros id d H. simpl in H. by rewrite lookup_empty in H.
Defined.

(** ** Update and delete *)

(** An update request is turned down without a change to any record: an
    identifier that is not in the store is answered 404 before the body
    is validated; on a stored record, a non-empty error mapping of the
    validator is answered 400 with that mapping and a throwing validator
    500; a body the validator lets pass that moves the record to another
    slug, a string that some record holds, is answered 400 with the error
    under [slug]. The world changes in the log of entries alone. *)
Theorem PUT_page_rejects
    (validateLandingPageForm : Doc -> Result (gmap string jsstring))
    (request : Request) (id : jsstring)
    (admin : Admin) (body : Doc) (w : World) :
  currentAdmin request = Some admin ->
  json request = Some body ->
  storeUp w = true ->
  (landingPages w !! id = None ->
     PUT_page validateLandingPageForm request id w =
       (Ok (NextResponse_json (PError (u "Landing page not found")) 404),
        noted (CallAdapter "getLandingPageById") w)) /\
  (forall old errors,
     landingPages w !! id = Some old ->
     validateLandingPageForm body = Ok errors ->
     hasErrors errors = true ->
     PUT_page validateLandingPageForm request id w =
       (Ok (NextResponse_json (PErrors (u "Validation failed") errors) 400),
        noted CallValidator (noted (CallAdapter "getLandingPageById") w))) /\
  (forall old,
     landingPages w !! id = Some old ->
     validateLandingPageForm body = Thrown ->
     PUT_page validateLandingPageForm request id w =
       (Ok (NextResponse_json
              (PError (u "Server error updating landing page")) 500),
        noted CallValidator (noted (CallAdapter "getLandingPageById") w))) /\
  (forall old errors slug,
     landingPages w !! id = Some old ->
     validateLandingPageForm body = Ok errors ->
     hasErrors errors = false ->
     body !! "slug" = Some (VStr slug) ->
     body !! "slug" <> old !! "slug" ->
     (exists id' d', landingPages w !! id' = Some d' /\ holdsSlug d' slug) ->
     PUT_page validateLandingPageForm request id w =
       (Ok (NextResponse_json
              (PErrors (u "Validation failed")
                 {[ "slug" := u "Slug is already taken" ]}) 400),
        noted (CallAdapter "isSlugTaken")
          (noted CallValidator (noted (CallAdapter "getLandingPageById") w)))).
Proof.
  intros Hadmin Hjson Hup.
  assert (Hstart :
    PUT_page validateLandingPageForm request id w =
    try_catch
      (fun w0 =>
         match landingPages w !! id with
         | None =>
             ret (NextResponse_json (PError (u "Landing page not found")) 404)
                 w0
         | Some old =>
             (let* errors := validate validateLandingPageForm body in
              if hasErrors errors then
                ret (NextResponse_json
                       (PErrors (u "Validation failed") errors) 400)
              else
                let* taken :=
                  if bool_decide (body !! "slug" = withId id old !! "slug")
                  then ret false
                  else isSlugTakenOf (body !! "slug") (Some id) in
                if taken then
                  ret (NextResponse_json
                         (PErrors (u "Validation failed")
                                  {[ "slug" := u "Slug is already taken" ]}) 400)
                else
                  let* success :=
                    updateLandingPage id body (uid admin) (now request) in
                  if negb success then
                    ret (NextResponse_json
                           (PError (u "Failed to update landing page")) 400)
                  else
                    logAuditEvent (u "page_updated") (uid admin)
                                  (u "landingPage") id
                                  (Some (withId id old, Some body))
                                  (ip request) (now request) ;;;
                    ret (NextResponse_json
                           (PMessage (u "Landing page updated successfully"))
                           200))%M w0
         end)
      (ret (NextResponse_json
              (PError (u "Server error updating landing page")) 500))
      (noted (CallAdapter "getLandingPageById") w)).
  { unfold PUT_page, try_catch, request_json.
    rewrite Hadmin, Hjson.
    rewrite (bind_Ok _ _ w w (Some admin)) by done.
    rewrite (bind_Ok _ _ w w body) by done.
    erewrite bind_Ok by (by apply getLandingPageById_run).
    by destruct (landingPages w !! id). }
  rewrite Hstart. clear Hstart.
  split; [|split; [|split]].
  - intros Hnone. unfold try_catch. by rewrite Hnone.
  - intros old errors Hold Hv Herr. unfold try_catch. rewrite Hold.
    unfold validate, bind at 1, lift. simpl. by rewrite Hv, Herr.
  - intros old Hold Hv. unfold try_catch. rewrite Hold.
    unfold validate, bind at 1, lift. simpl. by rewrite Hv.
  - intros old errors slug Hold Hv Herr Hbs Hslug (id' & d' & Hd' & Hs').
    unfold try_catch. rewrite Hold.
    unfold validate, bind at 1, lift. simpl. rewrite Hv, Herr.
    rewrite withId_lookup_ne by done.
    rewrite bool_decide_eq_false_2 by done.
    rewrite Hbs, isSlugTakenOf_string.
    erewrite bind_Ok by (by apply isSlugTaken_run).
    cbn [landingPages noted].
    destruct (slugQuery_cases (landingPages w) slug)
      as [[_ Hnone] | (i & d & Hq & Hd & Hs)]; [by destruct (Hnone id' d')|].
    rewrite Hq. simpl.
    assert (Hne : i <> id).
    { intros ->. rewrite Hold in Hd. injection Hd as ->.
      unfold holdsSlug in Hs. congruence. }
    destruct (falsy id); [done|].
    by rewrite bool_decide_eq_false_2.
Qed.

Lemma PUT_page_rejects_witness :
  (landingPages twoPageWorld !! u "p1" = None ->
     PUT_page slugOnlyValidator moveSlugRequest (u "p1") twoPageWorld =
       (Ok (NextResponse_json (PError (u "Landing page not found")) 404),
        noted (CallAdapter "getLandingPageById") twoPageWorld)) /\
  (forall old errors,
     landingPages twoPageWorld !! u "p1" = Some old ->
     slugOnlyValidator cafeToTeaBody = Ok errors ->
     hasErrors errors = true ->
     PUT_page slugOnlyValidator moveSlugRequest (u "p1") twoPageWorld =
       (Ok (NextResponse_json (PErrors (u "Validation failed") errors) 400),
        noted CallValidator
          (noted (CallAdapter "getLandingPageById") twoPageWorld))) /\
  (forall old,
     landingPages twoPageWorld !! u "p1" = Some old ->
     slugOnlyValidator cafeToTeaBody = Thrown ->
     PUT_page slugOnlyValidator moveSlugRequest (u "p1") twoPageWorld =
       (Ok (NextResponse_json
              (PError (u "Server error updating landing page")) 500),
        noted CallValidator
          (noted (CallAdapter "getLandingPageById") twoPageWorld))) /\
  (forall old errors slug,
     landingPages twoPageWorld !! u "p1" = Some old ->
     slugOnlyValidator cafeToTeaBody = Ok errors ->
     hasErrors errors = false ->
     cafeToTeaBody !! "slug" = Some (VStr slug) ->
     cafeToTeaBody !! "slug" <> old !! "slug" ->
     (exists id' d', landingPages twoPageWorld !! id' = Some d'
                     /\ holdsSlug d' slug) ->
     PUT_page slugOnlyValidator moveSlugRequest (u "p1") twoPageWorld =
       (Ok (NextResponse_json
              (PErrors (u "Validation failed")
                 {[ "slug" := u "Slug is already taken" ]}) 400),
        noted (CallAdapter "isSlugTaken")
          (noted CallValidator
             (noted (CallAdapter "getLandingPageById") twoPageWorld)))).
Proof.
  apply (PUT_page_rejects slugOnlyValidator moveSlugRequest
           (u "p1") sampleAdmin cafeToTeaBody twoPageWorld); reflexivity.
Defined.

(** The refusals on the sample store: an unknown identifier, a slug the
    validator objects to, a body on which the validator throws, and the
    slug of the second record. *)
Example PUT_page_refusals :
  valueOf (PUT_page slugOnlyValidator editRequest (u "p9") twoPageWorld)
  = Ok (NextResponse_json (PError (u "Landing page not found")) 404) /\
  valueOf (PUT_page slugOnlyValidator (requestOf sampleAdmin badSlugBody)
             (u "p1") twoPageWorld)
  = Ok (NextResponse_json
          (PErrors (u "Validation failed")
             {[ "slug" := u "Slug must contain only lowercase letters, numbers, and hyphens" ]})
          400) /\
  valueOf (PUT_page slugOnlyValidator (requestOf sampleAdmin numberSlugBody)
             (u "p1") twoPageWorld)
  = Ok (NextResponse_json
          (PError (u "Server error updating landing page")) 500) /\
  valueOf (PUT_page slugOnlyValidator moveSlugRequest (u "p1") twoPageWorld)
  = Ok (NextResponse_json
          (PErrors (u "Validation failed")
             {[ "slug" := u "Slug is already taken" ]}) 400).
Proof. by vm_compute. Qed.

(** An edit that the validator lets pass and that keeps the record's own
    slug goes through without the uniqueness query: it is answered 200,
    the record becomes the stored one overwritten with the fields of the
    update, no other record changes, one [page_updated] audit entry with
    the record before and the body is written, and no rebuild is asked
    for, also when the body changes the status. *)
Theorem PUT_page_keeps_own_slug
    (validateLandingPageForm : Doc -> Result (gmap string jsstring))
    (request : Request) (id : jsstring)
    (admin : Admin) (body old : Doc) (errors : gmap string jsstring)
    (w : World) :
  currentAdmin request = Some admin ->
  json request = Some body ->
  storeUp w = true ->
  landingPages w !! id = Some old ->
  validateLandingPageForm body = Ok errors ->
  hasErrors errors = false ->
  body !! "slug" = old !! "slug" ->
  PUT_page validateLandingPageForm request id w =
    (Ok (NextResponse_json
           (PMessage (u "Landing page updated successfully")) 200),
     audited
       (auditEntry request admin (u "page_updated") id
          (Some (withId id old, Some body)))
       (set_landingPages
          (insert id (updateFields body (uid admin) (now request) old ∪ old))
          (noted (CallAdapter "getLandingPageById")
             (noted (CallAdapter "updateLandingPage")
                (noted CallValidator
                   (noted (CallAdapter "getLandingPageById") w)))))).
Proof.
  intros Hadmin Hjson Hup Hold Hv Herr Hslug.
  unfold PUT_page, try_catch, request_json.
  rewrite Hadmin, Hjson.
  rewrite (bind_Ok _ _ w w (Some admin)) by done.
  rewrite (bind_Ok _ _ w w body) by done.
  erewrite bind_Ok by (by apply getLandingPageById_run).
  rewrite Hold. cbn [fmap option_fmap option_map].
  unfold validate, bind at 1, lift. simpl. rewrite Hv, Herr.
  rewrite withId_lookup_ne by done.
  rewrite bool_decide_eq_true_2 by done.
  rewrite (bind_Ok _ _ _ _ false) by reflexivity.
  erewrite bind_Ok by (by apply updateLandingPage_run).
  reflexivity.
Qed.

Lemma PUT_page_keeps_own_slug_witness :
  PUT_page slugOnlyValidator editRequest (u "p1") cafeWorld =
    (Ok (NextResponse_json
           (PMessage (u "Landing page updated successfully")) 200),
     audited
       (auditEntry editRequest sampleAdmin (u "page_updated") (u "p1")
          (Some (withId (u "p1") cafeNoonPublished, Some cafeNoonBody)))
       (set_landingPages
          (insert (u "p1")
             (updateFields cafeNoonBody (uid sampleAdmin) (now editRequest)
                cafeNoonPublished ∪ cafeNoonPublished))
          (noted (CallAdapter "getLandingPageById")
             (noted (CallAdapter "updateLandingPage")
                (noted CallValidator
                   (noted (CallAdapter "getLandingPageById") cafeWorld)))))).
Proof.
  apply (PUT_page_keeps_own_slug slugOnlyValidator editRequest
           (u "p1") sampleAdmin cafeNoonBody cafeNoonPublished ∅ cafeWorld).
  - reflexivity.
  - reflexivity.
  - reflexivity.
  - reflexivity.
  - by vm_compute.
  - reflexivity.
  - reflexivity.
Defined.

(** Delete of an identifier that is not in the store is answered 404 and
    changes nothing; delete of a stored record is answered 200, removes
    exactly that record, and writes one [page_deleted] audit entry that
    keeps the record as it was. No rebuild is asked for in either case. *)
Theorem DELETE_page_effect (request : Request) (id : jsstring) (admin : Admin)
    (w : World) :
  currentAdmin request = Some admin ->
  storeUp w = true ->
  (landingPages w !! id = None ->
     DELETE_page request id w =
       (Ok (NextResponse_json (PError (u "Landing page not found")) 404),
        noted (CallAdapter "getLandingPageById") w)) /\
  (forall d,
     landingPages w !! id = Some d ->
     DELETE_page request id w =
       (Ok (NextResponse_json
              (PMessage (u "Landing page deleted successfully")) 200),
        audited
          (auditEntry request admin (u "page_deleted") id
             (Some (withId id d, None)))
          (set_landingPages (delete id)
             (noted (CallAdapter "getLandingPageById")
                (noted (CallAdapter "deleteLandingPage")
                   (noted (CallAdapter "getLandingPageById") w)))))).
Proof.
  intros Hadmin Hup. split.
  - intros Hnone. unfold DELETE_page, try_catch.
    rewrite Hadmin.
    rewrite (bind_Ok _ _ w w (Some admin)) by done.
    erewrite bind_Ok by (by apply getLandingPageById_run).
    by rewrite Hnone.
  - intros d Hd. unfold DELETE_page, try_catch.
    rewrite Hadmin.
    rewrite (bind_Ok _ _ w w (Some admin)) by done.
    erewrite bind_Ok by (by apply getLandingPageById_run).
    rewrite Hd. cbn [fmap option_fmap option_map].
    erewrite bind_Ok by (by eapply deleteLandingPage_run).
    reflexivity.
Qed.

Lemma DELETE_page_effect_witness :
  (landingPages cafeWorld !! u "p1" = None ->
     DELETE_page publishRequest (u "p1") cafeWorld =
       (Ok (NextResponse_json (PError (u "Landing page not found")) 404),
        noted (CallAdapter "getLandingPageById") cafeWorld)) /\
  (forall d,
     landingPages cafeWorld !! u "p1" = Some d ->
     DELETE_page publishRequest (u "p1") cafeWorld =
       (Ok (NextResponse_json
              (PMessage (u "Landing page deleted successfully")) 200),
        audited
          (auditEntry publishRequest sampleAdmin (u "page_deleted") (u "p1")
             (Some (withId (u "p1") d, None)))
          (set_landingPages (delete (u "p1"))
             (noted (CallAdapter "getLandingPageById")
                (noted (CallAdapter "deleteLandingPage")
                   (noted (CallAdapter "getLandingPageById") cafeWorld)))))).
Proof.
  apply (DELETE_page_effect publishRequest (u "p1") sampleAdmin cafeWorld);
    reflexivity.
Defined.

(** ** The store out of reach *)

(** With the store out of reach an authenticated request that gets as far
    as the store is answered 500: listing, reading and deleting always,
    updating whenever the body parses, toggling whenever [publish] is a
    boolean, creating whenever the validator lets the body pass. No
    record, audit entry or rebuild counter changes. *)
Theorem store_down_answers_500 (toLowerCase : jsstring -> jsstring)
    (validateLandingPageForm : Doc -> Result (gmap string jsstring))
    (autoId : gmap jsstring Doc -> jsstring)
    (request : Request) (id : jsstring) (admin : Admin) (w : World) :
  currentAdmin request = Some admin ->
  storeUp w = false ->
  (statusOf (GET_list toLowerCase request w) = Some 500
   /\ sameData w (worldOf (GET_list toLowerCase request w))) /\
  (statusOf (GET_page request id w) = Some 500
   /\ sameData w (worldOf (GET_page request id w))) /\
  (statusOf (DELETE_page request id w) = Some 500
   /\ sameData w (worldOf (DELETE_page request id w))) /\
  (forall body, json request = Some body ->
     statusOf (PUT_page validateLandingPageForm request id w) = Some 500
     /\ sameData w (worldOf (PUT_page validateLandingPageForm request id w))) /\
  (forall body b, json request = Some body ->
     body !! "publish" = Some (VBool b) ->
     statusOf (POST_publish request id w) = Some 500
     /\ sameData w (worldOf (POST_publish request id w))) /\
  (forall body errors, json request = Some body ->
     validateLandingPageForm body = Ok errors ->
     hasErrors errors = false ->
     statusOf (POST_create validateLandingPageForm autoId request w)
       = Some 500
     /\ sameData w
          (worldOf (POST_create validateLandingPageForm autoId request w))).
Proof.
  intros Hadmin Hdown. unfold sameData.
  repeat split; intros;
    unfold GET_list, GET_page, DELETE_page, PUT_page, POST_publish,
      POST_create, getLandingPages, getLandingPageById, validate,
      queryGet, docGet, reach, request_json, try_catch, entered, modify, gets,
      bind, ret, lift, statusOf, valueOf, worldOf;
    rewrite Hadmin; simpl;
    repeat match goal with
           | H : json request = Some _ |- _ => rewrite H; clear H
           | H : _ !! "publish" = Some _ |- _ => rewrite H; clear H
           | H : validateLandingPageForm _ = Ok _ |- _ => rewrite H; clear H
           | H : hasErrors _ = false |- _ => rewrite H; clear H
           end;
    simpl; rewrite ?Hdown; try done;
    unfold isSlugTakenOf, isSlugTakenAny, queryGet, reach, throw, entered,
      modify, gets, bind, ret;
    match goal with
    | |- context [ ?body !! "slug" ] => destruct (body !! "slug")
    end;
    simpl; rewrite ?Hdown; done.
Qed.

Lemma store_down_answers_500_witness :
  (statusOf (GET_list toLowerCase_ascii createRequest cafeWorldDown)
     = Some 500
   /\ sameData cafeWorldDown
        (worldOf (GET_list toLowerCase_ascii createRequest cafeWorldDown))) /\
  (statusOf (GET_page createRequest (u "p1") cafeWorldDown) = Some 500
   /\ sameData cafeWorldDown
        (worldOf (GET_page createRequest (u "p1") cafeWorldDown))) /\
  (statusOf (DELETE_page createRequest (u "p1") cafeWorldDown)
     = Some 500
   /\ sameData cafeWorldDown
        (worldOf (DELETE_page createRequest (u "p1") cafeWorldDown))) /\
  (forall body, json createRequest = Some body ->
     statusOf (PUT_page slugOnlyValidator createRequest
                           (u "p1") cafeWorldDown) = Some 500
     /\ sameData cafeWorldDown
          (worldOf (PUT_page slugOnlyValidator createRequest
                      (u "p1") cafeWorldDown))) /\
  (forall body b, json createRequest = Some body ->
     body !! "publish" = Some (VBool b) ->
     statusOf (POST_publish createRequest (u "p1") cafeWorldDown)
       = Some 500
     /\ sameData cafeWorldDown
          (worldOf (POST_publish createRequest (u "p1") cafeWorldDown))) /\
  (forall body errors, json createRequest = Some body ->
     slugOnlyValidator body = Ok errors ->
     hasErrors errors = false ->
     statusOf (POST_create slugOnlyValidator
                           (fun _ => u "p2") createRequest cafeWorldDown)
       = Some 500
     /\ sameData cafeWorldDown
          (worldOf (POST_create slugOnlyValidator
                      (fun _ => u "p2") createRequest cafeWorldDown))).
Proof.
  apply (store_down_answers_500 toLowerCase_ascii slugOnlyValidator
           (fun _ => u "p2") createRequest (u "p1") sampleAdmin cafeWorldDown);
    reflexivity.
Defined.

(** On the sample store out of reach: the create request of the scenario
    and the toggle. *)
Example store_down_create_and_toggle :
  statusOf (POST_create slugOnlyValidator (fun _ => u "p2") createRequest
              cafeWorldDown) = Some 500 /\
  statusOf (PUT_page slugOnlyValidator editRequest (u "p1") cafeWorldDown)
    = Some 500 /\
  statusOf (POST_publish publishRequest (u "p1") cafeWorldDown) = Some 500.
Proof. by vm_compute. Qed.

(** ** What the endpoints leave alone *)

#[global] Instance sameRebuilds_refl : Reflexive sameRebuilds.
Proof. by intros w. Qed.

#[global] Instance sameRebuilds_trans : Transitive sameRebuilds.
Proof. unfold sameRebuilds. intros a b c H1 H2. congruence. Qed.

#[global] Instance sameData_refl : Reflexive sameData.
Proof. by intros w. Qed.

#[global] Instance sameData_trans : Transitive sameData.
Proof.
  unfold sameData. intros a b c (H1 & H2 & H3) (H4 & H5 & H6).
  repeat split; congruence.
Qed.

Section Preserves.

Variable R : World -> World -> Prop.
Context `{!Reflexive R, !Transitive R}.

Lemma preserves_ret {A} (a : A) : preserves R (ret a).
Proof. intros w. reflexivity. Qed.

Lemma preserves_throw {A} : preserves R (@throw A).
Proof. intros w. reflexivity. Qed.

Lemma preserves_lift {A} (r : Result A) : preserves R (lift r).
Proof. intros w. reflexivity. Qed.

Lemma preserves_gets {A} (f : World -> A) : preserves R (gets f).
Proof. intros w. reflexivity. Qed.

Lemma preserves_reach : preserves R reach.
Proof. intros w. unfold reach, worldOf. destruct (storeUp w); reflexivity. Qed.

Lemma preserves_modify (f : World -> World) :
  (forall w, R w (f w)) -> preserves R (modify f).
Proof. intros H w. apply H. Qed.

Lemma preserves_bind {A B} (m : M A) (k : A -> M B) :
  preserves R m -> (forall a, preserves R (k a)) -> preserves R (bind m k).
Proof.
  intros Hm Hk w. unfold bind, worldOf. specialize (Hm w).
  unfold worldOf in Hm. destruct (m w) as [[a|] w']; simpl in *; [|done].
  etransitivity; [exact Hm | apply Hk].
Qed.

Lemma preserves_try_catch {A} (m h : M A) :
  preserves R m -> preserves R h -> preserves R (try_catch m h).
Proof.
  intros Hm Hh w. unfold try_catch, worldOf. specialize (Hm w).
  unfold worldOf in Hm. destruct (m w) as [[a|] w']; simpl in *; [done|].
  etransitivity; [exact Hm | apply Hh].
Qed.

End Preserves.

(** One step of a proof that a handler preserves a relation; [side]
    settles the obligation of a [modify]. *)
Ltac preserves_step side :=
  first
    [ match goal with
      | |- Reflexive _ => apply _
      | |- Transitive _ => apply _
      | |- forall _, preserves _ _ => intros ?
      end
    | apply preserves_ret | apply preserves_throw | apply preserves_lift
    | apply preserves_gets | apply preserves_reach
    | apply preserves_modify; intros ?; side
    | apply preserves_try_catch
    | apply preserves_bind
    | match goal with
      | |- preserves _ (match ?x with _ => _ end) => destruct x
      | |- preserves _ (if ?b then _ else _) => destruct b
      end ].

Ltac preserves_all side :=
  unfold GET_list, POST_create, GET_page, PUT_page, DELETE_page, POST_publish,
    getLandingPages, getLandingPageById, isSlugTakenOf, isSlugTakenAny,
    createLandingPage,
    updateLandingPage, deleteLandingPage, getPublishedLandingPages, validate,
    logAuditEvent, request_json, queryGet, docGet, docAdd, docUpdate,
    docDelete, entered;
  cbv zeta; repeat preserves_step side.

(** Listing, creating, reading, updating and deleting never ask for a
    rebuild, whatever the request and the state of the store: a rebuild
    is asked for by the publish toggle only, not by an update or a create
    that sets the status to published, nor by the deletion of a published
    record. *)
Theorem only_the_toggle_rebuilds (toLowerCase : jsstring -> jsstring)
    (validateLandingPageForm : Doc -> Result (gmap string jsstring))
    (autoId : gmap jsstring Doc -> jsstring)
    (request : Request) (id : jsstring) (w : World) :
  rebuildRequests (worldOf (GET_list toLowerCase request w))
    = rebuildRequests w /\
  rebuildRequests
    (worldOf (POST_create validateLandingPageForm autoId request w))
    = rebuildRequests w /\
  rebuildRequests (worldOf (GET_page request id w)) = rebuildRequests w /\
  rebuildRequests (worldOf (PUT_page validateLandingPageForm request id w))
    = rebuildRequests w /\
  rebuildRequests (worldOf (DELETE_page request id w)) = rebuildRequests w.
Proof.
  assert (H1 : preserves sameRebuilds (GET_list toLowerCase request))
    by (preserves_all ltac:(reflexivity)).
  assert (H2 : preserves sameRebuilds
                 (POST_create validateLandingPageForm autoId request))
    by (preserves_all ltac:(reflexivity)).
  assert (H3 : preserves sameRebuilds (GET_page request id))
    by (preserves_all ltac:(reflexivity)).
  assert (H4 : preserves sameRebuilds
                 (PUT_page validateLandingPageForm request id))
    by (preserves_all ltac:(reflexivity)).
  assert (H5 : preserves sameRebuilds (DELETE_page request id))
    by (preserves_all ltac:(reflexivity)).
  repeat split; [apply H1 | apply H2 | apply H3 | apply H4 | apply H5].
Qed.

(** The two reading endpoints change no record, write no audit entry and
    ask for no rebuild, whatever the request and the state of the store. *)
Theorem GET_endpoints_read_only (toLowerCase : jsstring -> jsstring)
    (request : Request) (id : jsstring) (w : World) :
  sameData w (worldOf (GET_list toLowerCase request w)) /\
  sameData w (worldOf (GET_page request id w)).
Proof.
  assert (H1 : preserves sameData (GET_list toLowerCase request))
    by (preserves_all ltac:(by repeat split)).
  assert (H2 : preserves sameData (GET_page request id))
    by (preserves_all ltac:(by repeat split)).
  split; [apply H1 | apply H2].
Qed.

(* ===================================================================== *)
(** * Further properties of the sitemap                                   *)
(* ===================================================================== *)

Lemma getPublishedLandingPages_run (w : World) :
  storeUp w = true ->
  exists pages,
    getPublishedLandingPages w
      = (Ok pages, noted (CallAdapter "getPublishedLandingPages") w) /\
    forall page,
      page ∈ pages <->
      exists id d,
        storedAs w page id d /\
        d !! "status" = Some (VStr (u "published")) /\
        is_Some (d !! "publishedAt").
Proof.
  intros Hup.
  unfold getPublishedLandingPages, queryGet, reach, entered, modify, gets,
    bind, ret, noted. simpl. rewrite Hup. simpl.
  eexists. split; [reflexivity|].
  intros page. rewrite list_elem_of_fmap. split.
  - intros ([id d] & -> & Hin).
    apply orderByDesc_elem_of in Hin as [Hin Hpa].
    apply where_elem_of in Hin as [Hin Hst].
    apply byName_elem_of in Hin. by exists id, d.
  - intros (id & d & [Hd ->] & Hst & Hpa).
    exists (id, d). split; [done|].
    apply orderByDesc_elem_of. split; [|done].
    apply where_elem_of. split; [|done]. by apply byName_elem_of.
Qed.

(** The sitemap never fails and always starts with the entry of the site
    root, and generating it changes nothing. With the store in reach it
    is the five static entries followed by the entries of exactly the
    stored records whose status is published and that have a
    [publishedAt] field: a draft or archived record never gets an entry.
    The entry of a record with slug [s] and update time [t] has the url
    site-root/[s], [t] as its date, monthly frequency and priority 0.8. *)
Theorem sitemap_lists_published (SITE_URL : jsstring)
    (String_ : option Value -> jsstring) (newDate : option Value -> Value)
    (now : Z) (w : World) :
  (exists rest,
     valueOf (sitemap SITE_URL String_ newDate now w)
       = Ok (rootEntry SITE_URL now :: rest)) /\
  sameData w (worldOf (sitemap SITE_URL String_ newDate now w)) /\
  (storeUp w = true ->
   exists pages,
     valueOf (sitemap SITE_URL String_ newDate now w)
       = Ok (staticPages SITE_URL now
             ++ (pageEntry SITE_URL String_ newDate <$> pages)) /\
     forall page,
       page ∈ pages <->
       exists id d,
         storedAs w page id d /\
         d !! "status" = Some (VStr (u "published")) /\
         is_Some (d !! "publishedAt")) /\
  (forall page s t,
     page !! "slug" = Some (VStr s) ->
     page !! "updatedAt" = Some (VDate t) ->
     pageEntry SITE_URL String_ newDate page =
       {| url := SITE_URL ++ u "/" ++ s; lastModified := VDate t;
          changeFrequency := u "monthly"; priority := 8 # 10 |}).
Proof.
  split; [|split; [|split]].
  - unfold sitemap, getPublishedLandingPages, try_catch, queryGet, reach,
      entered, modify, gets, bind, ret, valueOf.
    simpl. destruct (storeUp w); simpl; by eexists.
  - assert (H : preserves sameData (sitemap SITE_URL String_ newDate now)).
    { unfold sitemap. preserves_all ltac:(by repeat split). }
    apply H.
  - intros Hup.
    destruct (getPublishedLandingPages_run w Hup) as (pages & Hrun & Hin).
    exists pages. split; [|exact Hin].
    unfold sitemap, try_catch, valueOf.
    erewrite bind_Ok by exact Hrun. reflexivity.
  - intros page s t Hs Ht. unfold pageEntry, interpolate. by rewrite Hs, Ht.
Qed.

Lemma sitemap_lists_published_witness :
  (exists rest,
     valueOf (sitemap kashpages (fun _ => u "undefined") (fun _ => VNull) 3000
                twoPageWorld)
       = Ok (rootEntry kashpages 3000 :: rest)) /\
  sameData twoPageWorld
    (worldOf (sitemap kashpages (fun _ => u "undefined") (fun _ => VNull) 3000
                twoPageWorld)) /\
  (storeUp twoPageWorld = true ->
   exists pages,
     valueOf (sitemap kashpages (fun _ => u "undefined") (fun _ => VNull) 3000
                twoPageWorld)
       = Ok (staticPages kashpages 3000
             ++ (pageEntry kashpages (fun _ => u "undefined") (fun _ => VNull)
                   <$> pages)) /\
     forall page,
       page ∈ pages <->
       exists id d,
         storedAs twoPageWorld page id d /\
         d !! "status" = Some (VStr (u "published")) /\
         is_Some (d !! "publishedAt")) /\
  (forall page s t,
     page !! "slug" = Some (VStr s) ->
     page !! "updatedAt" = Some (VDate t) ->
     pageEntry kashpages (fun _ => u "undefined") (fun _ => VNull) page =
       {| url := kashpages ++ u "/" ++ s; lastModified := VDate t;
          changeFrequency := u "monthly"; priority := 8 # 10 |}).
Proof.
  apply (sitemap_lists_published kashpages (fun _ => u "undefined")
           (fun _ => VNull) 3000 twoPageWorld).
Defined.

(** On the store with a published record and a draft, the sitemap has the
    five static entries and the entry of the published record only. *)
Example sitemap_skips_draft :
  valueOf (sitemap kashpages (fun _ => u "undefined") (fun _ => VNull) 3000
             twoPageWorld)
  = Ok (staticPages kashpages 3000 ++
        [ {| url := u "https://kashpages.in/cafe-noon";
             lastModified := VDate 1000;
             changeFrequency := u "monthly"; priority := 8 # 10 |} ]).
Proof. by vm_compute. Qed.

(* ===================================================================== *)
(** * Properties of the login endpoint                                    *)
(* ===================================================================== *)

(** Login answers 200 exactly when the body carries a non-empty string
    token that the verifier finds to belong to an admin; only then is the
    session cookie set, to that token, and the answer carries the admin's
    uid, e-mail and display name. In every other case the cookie is left
    as it was: a missing, empty or non-string token is answered 400
    whatever the verifier would say, a token of somebody who is no admin
    403, and a body that does not parse or a verifier that raises 500. *)
Theorem POST_login_sets_cookie_for_admins_only
    (verifyAdminToken : jsstring -> Result (option Admin))
    (json : option Doc) (cookie : option jsstring) :
  (loginStatus (fst (POST_login verifyAdminToken json cookie)) = 200 <->
   exists body token admin,
     json = Some body /\ body !! "token" = Some (VStr token) /\ token <> [] /\
     verifyAdminToken token = Ok (Some admin) /\
     POST_login verifyAdminToken json cookie =
       ({| loginPayload := LAdmin (uid admin) (email admin) (displayName admin);
           loginStatus := 200 |}, Some token)) /\
  (loginStatus (fst (POST_login verifyAdminToken json cookie)) <> 200 ->
   snd (POST_login verifyAdminToken json cookie) = cookie) /\
  (forall body,
     json = Some body ->
     (forall token, body !! "token" = Some (VStr token) -> token = []) ->
     forall verify',
       loginStatus (fst (POST_login verify' json cookie)) = 400) /\
  (forall body token,
     json = Some body -> body !! "token" = Some (VStr token) -> token <> [] ->
     verifyAdminToken token = Ok None ->
     loginStatus (fst (POST_login verifyAdminToken json cookie)) = 403) /\
  (json = None ->
     POST_login verifyAdminToken json cookie =
       ({| loginPayload := LError (u "Server error during login");
           loginStatus := 500 |}, cookie)) /\
  (forall body token,
     json = Some body -> body !! "token" = Some (VStr token) -> token <> [] ->
     verifyAdminToken token = Thrown ->
     POST_login verifyAdminToken json cookie =
       ({| loginPayload := LError (u "Server error during login");
           loginStatus := 500 |}, cookie)) /\
  (loginStatus (fst (POST_login verifyAdminToken json cookie)) = 200 \/
   loginStatus (fst (POST_login verifyAdminToken json cookie)) = 400 \/
   loginStatus (fst (POST_login verifyAdminToken json cookie)) = 403 \/
   loginStatus (fst (POST_login verifyAdminToken json cookie)) = 500).
Proof.
  unfold POST_login.
  split; [|split; [|split; [|split; [|split; [|split]]]]].
  - split.
    + destruct json as [body|]; [|done].
      destruct (body !! "token") as [[| | | token |]|] eqn:Ht; try done.
      destruct (falsy token) eqn:Hf; [done|].
      destruct (verifyAdminToken token) as [[admin|]|] eqn:Hv; try done.
      intros _. exists body, token, admin.
      apply falsy_false in Hf. done.
    + intros (body & token & admin & -> & Ht & Hne & Hv & ->). done.
  - destruct json as [body|]; [|done].
    destruct (body !! "token") as [[| | | token |]|]; try done.
    destruct (falsy token); [done|].
    by destruct (verifyAdminToken token) as [[admin|]|].
  - intros body -> Hno verify'.
    destruct (body !! "token") as [[| | | token |]|]; try done.
    by rewrite (Hno token eq_refl).
  - intros body token -> Ht Hne Hv. rewrite Ht.
    apply falsy_false in Hne. by rewrite Hne, Hv.
  - by intros ->.
  - intros body token -> Ht Hne Hv. rewrite Ht.
    apply falsy_false in Hne. by rewrite Hne, Hv.
  - destruct json as [body|]; [|by right; right; right].
    destruct (body !! "token") as [[| | | token |]|]; try by right; left.
    destruct (falsy token); [by right; left|].
    destruct (verifyAdminToken token) as [[admin|]|];
      [by left | by right; right; left | by right; right; right].
Qed.
